(** * WhatsgateClient: a shallow embedding of the gateway client

    The Go package [whatsgate] (src/whatsgate.go, and the older variant of
    the same package that only has [SendMessage]) is a thin wrapper around
    a REST gateway: build a request struct, [json.Marshal] it, POST it
    through an [http.Client] whose transport adds two headers, read the
    response, [json.Unmarshal] it.

    Layout of this development:
    - bytes, UTF-8 and the parts of the Go standard library the package
      calls ([encoding/json], [encoding/base64], [net/textproto],
      [net/http]), modelled as executable functions;
    - the state the package runs in (the [Client] behind the receiver
      pointer, the network, the log and standard output) and a small state
      monad over it;
    - the package's own functions, translated one to one;
    - the wording of the specification ("well formed", "copied
      verbatim") as definitions of its own, and the vocabulary of the
      statements;
    - the properties: the library models against each other (what the
      writer writes the reader reads back, the store step does what the
      wording says), what [http.Client.Do] does with redirects, then
      the statements about the package, then each of them at a concrete
      setting.

    Go's [string] and [[]byte] are both sequences of bytes; both are Rocq's
    [string] here (a list of 8-bit [ascii]).

    Outside the model: a receiver or an [httpClient] that is [nil] (the
    clients are those of [NewClient]); cookies (the client has no jar)
    and the [Authorization] header that [net/http] derives from user
    information in a URL; the closing of response bodies; time. *)

From Stdlib Require Import NArith ZArith Ascii String List Lia Bool.
From stdpp Require Import base option gmap strings list.

Local Open Scope N_scope.

(** ** Bytes *)

Definition byte := ascii.

Definition code (c : byte) : N := N_of_ascii c.
Definition chr (n : N) : byte := ascii_of_N n.

Definition dquote : byte := "034"%char.
Definition backslash : byte := "092"%char.

Definition byte_in (lo hi : N) (c : byte) : bool :=
  (lo <=? code c) && (code c <=? hi).

Definition is_digit (c : byte) : bool := byte_in 48 57 c.
Definition is_lower (c : byte) : bool := byte_in 97 122 c.
Definition is_upper (c : byte) : bool := byte_in 65 90 c.

Definition to_upper (c : byte) : byte :=
  if is_lower c then chr (code c - 32) else c.
Definition to_lower (c : byte) : byte :=
  if is_upper c then chr (code c + 32) else c.

Fixpoint sdrop (n : nat) (s : string) : string :=
  match n, s with
  | O, _ => s
  | S _, EmptyString => EmptyString
  | S k, String _ r => sdrop k r
  end.

Fixpoint stake (n : nat) (s : string) : string :=
  match n, s with
  | O, _ => EmptyString
  | S _, EmptyString => EmptyString
  | S k, String c r => String c (stake k r)
  end.

Fixpoint string_forallb (p : byte -> bool) (s : string) : bool :=
  match s with
  | EmptyString => true
  | String c r => p c && string_forallb p r
  end.

(** ** unicode/utf8 *)

Module utf8.

Definition RuneError : N := 65533.    (* U+FFFD *)
Definition MaxRune : N := 1114111.    (* U+10FFFF *)
Definition RuneSelf : N := 128.

Definition cont (c : byte) : bool := byte_in 128 191 c.
Definition low6 (c : byte) : N := N.land (code c) 63.

(** [DecodeRune p]: the first rune of [p] and its width in bytes;
    [(RuneError, 0)] on empty input and [(RuneError, 1)] when the
    encoding is invalid (over-long forms, surrogates and values above
    [MaxRune] are invalid, as the accept ranges of the library have it). *)
Definition DecodeRune (p : string) : N * nat :=
  match p with
  | EmptyString => (RuneError, 0%nat)
  | String b0 r =>
    let x := code b0 in
    if x <? 128 then (x, 1%nat)
    else if byte_in 194 223 b0 then
      match r with
      | String b1 _ =>
        if cont b1 then (N.land x 31 * 64 + low6 b1, 2%nat)
        else (RuneError, 1%nat)
      | _ => (RuneError, 1%nat)
      end
    else if byte_in 224 239 b0 then
      match r with
      | String b1 (String b2 _) =>
        let lo := if x =? 224 then 160 else 128 in
        let hi := if x =? 237 then 159 else 191 in
        if byte_in lo hi b1 && cont b2
        then (N.land x 15 * 4096 + low6 b1 * 64 + low6 b2, 3%nat)
        else (RuneError, 1%nat)
      | _ => (RuneError, 1%nat)
      end
    else if byte_in 240 244 b0 then
      match r with
      | String b1 (String b2 (String b3 _)) =>
        let lo := if x =? 240 then 144 else 128 in
        let hi := if x =? 244 then 143 else 191 in
        if byte_in lo hi b1 && cont b2 && cont b3
        then (N.land x 7 * 262144 + low6 b1 * 4096 + low6 b2 * 64 + low6 b3,
              4%nat)
        else (RuneError, 1%nat)
      | _ => (RuneError, 1%nat)
      end
    else (RuneError, 1%nat)
  end.

Definition is_surrogate (r : N) : bool := (55296 <=? r) && (r <=? 57343).

Definition tail6 (r : N) : byte := chr (128 + N.land r 63).

(** [EncodeRune r]: the UTF-8 encoding of [r]; a surrogate or a value
    above [MaxRune] is encoded as [RuneError]. *)
Definition EncodeRune (r : N) : string :=
  let r := if is_surrogate r || (MaxRune <? r) then RuneError else r in
  if r <? 128 then String (chr r) EmptyString
  else if r <? 2048 then
    String (chr (192 + N.shiftr r 6)) (String (tail6 r) EmptyString)
  else if r <? 65536 then
    String (chr (224 + N.shiftr r 12))
      (String (tail6 (N.shiftr r 6)) (String (tail6 r) EmptyString))
  else
    String (chr (240 + N.shiftr r 18))
      (String (tail6 (N.shiftr r 12))
         (String (tail6 (N.shiftr r 6)) (String (tail6 r) EmptyString))).

(** Every invalid byte replaced by U+FFFD, the way [encoding/json]
    coerces the strings it reads and writes. *)
Fixpoint coerce_from (skip : nat) (s : string) : string :=
  match s with
  | EmptyString => EmptyString
  | String c r =>
    match skip with
    | S k => coerce_from k r
    | O =>
      let '(rn, size) := DecodeRune s in
      (EncodeRune rn +:+ coerce_from (size - 1) r)%nat
    end
  end.

Definition coerce (s : string) : string := coerce_from 0 s.

Definition Valid (s : string) : bool := String.eqb (coerce s) s.

End utf8.

(** ** encoding/json: the reader

    [json.Unmarshal] first checks that the whole input is one JSON value
    (the scanner of the library), then stores the value into the target.
    The model reads the input into a tree and stores the tree; object
    members stay in input order, duplicates included, and a number keeps
    its literal text, because that is what the store step works from. *)

#[local] Set Warnings "-register-all".

Inductive json : Type :=
| JNull
| JBool (b : bool)
| JNumber (lit : string)
| JString (s : string)
| JArray (elems : list json)
| JObject (members : list (string * json)).

(** Outcome of reading a prefix of the input. *)
Inductive scan (A : Type) : Type :=
| Scanned (a : A) (rest : string)   (* a complete item, and what follows it *)
| Invalid                           (* a byte that cannot continue the text *)
| Truncated                         (* the input ended inside the item *)
| OutOfFuel.
Arguments Scanned {A} a rest.
Arguments Invalid {A}.
Arguments Truncated {A}.
Arguments OutOfFuel {A}.

Definition scan_bind {A B} (x : scan A) (k : A -> string -> scan B) : scan B :=
  match x with
  | Scanned a rest => k a rest
  | Invalid => Invalid
  | Truncated => Truncated
  | OutOfFuel => OutOfFuel
  end.

Definition scan_map {A B} (f : A -> B) (x : scan A) : scan B :=
  scan_bind x (fun a rest => Scanned (f a) rest).

Module scanner.

Definition maxNestingDepth : N := 10000.

Definition isSpace (c : byte) : bool :=
  Ascii.eqb c " " || Ascii.eqb c "009" || Ascii.eqb c "013"
  || Ascii.eqb c "010".

Fixpoint skip_space (s : string) : string :=
  match s with
  | String c r => if isSpace c then skip_space r else s
  | EmptyString => s
  end.

Definition is_hex (c : byte) : bool :=
  is_digit c || byte_in 97 102 c || byte_in 65 70 c.

Definition is_escape (c : byte) : bool :=
  Ascii.eqb c "b" || Ascii.eqb c "f" || Ascii.eqb c "n" || Ascii.eqb c "r"
  || Ascii.eqb c "t" || Ascii.eqb c backslash || Ascii.eqb c "/"
  || Ascii.eqb c dquote.

(** Where the scanner is inside a string literal: [stateInString],
    [stateInStringEsc], and [stateInStringEscU..U123] with the number of
    hex digits still due. *)
Inductive strstate := InString | InStringEsc | InStringEscU (due : nat).

(** [scan_string st s]: [s] follows the opening quote; the result is the
    text between the quotes, still escaped. *)
Fixpoint scan_string (st : strstate) (s : string) : scan string :=
  match s with
  | EmptyString => Truncated
  | String c r =>
    match st with
    | InString =>
      if Ascii.eqb c dquote then Scanned EmptyString r
      else if Ascii.eqb c backslash then
        scan_map (String c) (scan_string InStringEsc r)
      else if code c <? 32 then Invalid
      else scan_map (String c) (scan_string InString r)
    | InStringEsc =>
      if is_escape c then scan_map (String c) (scan_string InString r)
      else if Ascii.eqb c "u" then
        scan_map (String c) (scan_string (InStringEscU 4) r)
      else Invalid
    | InStringEscU due =>
      if is_hex c then
        scan_map (String c)
          (scan_string (match due with
                        | S (S k) => InStringEscU (S k)
                        | _ => InString
                        end) r)
      else Invalid
    end
  end.

Fixpoint span_digits (s : string) : string * string :=
  match s with
  | String c r =>
    if is_digit c then let '(d, rest) := span_digits r in (String c d, rest)
    else (EmptyString, s)
  | EmptyString => (EmptyString, s)
  end.

(** One or more digits ([stateDot]/[stateDot0], [stateESign]/[stateE0]). *)
Definition scan_digits1 (s : string) : scan string :=
  match s with
  | EmptyString => Truncated
  | String c _ =>
    if is_digit c then let '(d, rest) := span_digits s in Scanned d rest
    else Invalid
  end.

(** The integer part: [0], or a non-zero digit and more digits. *)
Definition scan_int (s : string) : scan string :=
  match s with
  | EmptyString => Truncated
  | String c r =>
    if Ascii.eqb c "0" then Scanned "0" r
    else if is_digit c then
      let '(d, rest) := span_digits r in Scanned (String c d) rest
    else Invalid
  end.

Definition scan_frac (s : string) : scan string :=
  match s with
  | String c r =>
    if Ascii.eqb c "." then scan_map (String c) (scan_digits1 r)
    else Scanned EmptyString s
  | EmptyString => Scanned EmptyString s
  end.

Definition scan_exp (s : string) : scan string :=
  match s with
  | String c r =>
    if Ascii.eqb c "e" || Ascii.eqb c "E" then
      match r with
      | String g r' =>
        if Ascii.eqb g "+" || Ascii.eqb g "-"
        then scan_map (fun d => String c (String g d)) (scan_digits1 r')
        else scan_map (String c) (scan_digits1 r)
      | EmptyString => Truncated
      end
    else Scanned EmptyString s
  | EmptyString => Scanned EmptyString s
  end.

(** A number literal; [s] starts at its first byte. *)
Definition scan_number (s : string) : scan string :=
  let '(sign, s1) :=
    match s with
    | String c r => if Ascii.eqb c "-" then (String c EmptyString, r)
                    else (EmptyString, s)
    | EmptyString => (EmptyString, s)
    end in
  scan_bind (scan_int s1) (fun i s2 =>
  scan_bind (scan_frac s2) (fun f s3 =>
  scan_bind (scan_exp s3) (fun e s4 =>
  Scanned (sign +:+ i +:+ f +:+ e) s4))).

(** The rest of [true], [false] or [null] after its first letter. *)
Fixpoint scan_literal (lit : string) (s : string) : scan unit :=
  match lit with
  | EmptyString => Scanned tt s
  | String l lit' =>
    match s with
    | EmptyString => Truncated
    | String c r => if Ascii.eqb c l then scan_literal lit' r else Invalid
    end
  end.

End scanner.

(** The decoder's [unquote]: the text between the quotes with escapes
    resolved; invalid UTF-8 becomes U+FFFD. It is applied to text the
    scanner accepted. *)
Module unquote.

Definition hexval (c : byte) : N :=
  if is_digit c then code c - 48
  else if byte_in 97 102 c then code c - 87
  else code c - 55.

(** [getu4 s]: the rune of a [\uXXXX] at the start of [s]. *)
Definition getu4 (s : string) : option N :=
  match s with
  | String b (String u (String h1 (String h2 (String h3 (String h4 _))))) =>
    if Ascii.eqb b backslash && Ascii.eqb u "u" && scanner.is_hex h1
       && scanner.is_hex h2 && scanner.is_hex h3 && scanner.is_hex h4
    then Some (hexval h1 * 4096 + hexval h2 * 256 + hexval h3 * 16 + hexval h4)
    else None
  | _ => None
  end.

(** [utf16.DecodeRune]: the rune of a surrogate pair, U+FFFD if the two
    halves are not a pair. *)
Definition utf16_DecodeRune (r1 r2 : N) : N :=
  if (55296 <=? r1) && (r1 <? 56320) && (56320 <=? r2) && (r2 <? 57344)
  then (r1 - 55296) * 1024 + (r2 - 56320) + 65536
  else utf8.RuneError.

Definition escaped (c : byte) : byte :=
  if Ascii.eqb c "b" then "008"%char
  else if Ascii.eqb c "f" then "012"%char
  else if Ascii.eqb c "n" then "010"%char
  else if Ascii.eqb c "r" then "013"%char
  else if Ascii.eqb c "t" then "009"%char
  else c.

(** [skip] counts bytes of [s] that an earlier step already consumed. *)
Fixpoint from (skip : nat) (s : string) : string :=
  match s with
  | EmptyString => EmptyString
  | String c r =>
    match skip with
    | S k => from k r
    | O =>
      if Ascii.eqb c backslash then
        match r with
        | EmptyString => EmptyString
        | String e _ =>
          if Ascii.eqb e "u" then
            match getu4 s with
            | None => EmptyString
            | Some rr =>
              if utf8.is_surrogate rr then
                let dec := match getu4 (sdrop 6 s) with
                           | Some rr1 => utf16_DecodeRune rr rr1
                           | None => utf8.RuneError
                           end in
                if dec =? utf8.RuneError
                then utf8.EncodeRune utf8.RuneError +:+ from 5 r
                else utf8.EncodeRune dec +:+ from 11 r
              else utf8.EncodeRune rr +:+ from 5 r
            end
          else String (escaped e) (from 1 r)
        end
      else if code c <? utf8.RuneSelf then String c (from 0 r)
      else
        let '(rn, size) := utf8.DecodeRune s in
        (utf8.EncodeRune rn +:+ from (size - 1) r)%nat
    end
  end.

End unquote.

Definition unquote (raw : string) : string := unquote.from 0 raw.

Module parser.
Import scanner.

(** [value fuel depth s] reads one JSON value from the start of [s]
    (after optional white space); [depth] is the number of objects and
    arrays that are open around it. [members] and [elements] read the
    inside of an object and of an array that is known not to be empty.
    Each step down uses one unit of fuel and at most two steps are
    taken per byte read, so fuel above twice the length of the input is
    never used up ([first_value_fuel] below). *)
Fixpoint value (fuel : nat) (depth : N) (s : string) {struct fuel}
  : scan json :=
  match fuel with
  | O => OutOfFuel
  | S fuel =>
    match skip_space s with
    | EmptyString => Truncated
    | String c r =>
      if Ascii.eqb c "{" then
        if maxNestingDepth <? depth + 1 then Invalid
        else
          match skip_space r with
          | EmptyString => Truncated
          | String c' r' =>
            if Ascii.eqb c' "}" then Scanned (JObject []) r'
            else scan_map JObject (members fuel (depth + 1) r)
          end
      else if Ascii.eqb c "[" then
        if maxNestingDepth <? depth + 1 then Invalid
        else
          match skip_space r with
          | EmptyString => Truncated
          | String c' r' =>
            if Ascii.eqb c' "]" then Scanned (JArray []) r'
            else scan_map JArray (elements fuel (depth + 1) r)
          end
      else if Ascii.eqb c dquote then
        scan_map (fun raw => JString (unquote raw)) (scan_string InString r)
      else if Ascii.eqb c "-" || is_digit c then
        scan_map JNumber (scan_number (String c r))
      else if Ascii.eqb c "t" then
        scan_map (fun _ => JBool true) (scan_literal "rue" r)
      else if Ascii.eqb c "f" then
        scan_map (fun _ => JBool false) (scan_literal "alse" r)
      else if Ascii.eqb c "n" then
        scan_map (fun _ => JNull) (scan_literal "ull" r)
      else Invalid
    end
  end
with members (fuel : nat) (depth : N) (s : string) {struct fuel}
  : scan (list (string * json)) :=
  match fuel with
  | O => OutOfFuel
  | S fuel =>
    match skip_space s with
    | EmptyString => Truncated
    | String c r =>
      if Ascii.eqb c dquote then
        scan_bind (scan_string InString r) (fun raw r1 =>
        match skip_space r1 with
        | EmptyString => Truncated
        | String c1 r2 =>
          if Ascii.eqb c1 ":" then
            scan_bind (value fuel depth r2) (fun v r3 =>
            match skip_space r3 with
            | EmptyString => Truncated
            | String c3 r4 =>
              if Ascii.eqb c3 "," then
                scan_map (cons (unquote raw, v)) (members fuel depth r4)
              else if Ascii.eqb c3 "}" then Scanned [(unquote raw, v)] r4
              else Invalid
            end)
          else Invalid
        end)
      else Invalid
    end
  end
with elements (fuel : nat) (depth : N) (s : string) {struct fuel}
  : scan (list json) :=
  match fuel with
  | O => OutOfFuel
  | S fuel =>
    scan_bind (value fuel depth s) (fun v r1 =>
    match skip_space r1 with
    | EmptyString => Truncated
    | String c r2 =>
      if Ascii.eqb c "," then scan_map (cons v) (elements fuel depth r2)
      else if Ascii.eqb c "]" then Scanned [v] r2
      else Invalid
    end)
  end.

(** The first value of [s]. *)
Definition first_value (s : string) : scan json :=
  value (S (2 * String.length s)) 0 s.

(** [checkValid] and the tree in one step: [s] is one value with only
    white space around it. ([OutOfFuel] does not occur:
    [first_value_fuel].) *)
Definition document (s : string) : option json :=
  match first_value s with
  | Scanned j rest =>
    match skip_space rest with
    | EmptyString => Some j
    | _ => None
    end
  | _ => None
  end.

End parser.

Definition quoted (s : string) : string :=
  String dquote (s +:+ String dquote EmptyString).

(** ** Errors

    Go's [error] interface is [option Err]: [None] is [nil]. *)

Inductive Err : Type :=
| errors_New (text : string)               (* errors.New(text) *)
| json_SyntaxError                         (* *json.SyntaxError *)
| json_UnmarshalTypeError (value : string) (* *json.UnmarshalTypeError *)
| io_EOF
| io_ErrUnexpectedEOF
| foreign_error (text : string)
  (* an error made outside the package: by net/url, by the transport or
     by a reader the caller supplied *)
| location_error (loc : string) (err : Err)
  (* fmt.Errorf("failed to parse Location header %q: %v", loc, err) *)
| url_Error (op url : string) (err : Err).
  (* &url.Error{Op: op, URL: url, Err: err} *)

Definition error := option Err.

(** [saveError]: the decoder keeps the first error and goes on. *)
Definition saveError (saved new : error) : error :=
  match saved with
  | Some _ => saved
  | None => new
  end.

(** ** encoding/json: storing a value into a Go value *)

Module decode.

(** [strconv.ParseInt(lit, 10, 64)]. *)
Fixpoint digits_value (acc : Z) (s : string) : Z :=
  match s with
  | EmptyString => acc
  | String c r => digits_value (acc * 10 + Z.of_N (code c - 48)) r
  end.

Definition ParseInt64 (lit : string) : option Z :=
  let '(neg, ds) :=
    match lit with
    | String c r =>
      if Ascii.eqb c "-" then (true, r)
      else if Ascii.eqb c "+" then (false, r)
      else (false, lit)
    | EmptyString => (false, lit)
    end in
  match ds with
  | EmptyString => None
  | _ =>
    if string_forallb is_digit ds then
      let n := digits_value 0 ds in
      let z := (if neg then - n else n)%Z in
      if ((- 2 ^ 63 <=? z) && (z <=? 2 ^ 63 - 1))%Z then Some z else None
    else None
  end.

(** The [Value] of an [UnmarshalTypeError]. *)
Definition describe (v : json) : string :=
  match v with
  | JNull => "null"
  | JBool _ => "bool"
  | JNumber _ => "number"
  | JString _ => "string"
  | JArray _ => "array"
  | JObject _ => "object"
  end.

Definition mismatch {A} (cur : A) (v : json) : A * error :=
  (cur, Some (json_UnmarshalTypeError (describe v))).

(** [literalStore], [array] and [object] for a target of kind string,
    bool and int (64 bits): [null] leaves the target as it is, a value
    of another kind is a type error that leaves it as it is too. *)
Definition store_string (v : json) (cur : string) : string * error :=
  match v with
  | JNull => (cur, None)
  | JString s => (s, None)
  | _ => mismatch cur v
  end.

Definition store_bool (v : json) (cur : bool) : bool * error :=
  match v with
  | JNull => (cur, None)
  | JBool b => (b, None)
  | _ => mismatch cur v
  end.

Definition store_int (v : json) (cur : Z) : Z * error :=
  match v with
  | JNull => (cur, None)
  | JNumber lit =>
    match ParseInt64 lit with
    | Some n => (n, None)
    | None => (cur, Some (json_UnmarshalTypeError ("number " +:+ lit)))
    end
  | _ => mismatch cur v
  end.

(** [foldName] on what can fold onto an ASCII name: ASCII letters go to
    upper case, and so do the only two other runes whose simple case
    folding reaches ASCII, U+017F (long s) and U+212A (Kelvin sign);
    other bytes stay. *)
Fixpoint foldName_from (skip : nat) (s : string) : string :=
  match s with
  | EmptyString => EmptyString
  | String c r =>
    match skip with
    | S k => foldName_from k r
    | O =>
      if String.eqb (stake 2 s) (utf8.EncodeRune 383)
      then String "S" (foldName_from 1 r)
      else if String.eqb (stake 3 s) (utf8.EncodeRune 8490)
      then String "K" (foldName_from 2 r)
      else String (to_upper c) (foldName_from 0 r)
    end
  end.

Definition foldName (s : string) : string := foldName_from 0 s.

(** A struct field as the decoder sees it: how a JSON value is stored
    into it. The field table of a struct pairs each with its JSON name. *)
Definition field (R : Type) : Type := json -> R -> R * error.

Definition fields (R : Type) : Type := list (string * field R).

(** The field for a key: the one with exactly that name, else the first
    whose name equals the key under case folding. *)
Definition find_field {X} (fs : list (string * X)) (key : string)
  : option (string * X) :=
  match List.find (fun f => String.eqb (fst f) key) fs with
  | Some f => Some f
  | None =>
    List.find (fun f => String.eqb (foldName (fst f)) (foldName key)) fs
  end.

(** The members of an object stored one after the other into a struct;
    a key that names no field is skipped. *)
Fixpoint store_members {R} (fs : fields R) (ms : list (string * json))
    (cur : R) : R * error :=
  match ms with
  | [] => (cur, None)
  | (key, v) :: ms' =>
    let '(cur1, e1) :=
      match find_field fs key with
      | Some (_, store) => store v cur
      | None => (cur, None)
      end in
    let '(cur2, e2) := store_members fs ms' cur1 in
    (cur2, saveError e1 e2)
  end.

Definition store_struct {R} (fs : fields R) (v : json) (cur : R)
  : R * error :=
  match v with
  | JNull => (cur, None)
  | JObject ms => store_members fs ms cur
  | _ => mismatch cur v
  end.

Definition field_of {R A} (store : json -> A -> A * error)
    (get : R -> A) (set : A -> R -> R) : field R :=
  fun v r => let '(a, e) := store v (get r) in (set a r, e).

End decode.

(** ** encoding/json: the writer

    [json.Marshal] of a string (HTML escaping on, as [Marshal] has it):
    the bytes between the quotes. The short escapes for backspace and
    form feed are those of Go 1.22 and later; earlier releases wrote the
    same characters as [\u0008] and [\u000c]. *)

Module encode.

Definition hex (n : N) : byte :=
  if n <? 10 then chr (48 + n) else chr (87 + n).

(** [htmlSafeSet]: the ASCII bytes written as they are. *)
Definition htmlSafe (c : byte) : bool :=
  byte_in 32 127 c
  && negb (Ascii.eqb c dquote || Ascii.eqb c backslash || Ascii.eqb c "&"
           || Ascii.eqb c "<" || Ascii.eqb c ">").

Definition escape (c : byte) : string :=
  if Ascii.eqb c backslash || Ascii.eqb c dquote
  then String backslash (String c EmptyString)
  else if Ascii.eqb c "008" then String backslash "b"
  else if Ascii.eqb c "012" then String backslash "f"
  else if Ascii.eqb c "010" then String backslash "n"
  else if Ascii.eqb c "013" then String backslash "r"
  else if Ascii.eqb c "009" then String backslash "t"
  else String backslash
         ("u00" +:+ String (hex (N.shiftr (code c) 4))
                      (String (hex (N.land (code c) 15)) EmptyString)).

Fixpoint string_from (skip : nat) (s : string) : string :=
  match s with
  | EmptyString => EmptyString
  | String c r =>
    match skip with
    | S k => string_from k r
    | O =>
      if code c <? utf8.RuneSelf then
        if htmlSafe c then String c (string_from 0 r)
        else escape c +:+ string_from 0 r
      else
        let '(rn, size) := utf8.DecodeRune s in
        if (rn =? utf8.RuneError) && Nat.eqb size 1
        then String backslash "ufffd" +:+ string_from 0 r
        else if (rn =? 8232) || (rn =? 8233)
        then String backslash "u202"
             +:+ String (hex (N.land rn 15)) (string_from (size - 1) r)
        else stake size s +:+ string_from (size - 1) r
    end
  end.

Definition appendString (s : string) : string := quoted (string_from 0 s).

Definition appendBool (b : bool) : string := if b then "true" else "false".

(** A struct: its fields in declaration order under their JSON names. *)
Fixpoint members (ms : list (string * string)) : string :=
  match ms with
  | [] => EmptyString
  | [(k, v)] => quoted k +:+ ":" +:+ v
  | (k, v) :: ms' => quoted k +:+ ":" +:+ v +:+ "," +:+ members ms'
  end.

Definition object (ms : list (string * string)) : string :=
  "{" +:+ members ms +:+ "}".

End encode.

(** ** encoding/base64 *)

Module base64.

(** The alphabet of [StdEncoding]. *)
Definition encodeStd (n : N) : byte :=
  if n <? 26 then chr (65 + n)
  else if n <? 52 then chr (71 + n)
  else if n <? 62 then chr (n - 4)
  else if n =? 62 then "+"%char
  else "/"%char.

Definition pad : byte := "="%char.

(** [StdEncoding.EncodeToString]: three bytes make four characters; a
    last group of one or two bytes is padded to four with [=]. *)
Fixpoint EncodeToString (src : string) : string :=
  match src with
  | EmptyString => EmptyString
  | String a EmptyString =>
    let x := code a in
    String (encodeStd (N.shiftr x 2))
      (String (encodeStd (N.shiftl (N.land x 3) 4))
         (String pad (String pad EmptyString)))
  | String a (String b EmptyString) =>
    let x := code a in
    let y := code b in
    String (encodeStd (N.shiftr x 2))
      (String (encodeStd (N.lor (N.shiftl (N.land x 3) 4) (N.shiftr y 4)))
         (String (encodeStd (N.shiftl (N.land y 15) 2))
            (String pad EmptyString)))
  | String a (String b (String c r)) =>
    let x := code a in
    let y := code b in
    let z := code c in
    String (encodeStd (N.shiftr x 2))
      (String (encodeStd (N.lor (N.shiftl (N.land x 3) 4) (N.shiftr y 4)))
         (String (encodeStd (N.lor (N.shiftl (N.land y 15) 2) (N.shiftr z 6)))
            (String (encodeStd (N.land z 63)) (EncodeToString r))))
  end.

(** The inverse of the alphabet, and decoding, to state that the
    encoding loses nothing. *)
Definition decodeStd (c : byte) : option N :=
  if is_upper c then Some (code c - 65)
  else if is_lower c then Some (code c - 71)
  else if is_digit c then Some (code c + 4)
  else if Ascii.eqb c "+" then Some 62
  else if Ascii.eqb c "/" then Some 63
  else None.

Fixpoint DecodeString (s : string) : option string :=
  match s with
  | EmptyString => Some EmptyString
  | String c1 (String c2 (String c3 (String c4 r))) =>
    match decodeStd c1, decodeStd c2 with
    | Some n1, Some n2 =>
      let a := chr (N.lor (N.shiftl n1 2) (N.shiftr n2 4)) in
      if Ascii.eqb c3 pad then
        match r with
        | EmptyString =>
          if Ascii.eqb c4 pad && (N.land n2 15 =? 0)
          then Some (String a EmptyString) else None
        | _ => None
        end
      else
        match decodeStd c3 with
        | Some n3 =>
          let b := chr (N.lor (N.shiftl (N.land n2 15) 4) (N.shiftr n3 2)) in
          if Ascii.eqb c4 pad then
            match r with
            | EmptyString =>
              if N.land n3 3 =? 0
              then Some (String a (String b EmptyString)) else None
            | _ => None
            end
          else
            match decodeStd c4, DecodeString r with
            | Some n4, Some t =>
              let c := chr (N.lor (N.shiftl (N.land n3 3) 6) n4) in
              Some (String a (String b (String c t)))
            | _, _ => None
            end
        | None => None
        end
    | _, _ => None
    end
  | _ => None
  end.

End base64.

(** ** net/textproto and net/http *)

Module textproto.

(** [validHeaderFieldByte]: the token characters of RFC 7230. *)
Definition validHeaderFieldByte (c : byte) : bool :=
  is_digit c || is_lower c || is_upper c
  || existsb (Ascii.eqb c)
       ["!"; "#"; "$"; "%"; "&"; "'"; "*"; "+"; "-"; "."; "^"; "_"; "`";
        "|"; "~"]%char.

Fixpoint canonical (upper : bool) (s : string) : string :=
  match s with
  | EmptyString => EmptyString
  | String c r =>
    let c' := if upper then to_upper c else to_lower c in
    String c' (canonical (Ascii.eqb c' "-") r)
  end.

(** [CanonicalMIMEHeaderKey]: first letter and letters after a hyphen
    in upper case, the others in lower case; a key with a byte that is
    not a token character is returned as it is. *)
Definition CanonicalMIMEHeaderKey (s : string) : string :=
  if string_forallb validHeaderFieldByte s then canonical true s else s.

End textproto.

(** [io.Reader] as the caller of [io.ReadAll] sees it: the bytes it
    delivers, and how it ends ([None]: end of file). *)
Record Reader : Type := mkReader {
  Reader_data : string;
  Reader_fault : error
}.

(** [io.ReadAll]: what was read, and the error that stopped the reading
    ([nil] at end of file). *)
Definition io_ReadAll (r : Reader) : string * error :=
  (Reader_data r, Reader_fault r).

Module http.

(** [http.Header]: canonical key to the values added under it. *)
Definition Header_Add (key value : string) (h : gmap string (list string))
  : gmap string (list string) :=
  let k := textproto.CanonicalMIMEHeaderKey key in
  <[k := default [] (h !! k) ++ [value]]> h.

Definition Header_Set (key value : string) (h : gmap string (list string))
  : gmap string (list string) :=
  <[textproto.CanonicalMIMEHeaderKey key := [value]]> h.

Definition Header_Get (key : string) (h : gmap string (list string))
  : string :=
  match h !! textproto.CanonicalMIMEHeaderKey key with
  | Some (v :: _) => v
  | _ => EmptyString
  end.

Record Request : Type := mkRequest {
  Request_Method : string;
  Request_URL : string;
  Request_Header : gmap string (list string);
  Request_Body : string;
  Request_Close : bool
}.

Record Response : Type := mkResponse {
  Response_Status : string;       (* e.g. "200 OK" *)
  Response_StatusCode : Z;        (* e.g. 200 *)
  Response_Header : gmap string (list string);
  Response_Body : Reader
}.

Definition StatusOK : Z := 200.

(** [ascii.IsPrint] and [strings.ToLower] on such a string. *)
Definition isPrint (c : byte) : bool := byte_in 32 126 c.

Fixpoint lower (s : string) : string :=
  match s with
  | EmptyString => EmptyString
  | String c r => String (to_lower c) (lower r)
  end.

(** [urlErrorOp]: the [Op] of the [*url.Error] that [Client.Do] returns,
    [Post] for the method [POST]. *)
Definition urlErrorOp (method : string) : string :=
  match method with
  | EmptyString => "Get"
  | String c r =>
    if string_forallb isPrint method then String c (lower r) else method
  end.

(** [redirectBehavior] for a request that has [GetBody], as
    [http.NewRequest] gives to a request whose body is a
    [*bytes.Buffer]: the method of the next request, whether to
    redirect, whether to send the body again. *)
Definition redirectBehavior (reqMethod : string) (resp : Response)
  : string * bool * bool :=
  let code := Response_StatusCode resp in
  if ((code =? 301) || (code =? 302) || (code =? 303))%Z then
    (if negb (String.eqb reqMethod "GET") && negb (String.eqb reqMethod "HEAD")
     then "GET" else reqMethod,
     true, false)
  else if ((code =? 307) || (code =? 308))%Z then (reqMethod, true, true)
  else (EmptyString, false, false).

(** The headers that [shouldCopyHeaderOnRedirect] copies to the next
    request only within a domain. *)
Definition sensitive (headerKey : string) : bool :=
  existsb (String.eqb (textproto.CanonicalMIMEHeaderKey headerKey))
    ["Authorization"; "Www-Authenticate"; "Cookie"; "Cookie2"].

Definition Request_add_header (key value : string) (r : Request) : Request :=
  mkRequest (Request_Method r) (Request_URL r)
    (Header_Add key value (Request_Header r)) (Request_Body r)
    (Request_Close r).

Definition Request_set_Close (b : bool) (r : Request) : Request :=
  mkRequest (Request_Method r) (Request_URL r) (Request_Header r)
    (Request_Body r) b.

End http.
Import http.

(** ** The package's types

    Go's names are kept. Where two structs have a field of the same name
    the field carries the name of its struct in front (projections share
    one name space in Rocq), and [Type] of the result struct is [Type_]. *)

(** [http.RoundTripper] values the package stores in [transport.rt]:
    [NewClient] puts [http.DefaultTransport] there and nothing else ever
    writes the field. *)
Inductive RoundTripper : Type := http_DefaultTransport.

Record transport : Type := mktransport {
  rt : RoundTripper;
  xApiKey : string
}.

(** [*http.Client], of which the package uses the [Transport] field; it
    always holds a [*transport]. *)
Record http_Client : Type := mkhttp_Client {
  Transport : transport
}.

Record Client : Type := mkClient {
  httpClient : http_Client;
  url : string;
  WhatsappID : string
}.

(** The anonymous struct of [MessageResponse.Result]. Go's [int] is
    64 bits wide (the decoder checks the range), hence [Z]. *)
Record Result : Type := mkResult {
  Id : string;
  Id1 : string;
  Ack : Z;
  HasMedia : bool;
  MediaKey : string;
  Body : string;
  Type_ : string;
  Timestamp : Z;
  From : string;
  FromName : string;
  To : string;
  IsForwarded : bool
}.

Record MessageResponse : Type := mkMessageResponse {
  MessageResponse_Result : Result
}.

Record Recipient : Type := mkRecipient {
  Recipient_Number : string
}.

Record Message : Type := mkMessage {
  Message_Type : string;
  Message_Body : string
}.

Record MessageRequest : Type := mkMessageRequest {
  MessageRequest_WhatsappID : string;
  MessageRequest_Async : bool;
  MessageRequest_Recipient : Recipient;
  MessageRequest_Message : Message
}.

Record CheckRequest : Type := mkCheckRequest {
  CheckRequest_WhatsappID : string;
  CheckRequest_Number : string
}.

Record CheckResponse : Type := mkCheckResponse {
  CheckResponse_Result : string;
  CheckResponse_Data : bool
}.

Record Media : Type := mkMedia {
  Media_Mimetype : string;
  Media_Data : string;
  Media_Filename : string
}.

Record MessagePDF : Type := mkMessagePDF {
  MessagePDF_Type : string;
  MessagePDF_Body : string;
  MessagePDF_Media : Media
}.

Record MessagePDFRequest : Type := mkMessagePDFRequest {
  MessagePDFRequest_WhatsappID : string;
  MessagePDFRequest_Async : bool;
  MessagePDFRequest_Recipient : Recipient;
  MessagePDFRequest_Message : MessagePDF
}.

(** Zero values. *)
Definition Result_zero : Result :=
  mkResult "" "" 0 false "" "" "" 0 "" "" "" false.
Definition MessageResponse_zero : MessageResponse :=
  mkMessageResponse Result_zero.
Definition CheckResponse_zero : CheckResponse := mkCheckResponse "" false.

(** ** The JSON form of the package's types

    What the struct tags say: the JSON name of every field, in the order
    of declaration. [Marshaler] is the writing side of a type, [Target]
    the reading side. *)

Class Marshaler (A : Type) : Type := marshal : A -> string.

Class Target (A : Type) : Type := store : json -> A -> A * error.

#[global] Instance Recipient_Marshaler : Marshaler Recipient := fun v =>
  encode.object [("number", encode.appendString (Recipient_Number v))].

#[global] Instance Message_Marshaler : Marshaler Message := fun v =>
  encode.object [("type", encode.appendString (Message_Type v));
                 ("body", encode.appendString (Message_Body v))].

#[global] Instance MessageRequest_Marshaler : Marshaler MessageRequest :=
  fun v =>
  encode.object
    [("WhatsappID", encode.appendString (MessageRequest_WhatsappID v));
     ("async", encode.appendBool (MessageRequest_Async v));
     ("recipient", marshal (MessageRequest_Recipient v));
     ("message", marshal (MessageRequest_Message v))].

#[global] Instance CheckRequest_Marshaler : Marshaler CheckRequest := fun v =>
  encode.object
    [("WhatsappID", encode.appendString (CheckRequest_WhatsappID v));
     ("number", encode.appendString (CheckRequest_Number v))].

#[global] Instance Media_Marshaler : Marshaler Media := fun v =>
  encode.object [("mimetype", encode.appendString (Media_Mimetype v));
                 ("data", encode.appendString (Media_Data v));
                 ("filename", encode.appendString (Media_Filename v))].

#[global] Instance MessagePDF_Marshaler : Marshaler MessagePDF := fun v =>
  encode.object [("type", encode.appendString (MessagePDF_Type v));
                 ("body", encode.appendString (MessagePDF_Body v));
                 ("media", marshal (MessagePDF_Media v))].

#[global] Instance MessagePDFRequest_Marshaler : Marshaler MessagePDFRequest :=
  fun v =>
  encode.object
    [("WhatsappID", encode.appendString (MessagePDFRequest_WhatsappID v));
     ("async", encode.appendBool (MessagePDFRequest_Async v));
     ("recipient", marshal (MessagePDFRequest_Recipient v));
     ("message", marshal (MessagePDFRequest_Message v))].

(** Field updates of [Result]. *)
Definition set_Id (x : string) (r : Result) : Result :=
  let 'mkResult _ b c d e f g h i j k l := r in mkResult x b c d e f g h i j k l.
Definition set_Id1 (x : string) (r : Result) : Result :=
  let 'mkResult a _ c d e f g h i j k l := r in mkResult a x c d e f g h i j k l.
Definition set_Ack (x : Z) (r : Result) : Result :=
  let 'mkResult a b _ d e f g h i j k l := r in mkResult a b x d e f g h i j k l.
Definition set_HasMedia (x : bool) (r : Result) : Result :=
  let 'mkResult a b c _ e f g h i j k l := r in mkResult a b c x e f g h i j k l.
Definition set_MediaKey (x : string) (r : Result) : Result :=
  let 'mkResult a b c d _ f g h i j k l := r in mkResult a b c d x f g h i j k l.
Definition set_Body (x : string) (r : Result) : Result :=
  let 'mkResult a b c d e _ g h i j k l := r in mkResult a b c d e x g h i j k l.
Definition set_Type (x : string) (r : Result) : Result :=
  let 'mkResult a b c d e f _ h i j k l := r in mkResult a b c d e f x h i j k l.
Definition set_Timestamp (x : Z) (r : Result) : Result :=
  let 'mkResult a b c d e f g _ i j k l := r in mkResult a b c d e f g x i j k l.
Definition set_From (x : string) (r : Result) : Result :=
  let 'mkResult a b c d e f g h _ j k l := r in mkResult a b c d e f g h x j k l.
Definition set_FromName (x : string) (r : Result) : Result :=
  let 'mkResult a b c d e f g h i _ k l := r in mkResult a b c d e f g h i x k l.
Definition set_To (x : string) (r : Result) : Result :=
  let 'mkResult a b c d e f g h i j _ l := r in mkResult a b c d e f g h i j x l.
Definition set_IsForwarded (x : bool) (r : Result) : Result :=
  let 'mkResult a b c d e f g h i j k _ := r in mkResult a b c d e f g h i j k x.

Definition Result_fields : decode.fields Result :=
  [("_id", decode.field_of decode.store_string Id set_Id);
   ("id", decode.field_of decode.store_string Id1 set_Id1);
   ("ack", decode.field_of decode.store_int Ack set_Ack);
   ("hasMedia", decode.field_of decode.store_bool HasMedia set_HasMedia);
   ("mediaKey", decode.field_of decode.store_string MediaKey set_MediaKey);
   ("body", decode.field_of decode.store_string Body set_Body);
   ("type", decode.field_of decode.store_string Type_ set_Type);
   ("timestamp", decode.field_of decode.store_int Timestamp set_Timestamp);
   ("from", decode.field_of decode.store_string From set_From);
   ("from_name", decode.field_of decode.store_string FromName set_FromName);
   ("to", decode.field_of decode.store_string To set_To);
   ("isForwarded",
    decode.field_of decode.store_bool IsForwarded set_IsForwarded)].

#[global] Instance Result_Target : Target Result :=
  decode.store_struct Result_fields.

Definition MessageResponse_fields : decode.fields MessageResponse :=
  [("result",
    decode.field_of store MessageResponse_Result
      (fun x _ => mkMessageResponse x))].

#[global] Instance MessageResponse_Target : Target MessageResponse :=
  decode.store_struct MessageResponse_fields.

Definition CheckResponse_fields : decode.fields CheckResponse :=
  [("result",
    decode.field_of decode.store_string CheckResponse_Result
      (fun x r => mkCheckResponse x (CheckResponse_Data r)));
   ("data",
    decode.field_of decode.store_bool CheckResponse_Data
      (fun x r => mkCheckResponse (CheckResponse_Result r) x))].

#[global] Instance CheckResponse_Target : Target CheckResponse :=
  decode.store_struct CheckResponse_fields.

(** [json.Marshal]. None of the package's request types can make it
    fail (strings, booleans and structs of them), so its error is [nil]. *)
Definition json_Marshal {A} `{Marshaler A} (v : A) : string * error :=
  (marshal v, None).

(** [json.Unmarshal(data, &v)]: [v] after the call, and the error. Input
    that is not one JSON value is a syntax error and leaves [v] alone. *)
Definition json_Unmarshal {A} `{Target A} (data : string) (v : A)
  : A * error :=
  match parser.document data with
  | None => (v, Some json_SyntaxError)
  | Some j => store j v
  end.

(** [json.NewDecoder(r).Decode(&v)] on a fresh decoder: the first JSON
    value of the stream is stored, what follows it is not looked at. The
    bytes the reader delivered are scanned before its error is looked at.
    A number, string, [true], [false] or [null] is only known to be
    complete when a byte follows it or the stream is at end of file. *)
Definition is_composite (j : json) : bool :=
  match j with
  | JObject _ | JArray _ => true
  | _ => false
  end.

Definition Decoder_readValue (r : Reader) : json + Err :=
  match parser.first_value (Reader_data r) with
  | Scanned j rest =>
    match Reader_fault r, rest with
    | Some e, EmptyString => if is_composite j then inl j else inr e
    | _, _ => inl j
    end
  | Invalid => inr json_SyntaxError
  | _ =>
    match Reader_fault r with
    | Some e => inr e
    | None =>
      match scanner.skip_space (Reader_data r) with
      | EmptyString => inr io_EOF
      | _ => inr io_ErrUnexpectedEOF
      end
    end
  end.

Definition Decoder_Decode {A} `{Target A} (r : Reader) (v : A) : A * error :=
  match Decoder_readValue r with
  | inl j => store j v
  | inr e => (v, Some e)
  end.

(** ** The state the package runs in

    The receiver [c *Client] of the three methods points to a [Client]
    in memory; [receiver] is that object, so that a method that wrote to
    it would show. What the package cannot decide is in [Environment]:
    what [net/url] makes of URLs, and what the network answers to a
    request, given the requests it has seen before. [wire] lists the
    requests handed to [http.DefaultTransport], oldest first; [slog] the
    errors whose text went to [slog.Error]; [stdout] what was printed.

    Of [net/url]: [url_Parse rawurl] is the error of [url.Parse], if
    any; [URL_Parse base ref] is [base.Parse(ref)], the URL that a
    [Location] header names when it comes with the answer to a request
    for [base]; [refererForURL lastReq newReq explicitRef] is the
    [Referer] that [net/http] gives to a redirected request (empty: none;
    it looks at the schemes and at user information);
    [isDomainOrSubdomain dest initial] compares the hosts of two URLs. *)

Record Environment : Type := mkEnvironment {
  url_Parse : string -> error;
  URL_Parse : string -> string -> string + Err;
  refererForURL : string -> string -> string -> string;
  isDomainOrSubdomain : string -> string -> bool;
  network : list Request -> Request -> Response + Err
}.

Record State : Type := mkState {
  receiver : Client;
  env : Environment;
  wire : list Request;
  slog : list Err;
  stdout : list string
}.

Definition M (A : Type) : Type := State -> A * State.

Definition ret {A} (a : A) : M A := fun s => (a, s).

Definition bind {A B} (m : M A) (k : A -> M B) : M B :=
  fun s => let '(a, s') := m s in k a s'.

Notation "x <- m ;; k" := (bind m (fun x => k))
  (at level 100, m at next level, right associativity).
Notation "m ;; k" := (bind m (fun _ => k))
  (at level 100, right associativity).

(** [*c]. *)
Definition this : M Client := fun s => (receiver s, s).

(** [slog.Error(err.Error())]. *)
Definition slog_Error (e : Err) : M unit := fun s =>
  (tt, mkState (receiver s) (env s) (wire s) (slog s ++ [e]) (stdout s)).

(** [fmt.Println(text)]. *)
Definition fmt_Println (text : string) : M unit := fun s =>
  (tt, mkState (receiver s) (env s) (wire s) (slog s)
         (stdout s ++ [text +:+ String "010" EmptyString])).

(** [http.NewRequest(method, url, bytes.NewBuffer(body))]. With a valid
    method such as POST it fails exactly when [url.Parse] does. Where
    the library returns a pointer and an error, one of them is [nil]:
    the result is a sum. *)
Definition http_NewRequest (method rawurl body : string) : M (Request + Err) :=
  fun s =>
    match url_Parse (env s) rawurl with
    | Some e => (inr e, s)
    | None => (inl (mkRequest method rawurl ∅ body false), s)
    end.

(** [rt.RoundTrip(req)] for the round trippers of the package: the
    request goes out and the network answers. *)
Definition RoundTripper_RoundTrip (t : RoundTripper) (req : Request)
  : M (Response + Err) :=
  match t with
  | http_DefaultTransport => fun s =>
    (network (env s) (wire s) req,
     mkState (receiver s) (env s) (wire s ++ [req]) (slog s) (stdout s))
  end.

(** ** The package: src/whatsgate.go *)

Definition RoundTrip (t : transport) (req : Request) : M (Response + Err) :=
  let req := Request_add_header "X-Api-Key" (xApiKey t) req in
  let req := Request_add_header "Content-type" "application/json" req in
  RoundTripper_RoundTrip (rt t) req.

(** *** [c.Do(r)] of [*http.Client] (net/http/client.go)

    The client of [NewClient] has a [Transport] and nothing else: no
    [CheckRedirect], no [Jar], no [Timeout]. [Do] then follows a
    response with status 301, 302, 303, 307 or 308 that has a
    [Location] header with a further request, up to ten requests in
    all, and returns what the last of them gives. Every request goes
    through the client's [Transport], that is through [RoundTrip]
    above. An error comes back wrapped in a [*url.Error]. *)

(** [c.send(req, deadline)]. *)
Definition http_Client_send (c : http_Client) (req : Request)
  : M (Response + Err) :=
  RoundTrip (Transport c) req.

(** [uerr] of [Client.do]: [ireq] is the request [Do] was called with,
    [req] the request underway. *)
Definition uerr (ireq req : Request) (err : Err) : Err :=
  url_Error (urlErrorOp (Request_Method ireq)) (Request_URL req) err.

(** The next request of [Client.do], for the URL [u] that the
    [Location] header names. It has the headers of [ireq] as they were
    when [Do] was called (what the transport adds on the way is not
    copied; the sensitive headers are copied within a domain only), the
    [Referer], the body of [ireq] if the redirect keeps the body, and
    [Close] unset. *)
Definition next_request (e : Environment) (ireq req : Request)
    (redirectMethod : string) (includeBody : bool) (u : string) : Request :=
  let copied :=
    filter (fun kv =>
              sensitive (fst kv) = true ->
              isDomainOrSubdomain e u (Request_URL req) = true)
           (Request_Header ireq) in
  let ref := refererForURL e (Request_URL req) u (Header_Get "Referer" copied) in
  mkRequest redirectMethod u
    (if String.eqb ref "" then copied else Header_Set "Referer" ref copied)
    (if includeBody then Request_Body ireq else EmptyString)
    false.

(** The loop of [Client.do] from the point where [req] joins [reqs];
    [left] is the number of requests that [defaultCheckRedirect] still
    allows after this one. *)
Fixpoint http_Client_do (left : nat) (c : http_Client) (ireq req : Request)
  : M (Response + Err) :=
  fun s =>
    match http_Client_send c req s with
    | (inr err, s1) => (inr (uerr ireq req err), s1)
    | (inl resp, s1) =>
      let '(redirectMethod, shouldRedirect, includeBody) :=
        redirectBehavior (Request_Method req) resp in
      if negb shouldRedirect then (inl resp, s1) else
      let loc := Header_Get "Location" (Response_Header resp) in
      if String.eqb loc "" then (inl resp, s1) else
      match URL_Parse (env s1) (Request_URL req) loc with
      | inr err => (inr (uerr ireq req (location_error loc err)), s1)
      | inl u =>
        match left with
        | O =>
          (inr (url_Error (urlErrorOp (Request_Method ireq)) loc
                  (errors_New "stopped after 10 redirects")), s1)
        | S left' =>
          http_Client_do left' c ireq
            (next_request (env s1) ireq req redirectMethod includeBody u) s1
        end
      end
    end.

(** Where [Do] returns a response and an error (the redirect limit),
    the error is kept: the package looks at the error first. *)
Definition http_Client_Do (c : http_Client) (r : Request)
  : M (Response + Err) :=
  http_Client_do 9 c r r.

Definition NewClient (apiKey whatsappID : string) : Client :=
  let httpClient :=
    mkhttp_Client (mktransport http_DefaultTransport apiKey) in
  mkClient httpClient "https://whatsgate.ru/api/v1" whatsappID.

(** In the three methods, [c] is read once at the start: nothing writes
    to it in between. [defer req.Body.Close()] is not in the model. The
    Go names are kept, also where [req] names the response. *)
Definition SendMessage (recipientPhone text : string)
  : M (MessageResponse * error) :=
  c <- this ;;
  let '(body, err) :=
    json_Marshal (mkMessageRequest (WhatsappID c) false
                    (mkRecipient recipientPhone) (mkMessage "text" text)) in
  match err with
  | Some _ => ret (MessageResponse_zero, err)
  | None =>
    r <- http_NewRequest "POST" (url c +:+ "/send") body ;;
    match r with
    | inr err => slog_Error err ;; ret (MessageResponse_zero, Some err)
    | inl r =>
      let r := Request_set_Close true r in
      req <- http_Client_Do (httpClient c) r ;;
      match req with
      | inr err => slog_Error err ;; ret (MessageResponse_zero, Some err)
      | inl req =>
        let '(respBody, err) := io_ReadAll (Response_Body req) in
        match err with
        | Some e => slog_Error e ;; ret (MessageResponse_zero, err)
        | None =>
          if negb (Response_StatusCode req =? StatusOK)%Z then
            ret (MessageResponse_zero,
                 Some (errors_New "некорректный номер WhatsApp"))
          else
            let message := MessageResponse_zero in
            let '(message, err) := json_Unmarshal respBody message in
            match err with
            | Some e => slog_Error e ;; ret (MessageResponse_zero, err)
            | None => ret (message, None)
            end
        end
      end
    end
  end.

Definition SendPDF (recipientPhone text filename : string) (pdf : Reader)
  : M (MessageResponse * error) :=
  c <- this ;;
  let '(b, err) := io_ReadAll pdf in
  match err with
  | Some _ => ret (MessageResponse_zero, err)
  | None =>
    let '(body, err) :=
      json_Marshal
        (mkMessagePDFRequest (WhatsappID c) false (mkRecipient recipientPhone)
           (mkMessagePDF "doc" text
              (mkMedia "application/pdf" (base64.EncodeToString b)
                 filename))) in
    match err with
    | Some _ => ret (MessageResponse_zero, err)
    | None =>
      r <- http_NewRequest "POST" (url c +:+ "/send") body ;;
      match r with
      | inr err => slog_Error err ;; ret (MessageResponse_zero, Some err)
      | inl r =>
        let r := Request_set_Close true r in
        req <- http_Client_Do (httpClient c) r ;;
        match req with
        | inr err => slog_Error err ;; ret (MessageResponse_zero, Some err)
        | inl req =>
          let '(respBody, err) := io_ReadAll (Response_Body req) in
          match err with
          | Some e => slog_Error e ;; ret (MessageResponse_zero, err)
          | None =>
            if negb (Response_StatusCode req =? StatusOK)%Z then
              ret (MessageResponse_zero,
                   Some (errors_New (Response_Status req)))
            else
              let message := MessageResponse_zero in
              let '(message, err) := json_Unmarshal respBody message in
              match err with
              | Some e => slog_Error e ;; ret (MessageResponse_zero, err)
              | None => ret (message, None)
              end
          end
        end
      end
    end
  end.

Definition Check (phone : string) : M (bool * error) :=
  c <- this ;;
  let '(body, err) := json_Marshal (mkCheckRequest (WhatsappID c) phone) in
  match err with
  | Some _ => ret (false, err)
  | None =>
    r <- http_NewRequest "POST" (url c +:+ "/check") body ;;
    match r with
    | inr err => ret (false, Some err)
    | inl r =>
      let r := Request_set_Close true r in
      req <- http_Client_Do (httpClient c) r ;;
      match req with
      | inr err => slog_Error err ;; ret (false, Some err)
      | inl req =>
        if negb (Response_StatusCode req =? StatusOK)%Z then
          ret (false, Some (errors_New (Response_Status req)))
        else
          let response := CheckResponse_zero in
          let '(response, err) := Decoder_Decode (Response_Body req) response in
          match err with
          | Some e => slog_Error e ;; ret (false, err)
          | None => ret (CheckResponse_Data response, None)
          end
      end
    end
  end.

(** ** The older variant of the package (the second source file)

    The same types, [RoundTrip] and [NewClient]; [SendMessage] reports a
    status other than 200 with the status line and prints the body of a
    200 response before it parses it. *)
Module Variant.

Definition SendMessage (recipientPhone text : string)
  : M (MessageResponse * error) :=
  c <- this ;;
  let '(body, err) :=
    json_Marshal (mkMessageRequest (WhatsappID c) false
                    (mkRecipient recipientPhone) (mkMessage "text" text)) in
  match err with
  | Some _ => ret (MessageResponse_zero, err)
  | None =>
    r <- http_NewRequest "POST" (url c +:+ "/send") body ;;
    match r with
    | inr err => slog_Error err ;; ret (MessageResponse_zero, Some err)
    | inl r =>
      let r := Request_set_Close true r in
      req <- http_Client_Do (httpClient c) r ;;
      match req with
      | inr err => slog_Error err ;; ret (MessageResponse_zero, Some err)
      | inl req =>
        let '(respBody, err) := io_ReadAll (Response_Body req) in
        match err with
        | Some e => slog_Error e ;; ret (MessageResponse_zero, err)
        | None =>
          if negb (Response_StatusCode req =? StatusOK)%Z then
            ret (MessageResponse_zero,
                 Some (errors_New (Response_Status req)))
          else
            fmt_Println respBody ;;
            let message := MessageResponse_zero in
            let '(message, err) := json_Unmarshal respBody message in
            match err with
            | Some e => slog_Error e ;; ret (MessageResponse_zero, err)
            | None => ret (message, None)
            end
        end
      end
    end
  end.

End Variant.

(** ** What "well-formed" and "copied verbatim" mean

    Written from the struct declarations, not from the decoder: a member
    of a JSON object belongs to a field when its key is the field's JSON
    name up to case; [null] members say nothing; the field gets the value
    of the last member that belongs to it. *)

Module wording.

Inductive kind := KString | KBool | KInt.

Definition belongs (name key : string) : bool :=
  String.eqb (decode.foldName key) (decode.foldName name).

Definition is_null (v : json) : bool :=
  match v with
  | JNull => true
  | _ => false
  end.

(** The values given to field [name] by the members [ms], in order. *)
Fixpoint bound (name : string) (ms : list (string * json)) : list json :=
  match ms with
  | [] => []
  | (key, v) :: ms' =>
    if belongs name key && negb (is_null v)
    then v :: bound name ms'
    else bound name ms'
  end.

(** A value that a field of the kind can hold. *)
Definition fits (k : kind) (v : json) : bool :=
  match k, v with
  | KString, JString _ => true
  | KBool, JBool _ => true
  | KInt, JNumber lit =>
    match decode.ParseInt64 lit with
    | Some _ => true
    | None => false
    end
  | _, _ => false
  end.

Definition pick_string (vs : list json) (d : string) : string :=
  match last vs with
  | Some (JString s) => s
  | _ => d
  end.

Definition pick_bool (vs : list json) (d : bool) : bool :=
  match last vs with
  | Some (JBool b) => b
  | _ => d
  end.

Definition pick_int (vs : list json) (d : Z) : Z :=
  match last vs with
  | Some (JNumber lit) => default d (decode.ParseInt64 lit)
  | _ => d
  end.

(** Every field of the schema is only given values of its kind. *)
Definition conforms (schema : list (string * kind))
    (ms : list (string * json)) : bool :=
  forallb (fun nk => forallb (fits (snd nk)) (bound (fst nk) ms)) schema.

Definition Result_schema : list (string * kind) :=
  [("_id", KString); ("id", KString); ("ack", KInt); ("hasMedia", KBool);
   ("mediaKey", KString); ("body", KString); ("type", KString);
   ("timestamp", KInt); ("from", KString); ("from_name", KString);
   ("to", KString); ("isForwarded", KBool)].

(** The [Result] that the members [ms] describe, over [cur]. *)
Definition Result_of (ms : list (string * json)) (cur : Result) : Result :=
  mkResult
    (pick_string (bound "_id" ms) (Id cur))
    (pick_string (bound "id" ms) (Id1 cur))
    (pick_int (bound "ack" ms) (Ack cur))
    (pick_bool (bound "hasMedia" ms) (HasMedia cur))
    (pick_string (bound "mediaKey" ms) (MediaKey cur))
    (pick_string (bound "body" ms) (Body cur))
    (pick_string (bound "type" ms) (Type_ cur))
    (pick_int (bound "timestamp" ms) (Timestamp cur))
    (pick_string (bound "from" ms) (From cur))
    (pick_string (bound "from_name" ms) (FromName cur))
    (pick_string (bound "to" ms) (To cur))
    (pick_bool (bound "isForwarded" ms) (IsForwarded cur)).

Definition is_object (v : json) : bool :=
  match v with
  | JObject _ => true
  | _ => false
  end.

Definition members_of (v : json) : list (string * json) :=
  match v with
  | JObject ms => ms
  | _ => []
  end.

(** The members of all the objects given to [result], in order. *)
Definition result_members (ms : list (string * json))
  : list (string * json) :=
  flat_map members_of (bound "result" ms).

(** A JSON value that is well formed for [MessageResponse]: [null], or
    an object whose [result] members are objects that conform to the
    schema of [Result]. *)
Definition MessageResponse_wf (j : json) : bool :=
  match j with
  | JNull => true
  | JObject ms =>
    forallb is_object (bound "result" ms)
    && conforms Result_schema (result_members ms)
  | _ => false
  end.

(** The [MessageResponse] a well-formed value describes. *)
Definition MessageResponse_of (j : json) : MessageResponse :=
  match j with
  | JObject ms =>
    mkMessageResponse (Result_of (result_members ms) Result_zero)
  | _ => MessageResponse_zero
  end.

Definition CheckResponse_schema : list (string * kind) :=
  [("result", KString); ("data", KBool)].

Definition CheckResponse_wf (j : json) : bool :=
  match j with
  | JNull => true
  | JObject ms => conforms CheckResponse_schema ms
  | _ => false
  end.

(** The [CheckResponse] that the members [ms] describe, over [cur]. *)
Definition CheckResponse_of (ms : list (string * json)) (cur : CheckResponse)
  : CheckResponse :=
  mkCheckResponse (pick_string (bound "result" ms) (CheckResponse_Result cur))
    (pick_bool (bound "data" ms) (CheckResponse_Data cur)).

(** The [data] field of a well-formed value. *)
Definition data_of (j : json) : bool :=
  match j with
  | JObject ms => pick_bool (bound "data" ms) false
  | _ => false
  end.

(** A response body that is well formed for [MessageResult]: one JSON
    value, and that value well formed. *)
Definition body_wf (body : string) : bool :=
  match parser.document body with
  | Some j => MessageResponse_wf j
  | None => false
  end.

End wording.

(** ** Vocabulary of the statements

    [answered s s' req resp]: between the states [s] and [s'] the first
    request handed to the network was [req], and the network answered it
    with the response [resp]. *)
Definition answered (s s' : State) (req : Request) (resp : Response) : Prop :=
  wire s' !! length (wire s) = Some req
  /\ network (env s) (wire s) req = inl resp.

(** The request that [RoundTrip] hands to the network when it is given
    [req]. *)
Definition outbound (apiKey : string) (req : Request) : Request :=
  Request_add_header "Content-type" "application/json"
    (Request_add_header "X-Api-Key" apiKey req).

(** A header without the two keys that [RoundTrip] adds to. *)
Definition bare (h : gmap string (list string)) : Prop :=
  h !! "X-Api-Key" = None /\ h !! "Content-Type" = None.

(** [redirects resp]: a response that [Client.Do] does not hand back:
    one of the five redirect statuses with a [Location] header. [Do]
    follows it with a further request, or fails when the [Location]
    does not parse or ten requests have been made. *)
Definition redirects (resp : Response) : bool :=
  existsb (Z.eqb (Response_StatusCode resp)) [301; 302; 303; 307; 308]%Z
  && negb (String.eqb (Header_Get "Location" (Response_Header resp)) "").

(** [settled s req]: what the network answers to [req] in [s] is an
    error or a response that is no redirect, so that [Client.Do] sends
    nothing after [req]. *)
Definition settled (s : State) (req : Request) : Prop :=
  match network (env s) (wire s) req with
  | inl resp => redirects resp = false
  | inr _ => True
  end.

(** A request that [Client.Do] sends after [first] on a redirect: its
    [Close] is unset, its method is [GET] or the method of [first], and
    its body is empty or the body of [first]. *)
Definition follows_up (first h : Request) : Prop :=
  Request_Close h = false
  /\ (Request_Method h = "GET" \/ Request_Method h = Request_Method first)
  /\ (Request_Body h = EmptyString \/ Request_Body h = Request_Body first).

(** [ended s s' req resp]: between [s] and [s'] the last request handed
    to the network was [req], and the network answered it with
    [resp]. *)
Definition ended (s s' : State) (req : Request) (resp : Response) : Prop :=
  exists before,
    wire s' = before ++ [req]
    /\ (length (wire s) <= length before)%nat
    /\ network (env s) before req = inl resp.

(** An error of the JSON package. *)
Definition parse_error (e : Err) : Prop :=
  match e with
  | json_SyntaxError | json_UnmarshalTypeError _ => True
  | _ => False
  end.

(** The requests handed to the network between [s] and [s']. *)
Definition sent (s s' : State) : list Request :=
  skipn (length (wire s)) (wire s').

(** The two headers, read the way a server reads them
    ([Header.Get]; header names do not depend on case). *)
Definition carries (apiKey : string) (req : Request) : Prop :=
  Header_Get "X-Api-Key" (Request_Header req) = apiKey
  /\ Header_Get "Content-type" (Request_Header req) = "application/json".

(** ** Notions for the library models

    What the lemmas about the reader and the writer are stated with. *)

(** What a scan does to the input: a complete item leaves a shorter
    input ([strict]) or one that is not longer, and fuel is not the
    reason to stop. *)
Definition consumes {A} (strict : bool) (s : string) (x : scan A) : Prop :=
  match x with
  | Scanned _ rest =>
    if strict then (String.length rest < String.length s)%nat
    else (String.length rest <= String.length s)%nat
  | OutOfFuel => False
  | _ => True
  end.


(** [prepend pre x]: the scan [x] of a string, after the bytes [pre] that
    the scanner passed over. *)
Fixpoint prepend (pre : string) (x : scan string) : scan string :=
  match pre with
  | EmptyString => x
  | String c pre' => scan_map (String c) (prepend pre' x)
  end.

(** A piece [pre] of escaped text that the scanner passes over inside a
    string, and that [unquote] turns into [out]. *)
Definition piece (pre out : string) : Prop :=
  (forall t, scanner.scan_string scanner.InString (pre +:+ t)
             = prepend pre (scanner.scan_string scanner.InString t))
  /\ (forall t, unquote.from 0 (pre +:+ t) = out +:+ unquote.from 0 t).

(** A byte that is not ASCII. *)
Definition high (c : byte) : bool := 128 <=? code c.

(** [reads_as text j n]: with [n] units of fuel and room for [n] more
    levels of nesting, the reader reads the text [text] as the value [j],
    whatever follows the text. *)
Definition reads_as (text : string) (j : json) (n : nat) : Prop :=
  forall fuel depth rest,
    (n <= fuel)%nat ->
    depth + N.of_nat n <= scanner.maxNestingDepth ->
    parser.value fuel depth (text +:+ rest) = Scanned j rest.

(** A member as the writer writes it and as the reader reads it: the
    same key, a key that needs no escape, and a text read as the value. *)
Definition member_reads (n : nat) (m : string * string) (mj : string * json)
  : Prop :=
  fst mj = fst m /\ piece (fst m) (fst m) /\ reads_as (snd m) (snd mj) n.

(** The JSON values that the three request bodies are. Strings are as
    JSON has them: [utf8.coerce] leaves text that is valid UTF-8 as it is
    and puts U+FFFD for any other byte. *)
Definition MessageRequest_json (v : MessageRequest) : json :=
  JObject
    [("WhatsappID", JString (utf8.coerce (MessageRequest_WhatsappID v)));
     ("async", JBool (MessageRequest_Async v));
     ("recipient",
      JObject [("number",
                JString (utf8.coerce
                           (Recipient_Number (MessageRequest_Recipient v))))]);
     ("message",
      JObject [("type",
                JString (utf8.coerce
                           (Message_Type (MessageRequest_Message v))));
               ("body",
                JString (utf8.coerce
                           (Message_Body (MessageRequest_Message v))))])].

Definition Media_json (v : Media) : json :=
  JObject [("mimetype", JString (utf8.coerce (Media_Mimetype v)));
           ("data", JString (utf8.coerce (Media_Data v)));
           ("filename", JString (utf8.coerce (Media_Filename v)))].

Definition MessagePDFRequest_json (v : MessagePDFRequest) : json :=
  JObject
    [("WhatsappID", JString (utf8.coerce (MessagePDFRequest_WhatsappID v)));
     ("async", JBool (MessagePDFRequest_Async v));
     ("recipient",
      JObject [("number",
                JString (utf8.coerce
                           (Recipient_Number
                              (MessagePDFRequest_Recipient v))))]);
     ("message",
      JObject [("type",
                JString (utf8.coerce
                           (MessagePDF_Type (MessagePDFRequest_Message v))));
               ("body",
                JString (utf8.coerce
                           (MessagePDF_Body (MessagePDFRequest_Message v))));
               ("media",
                Media_json (MessagePDF_Media
                              (MessagePDFRequest_Message v)))])].

Definition CheckRequest_json (v : CheckRequest) : json :=
  JObject [("WhatsappID", JString (utf8.coerce (CheckRequest_WhatsappID v)));
           ("number", JString (utf8.coerce (CheckRequest_Number v)))].

Definition ascii7 (c : byte) : bool := code c <? utf8.RuneSelf.

(** ** A concrete setting: the scenario of the specification

    A client made with API key [k1] and sender [wa1], and a stub gateway
    that accepts every URL and answers every request with the same status
    and body. *)

Definition environment (parse : string -> error)
    (net : list Request -> Request -> Response + Err) : Environment :=
  mkEnvironment parse (fun _ ref => inl ref) (fun lastReq _ _ => lastReq)
    (fun _ _ => false) net.

Definition gateway (status : string) (code : Z) (body : string)
  : Environment :=
  environment (fun _ => None)
    (fun _ _ => inl (mkResponse status code ∅ (mkReader body None))).

Definition start (c : Client) (e : Environment) : State :=
  mkState c e [] [] [].

(** The body [{"result":{"_id":"abc","ack":1}}]. *)
Definition body_abc : string :=
  "{" +:+ quoted "result" +:+ ":{" +:+ quoted "_id" +:+ ":" +:+ quoted "abc"
  +:+ "," +:+ quoted "ack" +:+ ":1}}".

Definition scenario_200 : State :=
  start (NewClient "k1" "wa1") (gateway "200 OK" 200 body_abc).

Definition scenario_404 : State :=
  start (NewClient "k1" "wa1") (gateway "404 Not Found" 404 "not found").

(** The gateway answers 200 with a body that is cut short. *)
Definition scenario_cut : State :=
  start (NewClient "k1" "wa1")
    (gateway "200 OK" 200 ("{" +:+ quoted "result" +:+ ":{")).

(** The body [{"result":"success","data":true}] for [Check]. *)
Definition scenario_check : State :=
  start (NewClient "k1" "wa1")
    (gateway "200 OK" 200
       ("{" +:+ quoted "result" +:+ ":" +:+ quoted "success" +:+ ","
        +:+ quoted "data" +:+ ":true}")).

Definition a_pdf : Reader := mkReader "%PDF-1.4" None.

(** A gateway that has moved: it answers the first request it sees with
    a redirect to [loc], and every request after that with 200 and
    [body]. *)
Definition moved (status : string) (code : Z) (loc body : string)
  : Environment :=
  environment (fun _ => None)
    (fun seen _ =>
       match seen with
       | [] =>
         inl (mkResponse status code {["Location" := [loc]]}
                (mkReader EmptyString None))
       | _ => inl (mkResponse "200 OK" 200 ∅ (mkReader body None))
       end).

Definition scenario_307 : State :=
  start (NewClient "k1" "wa1")
    (moved "307 Temporary Redirect" 307 "https://example.org/v2/send"
       body_abc).

Definition scenario_303 : State :=
  start (NewClient "k1" "wa1")
    (moved "303 See Other" 303 "https://example.org/v2/send" body_abc).

(** [Check] at a gateway that has moved. *)
Definition scenario_307_check : State :=
  start (NewClient "k1" "wa1")
    (moved "307 Temporary Redirect" 307 "https://example.org/v2/check"
       ("{" +:+ quoted "result" +:+ ":" +:+ quoted "success" +:+ ","
        +:+ quoted "data" +:+ ":true}")).

(** A gateway that answers every request with a redirect. *)
Definition scenario_loop : State :=
  start (NewClient "k1" "wa1")
    (environment (fun _ => None)
       (fun _ _ =>
          inl (mkResponse "308 Permanent Redirect" 308
                 {["Location" := ["https://example.org/again"]]}
                 (mkReader EmptyString None)))).

(** The body [{"result":5,"data":true}]: [data] is a boolean, [result]
    is not a string. *)
Definition scenario_check_5 : State :=
  start (NewClient "k1" "wa1")
    (gateway "200 OK" 200
       ("{" +:+ quoted "result" +:+ ":5," +:+ quoted "data" +:+ ":true}")).

(** ** Calls, for statements about the three methods together *)

Inductive call : Type :=
| call_SendMessage (recipientPhone text : string)
| call_SendPDF (recipientPhone text filename : string) (pdf : Reader)
| call_Check (phone : string).

(** The state a call leaves, and the error it returns. *)
Definition after (c : call) (s : State) : State :=
  match c with
  | call_SendMessage recipientPhone text =>
    snd (SendMessage recipientPhone text s)
  | call_SendPDF recipientPhone text filename pdf =>
    snd (SendPDF recipientPhone text filename pdf s)
  | call_Check phone => snd (Check phone s)
  end.

Definition failure (c : call) (s : State) : error :=
  match c with
  | call_SendMessage recipientPhone text =>
    snd (fst (SendMessage recipientPhone text s))
  | call_SendPDF recipientPhone text filename pdf =>
    snd (fst (SendPDF recipientPhone text filename pdf s))
  | call_Check phone => snd (fst (Check phone s))
  end.

(** The path a call posts to. *)
Definition endpoint (c : call) : string :=
  match c with
  | call_Check _ => "/check"
  | _ => "/send"
  end.

(** One call after the other. *)
Fixpoint after_all (cs : list call) (s : State) : State :=
  match cs with
  | [] => s
  | c :: cs' => after_all cs' (after c s)
  end.

(** [refused s s' req e]: between [s] and [s'] the first request handed
    to the network was [req], and the round trip failed with [e]. *)
Definition refused (s s' : State) (req : Request) (e : Err) : Prop :=
  wire s' !! length (wire s) = Some req
  /\ network (env s) (wire s) req = inr e.

(** A request as the package sends it: a POST to [target] that asks for
    the connection to be closed. *)
Definition posts_to (target : string) (req : Request) : Prop :=
  Request_Method req = "POST"
  /\ Request_URL req = target
  /\ Request_Close req = true.

(** Further settings: a network that cannot be reached, a [net/url] that
    refuses every URL, a gateway whose body breaks off with an error, and
    gateways that answer 200 with [{}] and with half a value. *)
Definition offline : Environment :=
  environment (fun _ => None)
    (fun _ _ => inr (foreign_error "connection refused")).

Definition no_url : Environment :=
  environment (fun _ => Some (foreign_error "invalid URL"))
    (fun _ _ => inr (foreign_error "connection refused")).

Definition broken_body (status : string) (code : Z) : Environment :=
  environment (fun _ => None)
    (fun _ _ =>
       inl (mkResponse status code ∅
              (mkReader "{" (Some (foreign_error "connection reset"))))).

Definition scenario_offline : State := start (NewClient "k1" "wa1") offline.
Definition scenario_no_url : State := start (NewClient "k1" "wa1") no_url.
Definition scenario_broken : State :=
  start (NewClient "k1" "wa1") (broken_body "200 OK" 200).
Definition scenario_empty : State :=
  start (NewClient "k1" "wa1") (gateway "200 OK" 200 "{}").
Definition unreadable_pdf : Reader :=
  mkReader "%PDF" (Some (foreign_error "read error")).

(** The body a call makes, and the request it makes of it: what
    [http.NewRequest] gives, with [Close] set, after [RoundTrip] has
    added its headers. There is none when the document does not read or
    [net/url] refuses the URL. *)
Definition payload (c : call) (cl : Client) : string :=
  match c with
  | call_SendMessage recipientPhone text =>
    marshal (mkMessageRequest (WhatsappID cl) false
               (mkRecipient recipientPhone) (mkMessage "text" text))
  | call_SendPDF recipientPhone text filename pdf =>
    marshal
      (mkMessagePDFRequest (WhatsappID cl) false (mkRecipient recipientPhone)
         (mkMessagePDF "doc" text
            (mkMedia "application/pdf"
               (base64.EncodeToString (Reader_data pdf)) filename)))
  | call_Check phone => marshal (mkCheckRequest (WhatsappID cl) phone)
  end.

Definition reads (c : call) : bool :=
  match c with
  | call_SendPDF _ _ _ pdf =>
    match Reader_fault pdf with
    | None => true
    | Some _ => false
    end
  | _ => true
  end.

Definition first_request (c : call) (s : State) : option Request :=
  let cl := receiver s in
  if reads c then
    match url_Parse (env s) (url cl +:+ endpoint c) with
    | None =>
      Some (outbound (xApiKey (Transport (httpClient cl)))
              (mkRequest "POST" (url cl +:+ endpoint c) ∅ (payload c cl) true))
    | Some _ => None
    end
  else None.

(** The body of a request, read as JSON. *)
Definition body_read (r : option Request) : option json :=
  match r with
  | Some r => parser.document (Request_Body r)
  | None => None
  end.

(** Two requests that differ at most in their [X-Api-Key] header. *)
Definition same_but_key (r r' : Request) : Prop :=
  Request_Method r = Request_Method r'
  /\ Request_URL r = Request_URL r'
  /\ Request_Body r = Request_Body r'
  /\ Request_Close r = Request_Close r'
  /\ delete "X-Api-Key" (Request_Header r)
     = delete "X-Api-Key" (Request_Header r').

(** * Properties *)

(** ** The models of the library on known inputs *)

Example utf8_decode_cyr :
  utf8.DecodeRune "н" = (1085, 2%nat).
Proof. reflexivity. Qed.

Example utf8_encode_kelvin :
  utf8.DecodeRune (utf8.EncodeRune 8490) = (8490, 3%nat).
Proof. reflexivity. Qed.

Example utf8_coerce_bad :
  utf8.coerce (String (chr 255) "a") = utf8.EncodeRune utf8.RuneError +:+ "a".
Proof. reflexivity. Qed.

Example parse_example :
  parser.document
    ("{" +:+ quoted "result" +:+ ":{" +:+ quoted "_id" +:+ ":" +:+ quoted "abc"
     +:+ "," +:+ quoted "ack" +:+ ":1}}")
  = Some (JObject [("result",
                    JObject [("_id", JString "abc"); ("ack", JNumber "1")])]).
Proof. vm_compute. reflexivity. Qed.

Example parse_escapes :
  parser.document (quoted "aé\n😀\ud83dx")
  = Some (JString ("aé" +:+ String "010" ("😀" +:+ "�x"))).
Proof. vm_compute. reflexivity. Qed.

Example parse_numbers :
  map parser.document ["-0"; "01"; "1.5e+3"; "1."; "[1,]"; " [ 1 , 2 ] "; "tru"]
  = [Some (JNumber "-0"); None; Some (JNumber "1.5e+3"); None; None;
     Some (JArray [JNumber "1"; JNumber "2"]); None].
Proof. vm_compute. reflexivity. Qed.

Example ParseInt64_examples :
  map decode.ParseInt64
      ["1"; "-0"; "1.0"; "1e2"; "9223372036854775807"; "9223372036854775808";
       "-9223372036854775808"; "-"]
  = [Some 1%Z; Some 0%Z; None; None; Some 9223372036854775807%Z; None;
     Some (-9223372036854775808)%Z; None].
Proof. vm_compute. reflexivity. Qed.

Example foldName_examples :
  map decode.foldName ["ack"; "ACK"; "ac" +:+ utf8.EncodeRune 8490; "_id";
                       "re" +:+ utf8.EncodeRune 383 +:+ "ult"]
  = ["ACK"; "ACK"; "ACK"; "_ID"; "RESULT"].
Proof. vm_compute. reflexivity. Qed.

(** The test vectors of RFC 4648, section 10. *)
Example base64_rfc4648 :
  map base64.EncodeToString ["" ; "f"; "fo"; "foo"; "foob"; "fooba"; "foobar"]
  = [""; "Zg=="; "Zm8="; "Zm9v"; "Zm9vYg=="; "Zm9vYmE="; "Zm9vYmFy"].
Proof. vm_compute. reflexivity. Qed.

Example encode_string_examples :
  map encode.appendString ["hello"; "a<b"; "é"; String (chr 255) "x";
                     String "010" (String dquote "q")]
  = [quoted "hello"; quoted (String "a" (String backslash "u003cb"));
     quoted "é"; quoted (String backslash "ufffdx");
     quoted (String backslash ("n" +:+ String backslash (String dquote "q")))].
Proof. vm_compute. reflexivity. Qed.

Example canonical_keys :
  map textproto.CanonicalMIMEHeaderKey ["X-Api-Key"; "Content-type"; "a b"]
  = ["X-Api-Key"; "Content-Type"; "a b"].
Proof. vm_compute. reflexivity. Qed.

Example Unmarshal_example :
  json_Unmarshal
    ("{" +:+ quoted "result" +:+ ":{" +:+ quoted "_id" +:+ ":" +:+ quoted "abc"
     +:+ "," +:+ quoted "ack" +:+ ":1}}") MessageResponse_zero
  = (mkMessageResponse (set_Ack 1 (set_Id "abc" Result_zero)), None).
Proof. vm_compute. reflexivity. Qed.

Example Marshal_example :
  json_Marshal (mkMessageRequest "wa1" false (mkRecipient "79990001122")
                  (mkMessage "text" "hello"))
  = ("{" +:+ quoted "WhatsappID" +:+ ":" +:+ quoted "wa1" +:+ ","
     +:+ quoted "async" +:+ ":false," +:+ quoted "recipient" +:+ ":{"
     +:+ quoted "number" +:+ ":" +:+ quoted "79990001122" +:+ "},"
     +:+ quoted "message" +:+ ":{" +:+ quoted "type" +:+ ":" +:+ quoted "text"
     +:+ "," +:+ quoted "body" +:+ ":" +:+ quoted "hello" +:+ "}}", None).
Proof. vm_compute. reflexivity. Qed.

(** [json.Unmarshal] into a [MessageResponse]: [null] stores nothing; keys
    match up to case and the last member wins; a value of the wrong kind
    is a type error; text after the value is a syntax error. *)
Example Unmarshal_null :
  json_Unmarshal "null" MessageResponse_zero = (MessageResponse_zero, None).
Proof. vm_compute. reflexivity. Qed.

Example Unmarshal_fold_and_last :
  json_Unmarshal
    ("{" +:+ quoted "RESULT" +:+ ":{" +:+ quoted "ACK" +:+ ":2,"
     +:+ quoted "ack" +:+ ":3," +:+ quoted "other" +:+ ":[1,{}]}}")
    MessageResponse_zero
  = (mkMessageResponse (set_Ack 3 Result_zero), None).
Proof. vm_compute. reflexivity. Qed.

Example Unmarshal_errors :
  map (fun body => snd (json_Unmarshal body MessageResponse_zero))
    ["{" +:+ quoted "result" +:+ ":{" +:+ quoted "ack" +:+ ":"
     +:+ quoted "1" +:+ "}}";
     "{" +:+ quoted "result" +:+ ":{" +:+ quoted "ack" +:+ ":1.5}}";
     "[]";
     "{} x";
     ""]
  = [Some (json_UnmarshalTypeError "string");
     Some (json_UnmarshalTypeError "number 1.5");
     Some (json_UnmarshalTypeError "array");
     Some json_SyntaxError;
     Some json_SyntaxError].
Proof. vm_compute. reflexivity. Qed.

(** The stream decoder of [Check]: it stops after the first value; a
    stream that ends early is an unexpected end of file, an empty one an
    end of file, and a reader that fails before the value is complete
    gives its own error. *)
Example Decoder_examples :
  map (fun r => Decoder_Decode r CheckResponse_zero)
    [mkReader ("{" +:+ quoted "data" +:+ ":true} trailing") None;
     mkReader ("{" +:+ quoted "data" +:+ ":tr") None;
     mkReader " " None;
     mkReader ("{" +:+ quoted "data" +:+ ":tr") (Some (foreign_error "reset"));
     mkReader ("{" +:+ quoted "data" +:+ ":true}")
       (Some (foreign_error "reset"))]
  = [(mkCheckResponse "" true, None);
     (CheckResponse_zero, Some io_ErrUnexpectedEOF);
     (CheckResponse_zero, Some io_EOF);
     (CheckResponse_zero, Some (foreign_error "reset"));
     (mkCheckResponse "" true, None)].
Proof. vm_compute. reflexivity. Qed.

(** ** The reader never runs out of fuel *)

Section fuel.
Import scanner.

Lemma consumes_map {A B} (f : A -> B) strict s x :
  consumes strict s x -> consumes strict s (scan_map f x).
Proof. destruct x; exact id. Qed.

Lemma consumes_weaken {A} strict s s' (x : scan A) :
  (String.length s <= String.length s')%nat ->
  consumes strict s x -> consumes strict s' x.
Proof. destruct x, strict; cbn; lia. Qed.

Lemma consumes_strict {A} s s' (x : scan A) :
  (String.length s < String.length s')%nat ->
  consumes false s x -> consumes true s' x.
Proof. destruct x; cbn; lia. Qed.

Lemma skip_space_le s :
  (String.length (skip_space s) <= String.length s)%nat.
Proof.
  induction s as [|c r IH]; cbn; [lia|]. destruct (isSpace c); cbn; lia.
Qed.

Lemma scan_string_consumes st s : consumes true s (scan_string st s).
Proof.
  revert st. induction s as [|c r IH]; intros st; [exact I|].
  cbn [scan_string].
  destruct st;
    repeat match goal with
           | |- context [if ?b then _ else _] => destruct b
           end;
    try exact I; try (cbn; lia);
    apply consumes_map; (eapply consumes_weaken; [|apply IH]); cbn; lia.
Qed.

Lemma span_digits_le s :
  (String.length (snd (span_digits s)) <= String.length s)%nat.
Proof.
  induction s as [|c r IH]; cbn; [lia|].
  destruct (is_digit c); [|cbn; lia].
  destruct (span_digits r). cbn in *. lia.
Qed.

Lemma scan_digits1_consumes s : consumes true s (scan_digits1 s).
Proof.
  destruct s as [|c r]; [exact I|]. unfold scan_digits1.
  destruct (is_digit c) eqn:Hc; [|exact I].
  pose proof (span_digits_le r) as H.
  cbn [span_digits]. rewrite Hc. destruct (span_digits r). cbn in *. lia.
Qed.

Lemma scan_int_consumes s : consumes true s (scan_int s).
Proof.
  destruct s as [|c r]; [exact I|]. unfold scan_int.
  destruct (Ascii.eqb c "0"); [cbn; lia|].
  destruct (is_digit c); [|exact I].
  pose proof (span_digits_le r) as H.
  destruct (span_digits r). cbn in *. lia.
Qed.

Lemma scan_frac_consumes s : consumes false s (scan_frac s).
Proof.
  destruct s as [|c r]; [cbn; lia|]. unfold scan_frac.
  destruct (Ascii.eqb c "."); [|cbn; lia].
  apply consumes_map.
  pose proof (scan_digits1_consumes r) as H.
  destruct (scan_digits1 r); cbn in *; try lia; exact H.
Qed.

Lemma scan_exp_consumes s : consumes false s (scan_exp s).
Proof.
  destruct s as [|c r]; [cbn; lia|]. unfold scan_exp.
  destruct (_ || _); [|cbn; lia].
  destruct r as [|g r']; [exact I|].
  destruct (_ || _); apply consumes_map.
  - pose proof (scan_digits1_consumes r') as H.
    destruct (scan_digits1 r'); cbn in *; try lia; exact H.
  - pose proof (scan_digits1_consumes (String g r')) as H.
    destruct (scan_digits1 (String g r')); cbn in *; try lia; exact H.
Qed.

Lemma scan_number_consumes s : consumes true s (scan_number s).
Proof.
  unfold scan_number.
  assert (H : forall s1, (String.length s1 <= String.length s)%nat ->
            consumes true s
              (scan_bind (scan_int s1) (fun i s2 =>
               scan_bind (scan_frac s2) (fun f s3 =>
               scan_bind (scan_exp s3) (fun e s4 =>
               Scanned (i +:+ f +:+ e) s4))))).
  { intros s1 Hs1.
    pose proof (scan_int_consumes s1) as Hi.
    destruct (scan_int s1) as [i s2| | |]; cbn in *; try exact I; try tauto.
    pose proof (scan_frac_consumes s2) as Hf.
    destruct (scan_frac s2) as [f s3| | |]; cbn in *; try exact I; try tauto.
    pose proof (scan_exp_consumes s3) as He.
    destruct (scan_exp s3) as [e s4| | |]; cbn in *; try exact I; try tauto.
    lia. }
  assert (H' : forall sign s1, (String.length s1 <= String.length s)%nat ->
            consumes true s
              (scan_bind (scan_int s1) (fun i s2 =>
               scan_bind (scan_frac s2) (fun f s3 =>
               scan_bind (scan_exp s3) (fun e s4 =>
               Scanned (sign +:+ i +:+ f +:+ e) s4))))).
  { intros sign s1 Hs1. specialize (H s1 Hs1).
    destruct (scan_int s1) as [i s2| | |]; cbn in *; try exact I; try tauto.
    destruct (scan_frac s2) as [f s3| | |]; cbn in *; try exact I; try tauto.
    destruct (scan_exp s3) as [e s4| | |]; cbn in *; try exact I; tauto. }
  destruct s as [|c r]; [apply H'; cbn; lia|].
  destruct (Ascii.eqb c "-"); apply H'; cbn; lia.
Qed.

Lemma scan_literal_consumes lit s : consumes false s (scan_literal lit s).
Proof.
  revert s. induction lit as [|l lit IH]; intros s; [cbn; lia|].
  destruct s as [|c r]; [exact I|]. cbn [scan_literal].
  destruct (Ascii.eqb c l); [|exact I].
  eapply consumes_weaken; [|apply IH]. cbn; lia.
Qed.

Lemma skip_space_cons s c r :
  skip_space s = String c r -> (String.length r < String.length s)%nat.
Proof.
  intros H. pose proof (skip_space_le s) as Hle. rewrite H in Hle.
  cbn in Hle. lia.
Qed.

(** With fuel above twice the length of the input, [value], [members]
    and [elements] stop for a reason other than fuel, and a value they
    complete has used up input. *)
Lemma parser_fuel fuel : forall depth s,
  ((2 * String.length s < fuel)%nat ->
   consumes true s (parser.value fuel depth s))
  /\ ((2 * String.length s + 1 < fuel)%nat ->
      consumes true s (parser.members fuel depth s)
      /\ consumes true s (parser.elements fuel depth s)).
Proof.
  induction fuel as [|fuel IH]; intros depth s; [split; intros; lia|].
  assert (IHv : forall d r, (2 * String.length r < fuel)%nat ->
                 consumes true r (parser.value fuel d r))
    by (intros d r; apply IH).
  assert (IHm : forall d r, (2 * String.length r + 1 < fuel)%nat ->
                 consumes true r (parser.members fuel d r))
    by (intros d r Hr; apply IH; exact Hr).
  assert (IHe : forall d r, (2 * String.length r + 1 < fuel)%nat ->
                 consumes true r (parser.elements fuel d r))
    by (intros d r Hr; apply IH; exact Hr).
  clear IH. split; [|intros Hf; split].
  - intros Hf. cbn [parser.value].
    destruct (skip_space s) as [|c r] eqn:Hs; [exact I|].
    apply skip_space_cons in Hs.
    repeat match goal with
           | |- context [if ?b then _ else _] => destruct b
           end;
      try exact I.
    + destruct (skip_space r) as [|c' r'] eqn:Hr; [exact I|].
      apply skip_space_cons in Hr.
      destruct (Ascii.eqb c' "}"); [cbn; lia|].
      apply consumes_map. eapply consumes_weaken; [|apply IHm; lia]. lia.
    + destruct (skip_space r) as [|c' r'] eqn:Hr; [exact I|].
      apply skip_space_cons in Hr.
      destruct (Ascii.eqb c' "]"); [cbn; lia|].
      apply consumes_map. eapply consumes_weaken; [|apply IHe; lia]. lia.
    + apply consumes_map. eapply consumes_weaken; [|apply scan_string_consumes].
      lia.
    + apply consumes_map.
      eapply consumes_weaken; [|apply scan_number_consumes]. cbn. lia.
    + apply consumes_map.
      eapply consumes_strict; [|apply scan_literal_consumes]. lia.
    + apply consumes_map.
      eapply consumes_strict; [|apply scan_literal_consumes]. lia.
    + apply consumes_map.
      eapply consumes_strict; [|apply scan_literal_consumes]. lia.
  - cbn [parser.members].
    destruct (skip_space s) as [|c r] eqn:Hs; [exact I|].
    apply skip_space_cons in Hs.
    destruct (Ascii.eqb c dquote); [|exact I].
    pose proof (scan_string_consumes InString r) as H1.
    destruct (scan_string InString r) as [raw r1| | |]; cbn in H1 |- *;
      try exact I; try tauto.
    destruct (skip_space r1) as [|c1 r2] eqn:Hr1; [exact I|].
    apply skip_space_cons in Hr1.
    destruct (Ascii.eqb c1 ":"); [|exact I].
    pose proof (IHv depth r2 ltac:(lia)) as H2.
    destruct (parser.value fuel depth r2) as [v r3| | |]; cbn in H2 |- *;
      try exact I; try tauto.
    destruct (skip_space r3) as [|c3 r4] eqn:Hr3; [exact I|].
    apply skip_space_cons in Hr3.
    destruct (Ascii.eqb c3 ",").
    + apply consumes_map. eapply consumes_weaken; [|apply IHm; lia]. lia.
    + destruct (Ascii.eqb c3 "}"); [cbn; lia|exact I].
  - cbn [parser.elements].
    pose proof (IHv depth s ltac:(lia)) as H1.
    destruct (parser.value fuel depth s) as [v r1| | |]; cbn in H1 |- *;
      try exact I; try tauto.
    destruct (skip_space r1) as [|c r2] eqn:Hr1; [exact I|].
    apply skip_space_cons in Hr1.
    destruct (Ascii.eqb c ",").
    + apply consumes_map. eapply consumes_weaken; [|apply IHe; lia]. lia.
    + destruct (Ascii.eqb c "]"); [cbn; lia|exact I].
Qed.

(** [first_value] gives a value or a reason that is not fuel. *)
Lemma first_value_fuel s : parser.first_value s <> OutOfFuel.
Proof.
  unfold parser.first_value.
  pose proof (proj1 (parser_fuel (S (2 * String.length s)) 0 s)
                ltac:(lia)) as H.
  intros E. rewrite E in H. exact H.
Qed.

End fuel.

(** ** The store step against the wording *)

Section find_field.
Context {X : Type}.
Implicit Types (fs : list (string * X)) (key : string).

Let folds key (f : string * X) : bool :=
  String.eqb (decode.foldName (fst f)) (decode.foldName key).

(** With field names that stay distinct under case folding, the exact
    match of the decoder never disagrees with the folded one. *)
Lemma find_field_fold fs key :
  NoDup (map (fun f => decode.foldName (fst f)) fs) ->
  decode.find_field fs key = List.find (folds key) fs.
Proof.
  intros Hnd. unfold decode.find_field.
  destruct (List.find (fun f => String.eqb (fst f) key) fs) as [f|] eqn:Hex;
    [|reflexivity].
  induction fs as [|a fs IH]; [discriminate|].
  inversion Hnd as [|? ? Hnotin Hnd']; subst.
  cbn [List.find] in Hex |- *.
  destruct (String.eqb (fst a) key) eqn:Ha.
  - injection Hex as <-. apply String.eqb_eq in Ha.
    unfold folds. rewrite Ha, String.eqb_refl. reflexivity.
  - destruct (folds key a) eqn:Hfa.
    + exfalso. apply Hnotin.
      apply find_some in Hex as [Hin Hf].
      apply String.eqb_eq in Hf. apply String.eqb_eq in Hfa.
      rewrite Hfa, <- Hf.
      apply list_elem_of_In, in_map_iff. exists f. split; [reflexivity|].
      exact Hin.
    + apply IH; assumption.
Qed.

Lemma find_field_In fs key f :
  decode.find_field fs key = Some f -> In f fs.
Proof.
  unfold decode.find_field.
  destruct (List.find _ fs) eqn:H1.
  - intros [= <-]. apply (find_some _ _ H1).
  - intros H2. apply (find_some _ _ H2).
Qed.
End find_field.

Section wording_lists.
Import wording.

Lemma bound_app name a b : bound name (a ++ b) = bound name a ++ bound name b.
Proof.
  induction a as [|[k v] a IH]; [reflexivity|].
  cbn [bound app]. rewrite IH. destruct (_ && _); reflexivity.
Qed.

Lemma conforms_app schema a b :
  conforms schema (a ++ b) = conforms schema a && conforms schema b.
Proof.
  unfold conforms. induction schema as [|nk schema IH]; [reflexivity|].
  cbn [forallb]. rewrite IH, bound_app, forallb_app. clear IH.
  generalize (forallb (fits nk.2) (bound nk.1 a)),
    (forallb (fits nk.2) (bound nk.1 b)),
    (forallb (fun nk => forallb (fits nk.2) (bound nk.1 a)) schema),
    (forallb (fun nk => forallb (fits nk.2) (bound nk.1 b)) schema).
  intros [] [] [] []; reflexivity.
Qed.

Lemma last_fits k a b :
  forallb (fits k) b = true ->
  (exists v, last (a ++ b) = Some v /\ last b = Some v /\ fits k v = true)
  \/ b = [].
Proof.
  intros Hb. destruct b as [|x b _] using rev_ind; [right; reflexivity|].
  left. exists x. rewrite app_assoc, !last_snoc. repeat split.
  rewrite forallb_app in Hb.
  apply andb_true_iff in Hb as [_ Hx]. cbn in Hx.
  rewrite andb_true_r in Hx. exact Hx.
Qed.

Lemma pick_string_app a b d :
  forallb (fits KString) b = true ->
  pick_string (a ++ b) d = pick_string b (pick_string a d).
Proof.
  intros Hb. unfold pick_string.
  destruct (last_fits _ a _ Hb) as [(v & -> & -> & Hv)| ->].
  - destruct v; try discriminate. reflexivity.
  - rewrite app_nil_r. reflexivity.
Qed.

Lemma pick_bool_app a b d :
  forallb (fits KBool) b = true ->
  pick_bool (a ++ b) d = pick_bool b (pick_bool a d).
Proof.
  intros Hb. unfold pick_bool.
  destruct (last_fits _ a _ Hb) as [(v & -> & -> & Hv)| ->].
  - destruct v; try discriminate. reflexivity.
  - rewrite app_nil_r. reflexivity.
Qed.

Lemma pick_int_app a b d :
  forallb (fits KInt) b = true ->
  pick_int (a ++ b) d = pick_int b (pick_int a d).
Proof.
  intros Hb. unfold pick_int.
  destruct (last_fits _ a _ Hb) as [(v & -> & -> & Hv)| ->].
  - destruct v; try discriminate.
    cbn in Hv. destruct (decode.ParseInt64 lit); [reflexivity|discriminate].
  - rewrite app_nil_r. reflexivity.
Qed.

Lemma Result_of_app a b cur :
  conforms Result_schema b = true ->
  Result_of (a ++ b) cur = Result_of b (Result_of a cur).
Proof.
  intros Hb. unfold conforms in Hb. cbn [forallb Result_schema fst snd] in Hb.
  repeat (apply andb_true_iff in Hb as [? Hb]).
  unfold Result_of. rewrite !bound_app. cbn.
  rewrite !pick_string_app, !pick_int_app, !pick_bool_app by assumption.
  reflexivity.
Qed.

Lemma Result_of_nil cur : Result_of [] cur = cur.
Proof. destruct cur; reflexivity. Qed.

End wording_lists.

Ltac fold_names :=
  repeat match goal with
  | |- context [decode.foldName (String ?c ?s)] =>
    let v := eval vm_compute in (decode.foldName (String c s)) in
    change (decode.foldName (String c s)) with v
  end.

Ltac decide_eqb :=
  repeat match goal with
  | |- context [String.eqb ?a ?b] =>
    let v := eval vm_compute in (String.eqb a b) in
    progress change (String.eqb a b) with v
  end.

Section store_Result.
Import wording.

Lemma Result_fields_distinct :
  NoDup (map (fun f => decode.foldName (fst f)) Result_fields).
Proof.
  apply (bool_decide_unpack _ (dec := NoDup_dec _)). vm_compute. exact I.
Qed.

Lemma store_Result_member k v cur :
  let out :=
    match decode.find_field Result_fields k with
    | Some (_, st) => st v cur
    | None => (cur, None)
    end in
  if conforms Result_schema [(k, v)]
  then out = (Result_of [(k, v)] cur, None)
  else exists x, snd out = Some (json_UnmarshalTypeError x).
Proof.
  rewrite (find_field_fold _ _ Result_fields_distinct).
  unfold conforms, Result_of, Result_schema.
  cbn [forallb fst snd bound]. unfold belongs. fold_names.
  destruct (List.find _ Result_fields) as [[n st]|] eqn:Hf.
  - apply find_some in Hf as [Hin Hk]. cbn [fst] in Hk.
    apply String.eqb_eq in Hk.
    cbn [In Result_fields] in Hin.
    repeat (destruct Hin as [Hin|Hin]; [injection Hin as <- <-|]);
      try contradiction;
      rewrite <- Hk; clear Hk; fold_names; decide_eqb;
      destruct v as [|b|lit|s|es|ms]; destruct cur; cbn;
      try reflexivity; try (eexists; reflexivity);
      unfold decode.field_of, decode.store_int; cbn;
      destruct (decode.ParseInt64 lit); cbn;
      try reflexivity; try (eexists; reflexivity).
  - assert (Hall := find_none _ _ Hf). clear Hf.
    cbn [fst] in Hall.
    assert (H : forall name,
               In name (map (fun f => decode.foldName (fst f)) Result_fields) ->
               String.eqb (decode.foldName k) name = false).
    { intros name Hin. apply in_map_iff in Hin as [f [<- Hin]].
      rewrite String.eqb_sym. apply Hall, Hin. }
    let l := eval vm_compute in
               (map (fun f => decode.foldName (fst f)) Result_fields) in
    change (map (fun f => decode.foldName (fst f)) Result_fields) with l in H.
    rewrite !H by (cbn [In]; tauto). cbn. destruct cur; reflexivity.
Qed.

Lemma store_Result_members ms : forall cur,
  if conforms Result_schema ms
  then decode.store_members Result_fields ms cur = (Result_of ms cur, None)
  else exists x, snd (decode.store_members Result_fields ms cur)
                 = Some (json_UnmarshalTypeError x).
Proof.
  induction ms as [|[k v] ms IH]; intros cur.
  - cbn. rewrite Result_of_nil. reflexivity.
  - rewrite (conforms_app _ [(k, v)] ms : conforms _ ((k, v) :: ms) = _).
    cbn [decode.store_members].
    pose proof (store_Result_member k v cur) as Hm. cbv zeta in Hm.
    destruct (conforms Result_schema [(k, v)]); cbn [andb].
    + rewrite Hm. specialize (IH (Result_of [(k, v)] cur)).
      destruct (conforms Result_schema ms) eqn:Hms.
      * rewrite IH. cbn [saveError].
        rewrite (Result_of_app [(k, v)] ms cur Hms
                 : Result_of ((k, v) :: ms) cur = _).
        reflexivity.
      * destruct IH as [x Hx]. exists x.
        destruct (decode.store_members _ ms _) as [r e]. exact Hx.
    + destruct Hm as [x Hx].
      destruct (match decode.find_field Result_fields k with
                | Some (_, st) => st v cur
                | None => (cur, None)
                end) as [cur1 e1].
      cbn in Hx. subst e1. exists x.
      destruct (decode.store_members _ ms cur1). reflexivity.
Qed.

Lemma CheckResponse_fields_distinct :
  NoDup (map (fun f => decode.foldName (fst f)) CheckResponse_fields).
Proof.
  apply (bool_decide_unpack _ (dec := NoDup_dec _)). vm_compute. exact I.
Qed.

Lemma store_CheckResponse_member k v cur :
  let out :=
    match decode.find_field CheckResponse_fields k with
    | Some (_, st) => st v cur
    | None => (cur, None)
    end in
  if conforms CheckResponse_schema [(k, v)]
  then out = (CheckResponse_of [(k, v)] cur, None)
  else exists x, snd out = Some (json_UnmarshalTypeError x).
Proof.
  rewrite (find_field_fold _ _ CheckResponse_fields_distinct).
  unfold conforms, CheckResponse_of, CheckResponse_schema.
  cbn [forallb fst snd bound]. unfold belongs. fold_names.
  destruct (List.find _ CheckResponse_fields) as [[n st]|] eqn:Hf.
  - apply find_some in Hf as [Hin Hk]. cbn [fst] in Hk.
    apply String.eqb_eq in Hk.
    cbn [In CheckResponse_fields] in Hin.
    repeat (destruct Hin as [Hin|Hin]; [injection Hin as <- <-|]);
      try contradiction;
      rewrite <- Hk; clear Hk; fold_names; decide_eqb;
      destruct v as [|b|lit|s|es|ms]; destruct cur; cbn;
      try reflexivity; try (eexists; reflexivity).
  - assert (Hall := find_none _ _ Hf). clear Hf.
    cbn [fst] in Hall.
    assert (H : forall name,
               In name (map (fun f => decode.foldName (fst f))
                          CheckResponse_fields) ->
               String.eqb (decode.foldName k) name = false).
    { intros name Hin. apply in_map_iff in Hin as [f [<- Hin]].
      rewrite String.eqb_sym. apply Hall, Hin. }
    let l := eval vm_compute in
               (map (fun f => decode.foldName (fst f)) CheckResponse_fields) in
    change (map (fun f => decode.foldName (fst f)) CheckResponse_fields)
      with l in H.
    rewrite !H by (cbn [In]; tauto). cbn. destruct cur; reflexivity.
Qed.

Lemma CheckResponse_of_app a b cur :
  conforms CheckResponse_schema b = true ->
  CheckResponse_of (a ++ b) cur = CheckResponse_of b (CheckResponse_of a cur).
Proof.
  intros Hb. unfold conforms in Hb.
  cbn [forallb CheckResponse_schema fst snd] in Hb.
  repeat (apply andb_true_iff in Hb as [? Hb]).
  unfold CheckResponse_of. rewrite !bound_app. cbn.
  rewrite !pick_string_app, !pick_bool_app by assumption.
  reflexivity.
Qed.

Lemma store_CheckResponse_members ms : forall cur,
  if conforms CheckResponse_schema ms
  then decode.store_members CheckResponse_fields ms cur
       = (CheckResponse_of ms cur, None)
  else exists x, snd (decode.store_members CheckResponse_fields ms cur)
                 = Some (json_UnmarshalTypeError x).
Proof.
  induction ms as [|[k v] ms IH]; intros cur.
  - cbn. destruct cur; reflexivity.
  - rewrite (conforms_app _ [(k, v)] ms : conforms _ ((k, v) :: ms) = _).
    cbn [decode.store_members].
    pose proof (store_CheckResponse_member k v cur) as Hm. cbv zeta in Hm.
    destruct (conforms CheckResponse_schema [(k, v)]); cbn [andb].
    + rewrite Hm. specialize (IH (CheckResponse_of [(k, v)] cur)).
      destruct (conforms CheckResponse_schema ms) eqn:Hms.
      * rewrite IH. cbn [saveError].
        rewrite (CheckResponse_of_app [(k, v)] ms cur Hms
                 : CheckResponse_of ((k, v) :: ms) cur = _).
        reflexivity.
      * destruct IH as [x Hx]. exists x.
        destruct (decode.store_members _ ms _) as [r e]. exact Hx.
    + destruct Hm as [x Hx].
      destruct (match decode.find_field CheckResponse_fields k with
                | Some (_, st) => st v cur
                | None => (cur, None)
                end) as [cur1 e1].
      cbn in Hx. subst e1. exists x.
      destruct (decode.store_members _ ms cur1). reflexivity.
Qed.


Lemma MessageResponse_fields_distinct :
  NoDup (map (fun f => decode.foldName (fst f)) MessageResponse_fields).
Proof.
  apply (bool_decide_unpack _ (dec := NoDup_dec _)). vm_compute. exact I.
Qed.

Lemma store_MessageResponse_members ms : forall cur,
  if forallb is_object (bound "result" ms)
     && conforms Result_schema (result_members ms)
  then decode.store_members MessageResponse_fields ms cur
       = (mkMessageResponse
            (Result_of (result_members ms) (MessageResponse_Result cur)),
          None)
  else exists x, snd (decode.store_members MessageResponse_fields ms cur)
                 = Some (json_UnmarshalTypeError x).
Proof.
  unfold result_members.
  induction ms as [|[k v] ms IH]; intros cur.
  - cbn. rewrite Result_of_nil. destruct cur; reflexivity.
  - cbn [decode.store_members bound].
    rewrite (find_field_fold _ _ MessageResponse_fields_distinct).
    cbn [List.find MessageResponse_fields fst]. unfold belongs.
    rewrite (String.eqb_sym (decode.foldName k)).
    destruct (String.eqb (decode.foldName "result") (decode.foldName k));
      cbn [andb].
    + destruct v as [|b|lit|s|es|ms1]; cbn [is_null negb];
        try (cbn; eexists;
             destruct (decode.store_members _ ms _); reflexivity).
      * specialize (IH cur). destruct cur as [r].
        cbn [decode.field_of store Result_Target decode.store_struct
             MessageResponse_Result].
        destruct (_ && _).
        -- rewrite IH. reflexivity.
        -- destruct IH as [x Hx]. exists x.
           destruct (decode.store_members _ ms _). exact Hx.
      * cbn [forallb is_object flat_map members_of andb].
        rewrite conforms_app.
        unfold decode.field_of, store, Result_Target, decode.store_struct.
        pose proof (store_Result_members ms1 (MessageResponse_Result cur))
          as H1.
        destruct (conforms Result_schema ms1) eqn:Hc1.
        -- rewrite H1.
           specialize
             (IH (mkMessageResponse
                    (Result_of ms1 (MessageResponse_Result cur)))).
           cbn [andb].
           destruct (forallb is_object (bound "result" ms)
                     && conforms Result_schema
                          (flat_map members_of (bound "result" ms)))
             eqn:Hrest.
           ++ rewrite IH. cbn [saveError MessageResponse_Result].
              apply andb_true_iff in Hrest as [_ Hrest].
              rewrite (Result_of_app _ _ _ Hrest). reflexivity.
           ++ destruct IH as [x Hx]. exists x.
              destruct (decode.store_members _ ms _). exact Hx.
        -- rewrite andb_false_r. destruct H1 as [x Hx]. exists x.
           destruct (decode.store_members Result_fields ms1 _) as [r1 e1].
           cbn in Hx. subst e1.
           destruct (decode.store_members _ ms _). reflexivity.
    + specialize (IH cur).
      destruct (_ && _).
      * rewrite IH. reflexivity.
      * destruct IH as [x Hx]. exists x.
        destruct (decode.store_members _ ms _). exact Hx.
Qed.

(** [json.Unmarshal] into a zero [MessageResponse]: a well-formed body
    gives the value the wording describes and no error; any other body
    gives an error of the JSON package. *)
Lemma json_Unmarshal_MessageResponse body :
  if body_wf body
  then exists j, parser.document body = Some j
                 /\ json_Unmarshal body MessageResponse_zero
                    = (MessageResponse_of j, None)
  else snd (json_Unmarshal body MessageResponse_zero) = Some json_SyntaxError
       \/ exists x, snd (json_Unmarshal body MessageResponse_zero)
                    = Some (json_UnmarshalTypeError x).
Proof.
  unfold body_wf, json_Unmarshal.
  destruct (parser.document body) as [j|]; [|left; reflexivity].
  unfold store, MessageResponse_Target, decode.store_struct.
  destruct j as [|b|lit|s|es|ms]; cbn [MessageResponse_wf];
    try (right; eexists; reflexivity).
  - exists JNull. split; reflexivity.
  - pose proof (store_MessageResponse_members ms MessageResponse_zero) as H.
    destruct (_ && _).
    + exists (JObject ms). split; [reflexivity|]. exact H.
    + right. exact H.
Qed.

(** The same for the stream decoder and [CheckResponse]. *)
Lemma store_CheckResponse j :
  if CheckResponse_wf j
  then store j CheckResponse_zero
       = (mkCheckResponse
            (CheckResponse_Result
               (CheckResponse_of (members_of j) CheckResponse_zero))
            (data_of j), None)
  else exists x, snd (store j CheckResponse_zero)
                 = Some (json_UnmarshalTypeError x).
Proof.
  unfold store, CheckResponse_Target, decode.store_struct.
  destruct j as [|b|lit|s|es|ms]; cbn [CheckResponse_wf];
    try (eexists; reflexivity).
  exact (store_CheckResponse_members ms CheckResponse_zero).
Qed.

End store_Result.

(** ** What the writer writes, the reader reads back *)

#[local] Arguments String.append : simpl nomatch.

Section strings.

Lemma append_assoc (a b c : string) : (a +:+ b) +:+ c = a +:+ (b +:+ c).
Proof. induction a as [|x a IH]; simpl; congruence. Qed.

Lemma append_nil_r (a : string) : a +:+ EmptyString = a.
Proof. induction a as [|x a IH]; simpl; congruence. Qed.

Lemma length_append (a b : string) :
  String.length (a +:+ b) = (String.length a + String.length b)%nat.
Proof. induction a as [|x a IH]; simpl; congruence. Qed.

End strings.

(** A case for each of the 256 bytes. *)
Ltac each_byte c := destruct c as [[] [] [] [] [] [] [] []].

Section string_roundtrip.
Import scanner.

Lemma prepend_map (pre : string) (x : scan string) :
  prepend pre x = scan_map (String.append pre) x.
Proof.
  induction pre as [|c pre IH]; cbn [prepend].
  - destruct x; reflexivity.
  - rewrite IH. destruct x; reflexivity.
Qed.

(** An ASCII byte: written as it is or as an escape, read back as it is. *)
Lemma piece_ascii c :
  (code c <? utf8.RuneSelf) = true ->
  piece (if encode.htmlSafe c then String c EmptyString else encode.escape c)
        (String c EmptyString)
  /\ utf8.DecodeRune (String c EmptyString) = (code c, 1%nat)
  /\ utf8.EncodeRune (code c) = String c EmptyString.
Proof.
  intros H; each_byte c; try discriminate H; clear H;
    (split; [split; intros t; reflexivity|split; reflexivity]).
Qed.

Lemma byte_in_high lo hi c :
  128 <= lo -> byte_in lo hi c = true -> high c = true.
Proof.
  unfold byte_in, high. intros Hlo H.
  apply andb_true_iff in H as [H _].
  apply N.leb_le in H. apply N.leb_le. lia.
Qed.

(** A rune of two to four bytes: the bytes are there, none of them is
    ASCII, and they decode to the same rune whatever follows them. *)
Lemma DecodeRune_wide c r rn size :
  utf8.DecodeRune (String c r) = (rn, size) ->
  size <> 1%nat ->
  exists bs,
    stake size (String c r) = String c bs
    /\ String.length bs = (size - 1)%nat
    /\ string_forallb high (String c bs) = true
    /\ forall t, utf8.DecodeRune (String c bs +:+ t) = (rn, size).
Proof.
  unfold utf8.DecodeRune. cbv zeta.
  destruct (code c <? 128) eqn:H0; [intros [= <- <-]; congruence|].
  destruct (byte_in 194 223 c) eqn:H2.
  { destruct r as [|b1 r1]; [intros [= <- <-]; congruence|].
    destruct (utf8.cont b1) eqn:Hb1; intros [= <- <-]; [|congruence].
    intros _. exists (String b1 EmptyString).
    repeat split.
    - cbn [string_forallb].
      rewrite (byte_in_high 194 223 c ltac:(lia) H2),
        (byte_in_high 128 191 b1 ltac:(lia) Hb1). reflexivity.
    - intros t. cbn [String.append]. rewrite H0, H2, Hb1. reflexivity. }
  destruct (byte_in 224 239 c) eqn:H3.
  { destruct r as [|b1 [|b2 r2]]; try (intros [= <- <-]; congruence).
    destruct (byte_in _ _ b1 && utf8.cont b2) eqn:Hb; intros [= <- <-];
      [|congruence].
    intros _. exists (String b1 (String b2 EmptyString)).
    repeat split.
    - apply andb_true_iff in Hb as [Hb1 Hb2].
      assert (Hh1 : high b1 = true)
        by (eapply byte_in_high; [|exact Hb1]; destruct (code c =? 224); lia).
      cbn [string_forallb].
      rewrite (byte_in_high 224 239 c ltac:(lia) H3), Hh1,
        (byte_in_high 128 191 b2 ltac:(lia) Hb2). reflexivity.
    - intros t. cbn [String.append]. rewrite H0, H2, H3, Hb. reflexivity. }
  destruct (byte_in 240 244 c) eqn:H4.
  { destruct r as [|b1 [|b2 [|b3 r3]]]; try (intros [= <- <-]; congruence).
    destruct (byte_in _ _ b1 && utf8.cont b2 && utf8.cont b3) eqn:Hb;
      intros [= <- <-]; [|congruence].
    intros _. exists (String b1 (String b2 (String b3 EmptyString))).
    repeat split.
    - apply andb_true_iff in Hb as [Hb Hb3].
      apply andb_true_iff in Hb as [Hb1 Hb2].
      assert (Hh1 : high b1 = true)
        by (eapply byte_in_high; [|exact Hb1]; destruct (code c =? 240); lia).
      cbn [string_forallb].
      rewrite (byte_in_high 240 244 c ltac:(lia) H4), Hh1,
        (byte_in_high 128 191 b2 ltac:(lia) Hb2),
        (byte_in_high 128 191 b3 ltac:(lia) Hb3). reflexivity.
    - intros t. cbn [String.append]. rewrite H0, H2, H3, H4, Hb.
      reflexivity. }
  intros [= <- <-]; congruence.
Qed.

Lemma high_passes c :
  high c = true ->
  Ascii.eqb c dquote = false /\ Ascii.eqb c backslash = false
  /\ (code c <? 32) = false /\ (code c <? utf8.RuneSelf) = false.
Proof. intros H; each_byte c; try discriminate H; repeat split. Qed.

Lemma scan_high bs : forall t,
  string_forallb high bs = true ->
  scan_string InString (bs +:+ t) = prepend bs (scan_string InString t).
Proof.
  induction bs as [|b bs IH]; intros t H; [reflexivity|].
  cbn [string_forallb] in H. apply andb_true_iff in H as [Hb H].
  destruct (high_passes b Hb) as (H1 & H2 & H3 & _).
  cbn [String.append scan_string prepend]. rewrite H1, H2, H3, IH by exact H.
  reflexivity.
Qed.

Lemma unquote_skip bs : forall t,
  unquote.from (String.length bs) (bs +:+ t) = unquote.from 0 t.
Proof.
  induction bs as [|b bs IH]; intros t; [reflexivity|].
  cbn [String.length String.append]. destruct t; cbn; apply IH.
Qed.

Lemma DecodeRune_one c r rn :
  (code c <? 128) = false ->
  utf8.DecodeRune (String c r) = (rn, 1%nat) -> rn = utf8.RuneError.
Proof.
  intros H0. unfold utf8.DecodeRune. cbv zeta. rewrite H0.
  repeat match goal with
         | |- context [if ?b then _ else _] => destruct b
         | |- context [match ?r with EmptyString => _ | String _ _ => _ end] =>
           destruct r
         end;
    intros [= <-]; reflexivity.
Qed.

Lemma piece_step pre out body rest decoded :
  piece pre out ->
  scan_string InString (body +:+ String dquote rest) = Scanned body rest ->
  unquote.from 0 body = decoded ->
  scan_string InString ((pre +:+ body) +:+ String dquote rest)
  = Scanned (pre +:+ body) rest
  /\ unquote.from 0 (pre +:+ body) = out +:+ decoded.
Proof.
  intros [Hscan Hunq] Hbody <-. split.
  - rewrite append_assoc, Hscan, Hbody, prepend_map. reflexivity.
  - apply Hunq.
Qed.

Lemma piece_wide c bs rn :
  string_forallb high (String c bs) = true ->
  (forall t, utf8.DecodeRune (String c bs +:+ t)
             = (rn, S (String.length bs))) ->
  piece (String c bs) (utf8.EncodeRune rn).
Proof.
  intros Hh HD. split; intros t.
  - apply scan_high, Hh.
  - cbn [string_forallb] in Hh. apply andb_true_iff in Hh as [Hc _].
    destruct (high_passes c Hc) as (_ & H2 & _ & H4).
    specialize (HD t). cbn [String.append] in HD |- *.
    cbn [unquote.from]. rewrite H2, H4, HD.
    rewrite Nat.sub_1_r. cbn [Nat.pred]. rewrite unquote_skip. reflexivity.
Qed.

(** The text the writer puts between the quotes is a string literal for
    the scanner, and [unquote] reads it back as the string itself, with
    U+FFFD for each byte that is not UTF-8. *)
Lemma string_from_roundtrip s : forall k rest,
  scan_string InString (encode.string_from k s +:+ String dquote rest)
  = Scanned (encode.string_from k s) rest
  /\ unquote.from 0 (encode.string_from k s) = utf8.coerce_from k s.
Proof.
  induction s as [|c r IH]; intros k rest.
  - split; reflexivity.
  - destruct k as [|k]; [|exact (IH k rest)].
    cbn [encode.string_from utf8.coerce_from].
    destruct (code c <? utf8.RuneSelf) eqn:Hc.
    + destruct (piece_ascii c Hc) as (Hp & _ & HE).
      assert (HD : utf8.DecodeRune (String c r) = (code c, 1%nat)).
      { unfold utf8.DecodeRune. cbv zeta.
        change (code c <? 128) with (code c <? utf8.RuneSelf).
        rewrite Hc. reflexivity. }
      rewrite HD, HE. cbn [Nat.sub].
      destruct (IH 0%nat rest) as [IH1 IH2].
      destruct (encode.htmlSafe c);
        exact (piece_step _ _ _ rest _ Hp IH1 IH2).
    + destruct (utf8.DecodeRune (String c r)) as [rn size] eqn:HD.
      destruct ((rn =? utf8.RuneError) && Nat.eqb size 1) eqn:Hbad.
      { apply andb_true_iff in Hbad as [Hrn Hsize].
        apply N.eqb_eq in Hrn. apply Nat.eqb_eq in Hsize. subst rn size.
        cbn [Nat.sub].
        destruct (IH 0%nat rest) as [IH1 IH2].
        refine (piece_step _ _ _ rest _ _ IH1 IH2).
        split; intros t; reflexivity. }
      destruct ((rn =? 8232) || (rn =? 8233)) eqn:Hsep.
      { destruct (IH (size - 1)%nat rest) as [IH1 IH2].
        apply orb_true_iff in Hsep as [Hrn|Hrn]; apply N.eqb_eq in Hrn;
          subst rn;
          refine (piece_step (String backslash (String "u" (String "2"
                                (String "0" (String "2" (String _ ""))))))
                    _ _ rest _ _ IH1 IH2);
          split; intros t; reflexivity. }
      assert (Hsize : size <> 1%nat).
      { intros ->. rewrite (DecodeRune_one c r rn Hc HD) in Hbad.
        discriminate Hbad. }
      destruct (DecodeRune_wide c r rn size HD Hsize)
        as (bs & Hbs & Hlen & Hhigh & Hdec).
      rewrite Hbs.
      destruct (IH (size - 1)%nat rest) as [IH1 IH2].
      refine (piece_step _ _ _ rest _ _ IH1 IH2).
      apply piece_wide; [exact Hhigh|].
      intros t. rewrite Hdec. f_equal.
      destruct size; [discriminate Hbs|lia].
Qed.

(** A string as the writer writes it, read by the reader: the string
    again, invalid bytes replaced. *)
Lemma appendString_scanned s rest :
  scan_string InString (sdrop 1 (encode.appendString s) +:+ rest)
  = Scanned (encode.string_from 0 s) rest
  /\ unquote (encode.string_from 0 s) = utf8.coerce s.
Proof.
  unfold encode.appendString, quoted. cbn [sdrop].
  rewrite append_assoc. exact (string_from_roundtrip s 0%nat rest).
Qed.

End string_roundtrip.

Section object_roundtrip.
Import scanner.

Lemma reads_as_le text j n m :
  (n <= m)%nat -> reads_as text j n -> reads_as text j m.
Proof.
  intros Hnm H fuel depth rest Hf Hd. apply H; [lia|].
  unfold maxNestingDepth in *. lia.
Qed.

Lemma reads_string s :
  reads_as (encode.appendString s) (JString (utf8.coerce s)) 1.
Proof.
  intros fuel depth rest Hf _.
  destruct fuel as [|fuel]; [lia|].
  destruct (appendString_scanned s rest) as [Hscan Hunq].
  unfold encode.appendString, quoted in *. cbn [sdrop] in Hscan.
  cbn [String.append parser.value skip_space].
  change (isSpace dquote) with false. cbv iota.
  change (Ascii.eqb dquote "{"%char) with false.
  change (Ascii.eqb dquote "["%char) with false.
  change (Ascii.eqb dquote dquote) with true. cbv iota.
  rewrite Hscan. cbn [scan_map scan_bind]. rewrite Hunq. reflexivity.
Qed.

Lemma reads_bool b : reads_as (encode.appendBool b) (JBool b) 1.
Proof.
  intros fuel depth rest Hf _.
  destruct fuel as [|fuel]; [lia|]. destruct b; reflexivity.
Qed.

Lemma members_text k v ms rest :
  encode.members ((k, v) :: ms) +:+ String "}" rest
  = String dquote
      (k +:+ String dquote
         (String ":"
            (v +:+ match ms with
                   | [] => String "}" rest
                   | _ => String "," (encode.members ms +:+ String "}" rest)
                   end))).
Proof.
  destruct ms as [|m ms]; cbn [encode.members]; unfold quoted;
    cbn [String.append]; rewrite !append_assoc; cbn [String.append];
    rewrite ?append_assoc; reflexivity.
Qed.

Lemma scan_key k t :
  piece k k ->
  scan_string InString (k +:+ String dquote t) = Scanned k t
  /\ unquote k = k.
Proof.
  intros [Hs Hu]. split.
  - rewrite Hs, prepend_map. cbn [scan_string].
    change (Ascii.eqb dquote dquote) with true. cbn.
    rewrite append_nil_r. reflexivity.
  - specialize (Hu EmptyString). rewrite append_nil_r in Hu.
    unfold unquote. rewrite Hu. cbn. apply append_nil_r.
Qed.

Lemma head_not_space (v : string) t c r :
  v = String c r -> isSpace c = false -> skip_space (v +:+ t) = v +:+ t.
Proof. intros -> H. cbn [String.append skip_space]. rewrite H. reflexivity. Qed.

(** The members of an object, written and read back. *)
Lemma reads_members n ms js :
  Forall2 (member_reads n) ms js -> ms <> [] ->
  forall fuel depth rest,
    (n + length ms <= fuel)%nat ->
    depth + N.of_nat n <= maxNestingDepth ->
    parser.members fuel depth (encode.members ms +:+ String "}" rest)
    = Scanned js rest.
Proof.
  induction 1 as [|[k v] [k' j] ms js (Hk & Hp & Hv) Hrest IH];
    [congruence|].
  intros _ fuel depth rest Hf Hd. cbn [fst snd] in *. subst k'.
  cbn [length] in Hf. destruct fuel as [|fuel]; [lia|].
  rewrite members_text. cbn [parser.members skip_space].
  change (isSpace dquote) with false. cbv iota.
  change (Ascii.eqb dquote dquote) with true. cbv iota.
  destruct (scan_key k (String ":"
              (v +:+ match ms with
                     | [] => String "}" rest
                     | _ :: _ =>
                       String "," (encode.members ms +:+ String "}" rest)
                     end)) Hp) as [Hscan Hunq].
  rewrite Hscan. cbn [scan_bind skip_space].
  change (isSpace ":"%char) with false. cbv iota.
  change (Ascii.eqb ":"%char ":"%char) with true. cbv iota.
  rewrite (Hv fuel depth _ ltac:(lia) Hd). cbn [scan_bind]. rewrite Hunq.
  destruct Hrest as [|m mj ms js Hm Hrest].
  - cbn [skip_space]. change (isSpace "}"%char) with false. cbv iota.
    change (Ascii.eqb "}"%char ","%char) with false.
    change (Ascii.eqb "}"%char "}"%char) with true. reflexivity.
  - cbn [skip_space]. change (isSpace ","%char) with false. cbv iota.
    change (Ascii.eqb ","%char ","%char) with true. cbv iota.
    rewrite IH; [reflexivity|congruence|cbn [length] in *; lia|exact Hd].
Qed.

(** An object, written and read back. *)
Lemma reads_object n ms js :
  Forall2 (member_reads n) ms js -> ms <> [] ->
  reads_as (encode.object ms) (JObject js) (S (n + length ms)).
Proof.
  intros HF Hne fuel depth rest Hf Hd.
  destruct fuel as [|fuel]; [lia|].
  unfold encode.object. cbn [String.append].
  rewrite append_assoc. cbn [String.append parser.value skip_space].
  change (isSpace "{"%char) with false. cbv iota.
  change (Ascii.eqb "{"%char "{"%char) with true. cbv iota.
  destruct (maxNestingDepth <? depth + 1) eqn:Hmax.
  { apply N.ltb_lt in Hmax. lia. }
  destruct ms as [|[k v] ms]; [congruence|].
  rewrite members_text. cbn [skip_space].
  change (isSpace dquote) with false. cbv iota.
  change (Ascii.eqb dquote "}"%char) with false. cbv iota.
  rewrite <- members_text.
  rewrite (reads_members n _ js HF Hne fuel (depth + 1) rest);
    [reflexivity|lia|lia].
Qed.

End object_roundtrip.

Section request_roundtrip.

(** A member with a plain key. *)
Ltac member_reads_by lem :=
  unfold member_reads; cbn [fst snd];
  split; [reflexivity|split; [split; intros ?; reflexivity|]];
  eapply reads_as_le; [|lem]; lia.

Ltac all_members :=
  repeat first
    [ apply List.Forall2_nil
    | apply List.Forall2_cons;
      [first [ member_reads_by ltac:(apply reads_string)
             | member_reads_by ltac:(apply reads_bool) ]|] ].

Lemma reads_document text j n :
  reads_as text j n ->
  (n <= 100)%nat ->
  (n <= S (2 * String.length text))%nat ->
  parser.document text = Some j.
Proof.
  intros H Hmax Hn. unfold parser.document, parser.first_value.
  rewrite <- (append_nil_r text) at 2.
  rewrite (H _ 0 EmptyString Hn); [reflexivity|].
  unfold scanner.maxNestingDepth. lia.
Qed.

Lemma reads_Recipient v :
  reads_as (marshal v)
    (JObject [("number", JString (utf8.coerce (Recipient_Number v)))]) 3.
Proof.
  unfold marshal, Recipient_Marshaler.
  apply (reads_object 1); [all_members|discriminate].
Qed.

Lemma reads_Message v :
  reads_as (marshal v)
    (JObject [("type", JString (utf8.coerce (Message_Type v)));
              ("body", JString (utf8.coerce (Message_Body v)))]) 4.
Proof.
  unfold marshal, Message_Marshaler.
  apply (reads_object 1); [all_members|discriminate].
Qed.

Lemma reads_Media v : reads_as (marshal v) (Media_json v) 5.
Proof.
  unfold marshal, Media_Marshaler.
  apply (reads_object 1); [all_members|discriminate].
Qed.

Lemma reads_MessagePDF v :
  reads_as (marshal v)
    (JObject [("type", JString (utf8.coerce (MessagePDF_Type v)));
              ("body", JString (utf8.coerce (MessagePDF_Body v)));
              ("media", Media_json (MessagePDF_Media v))]) 9.
Proof.
  unfold marshal, MessagePDF_Marshaler.
  apply (reads_object 5); [|discriminate].
  all_members. apply List.Forall2_cons; [|apply List.Forall2_nil].
  member_reads_by ltac:(apply reads_Media).
Qed.

Lemma object_length k v ms :
  (String.length k < String.length (encode.object ((k, v) :: ms)))%nat.
Proof.
  unfold encode.object. cbn [String.append String.length].
  rewrite length_append. destruct ms; cbn [encode.members]; unfold quoted;
    cbn [String.append String.length]; rewrite !length_append; lia.
Qed.

(** The body of a text message, read as JSON. *)
Lemma MessageRequest_read_back (v : MessageRequest) :
  parser.document (marshal v) = Some (MessageRequest_json v).
Proof.
  apply (reads_document _ _ 9); [|lia|].
  - unfold marshal at 1, MessageRequest_Marshaler.
    apply (reads_object 4); [|discriminate].
    all_members.
    apply List.Forall2_cons; [member_reads_by ltac:(apply reads_Recipient)|].
    apply List.Forall2_cons; [member_reads_by ltac:(apply reads_Message)|].
    apply List.Forall2_nil.
  - pose proof (object_length "WhatsappID"
                  (encode.appendString (MessageRequest_WhatsappID v))
                  [("async", encode.appendBool (MessageRequest_Async v));
                   ("recipient", marshal (MessageRequest_Recipient v));
                   ("message", marshal (MessageRequest_Message v))]) as H.
    unfold marshal at 1, MessageRequest_Marshaler.
    cbn [String.length] in H. lia.
Qed.

(** The body of a document message, read as JSON. *)
Lemma MessagePDFRequest_read_back (v : MessagePDFRequest) :
  parser.document (marshal v) = Some (MessagePDFRequest_json v).
Proof.
  apply (reads_document _ _ 14); [|lia|].
  - unfold marshal at 1, MessagePDFRequest_Marshaler.
    apply (reads_object 9); [|discriminate].
    all_members.
    apply List.Forall2_cons; [member_reads_by ltac:(apply reads_Recipient)|].
    apply List.Forall2_cons; [member_reads_by ltac:(apply reads_MessagePDF)|].
    apply List.Forall2_nil.
  - pose proof (object_length "WhatsappID"
                  (encode.appendString (MessagePDFRequest_WhatsappID v))
                  [("async", encode.appendBool (MessagePDFRequest_Async v));
                   ("recipient", marshal (MessagePDFRequest_Recipient v));
                   ("message", marshal (MessagePDFRequest_Message v))]) as H.
    unfold marshal at 1, MessagePDFRequest_Marshaler.
    cbn [String.length] in H. lia.
Qed.

(** The body of a number check, read as JSON. *)
Lemma CheckRequest_read_back (v : CheckRequest) :
  parser.document (marshal v) = Some (CheckRequest_json v).
Proof.
  apply (reads_document _ _ 4); [|lia|].
  - unfold marshal, CheckRequest_Marshaler.
    apply (reads_object 1); [all_members|discriminate].
  - pose proof (object_length "WhatsappID"
                  (encode.appendString (CheckRequest_WhatsappID v))
                  [("number", encode.appendString (CheckRequest_Number v))])
      as H.
    unfold marshal, CheckRequest_Marshaler.
    cbn [String.length] in H. lia.
Qed.

(** Text that is valid UTF-8 is written and read back as it is. *)
Lemma coerce_Valid s : utf8.Valid s = true -> utf8.coerce s = s.
Proof. unfold utf8.Valid. apply String.eqb_eq. Qed.

Lemma coerce_ascii s : string_forallb ascii7 s = true -> utf8.coerce s = s.
Proof.
  unfold utf8.coerce. induction s as [|c r IH]; [reflexivity|].
  cbn [string_forallb]. intros H. apply andb_true_iff in H as [Hc Hr].
  destruct (piece_ascii c Hc) as (_ & _ & HE).
  cbn [utf8.coerce_from]. unfold utf8.DecodeRune. cbv zeta.
  unfold ascii7 in Hc. change utf8.RuneSelf with 128 in Hc. rewrite Hc.
  rewrite HE. cbn [Nat.sub String.append]. rewrite IH by exact Hr.
  reflexivity.
Qed.

End request_roundtrip.

(** ** base64 *)

Section base64.

Lemma string_ind3 (P : string -> Prop) :
  P EmptyString ->
  (forall a, P (String a EmptyString)) ->
  (forall a b, P (String a (String b EmptyString))) ->
  (forall a b c r, P r -> P (String a (String b (String c r)))) ->
  forall s, P s.
Proof.
  intros H0 H1 H2 H3 s.
  enough (H : P s /\ (forall a, P (String a s))
              /\ (forall a b, P (String a (String b s)))) by apply H.
  induction s as [|c r (IH0 & IH1 & IH2)]; [auto|].
  repeat split; auto.
Qed.

(** A property of the numbers below [k], checked on each of them. *)
Lemma below (k : nat) (P : N -> bool) :
  forallb P (map N.of_nat (seq 0 k)) = true ->
  forall n, n < N.of_nat k -> P n = true.
Proof.
  intros H n Hn. rewrite forallb_forall in H. apply H.
  apply in_map_iff. exists (N.to_nat n). split; [apply N2Nat.id|].
  apply in_seq. lia.
Qed.

Lemma encodeStd_ascii n : ascii7 (base64.encodeStd n) = true.
Proof.
  unfold base64.encodeStd, ascii7, code, chr.
  change utf8.RuneSelf with 128.
  repeat match goal with
         | |- context [if ?a <? ?b then _ else _] =>
           destruct (N.ltb_spec a b)
         | |- context [if ?a =? ?b then _ else _] => destruct (a =? b)
         end;
    try reflexivity;
    rewrite N_ascii_embedding by lia; apply N.ltb_lt; lia.
Qed.

(** The encoding is ASCII: the JSON writer and reader leave it alone. *)
Lemma EncodeToString_ascii s :
  string_forallb ascii7 (base64.EncodeToString s) = true.
Proof.
  induction s as [|a|a b|a b c r IH] using string_ind3;
    cbn [base64.EncodeToString string_forallb];
    rewrite ?encodeStd_ascii, ?IH; reflexivity.
Qed.

Lemma decode_encode n :
  n < 64 ->
  base64.decodeStd (base64.encodeStd n) = Some n
  /\ Ascii.eqb (base64.encodeStd n) base64.pad = false.
Proof.
  intros Hn.
  pose proof (below 64
    (fun n => match base64.decodeStd (base64.encodeStd n) with
              | Some m => (m =? n)
                          && negb (Ascii.eqb (base64.encodeStd n) base64.pad)
              | None => false
              end) eq_refl n Hn) as H.
  cbv beta in H.
  destruct (base64.decodeStd (base64.encodeStd n)) as [m|]; [|discriminate].
  apply andb_true_iff in H as [H1 H2]. apply N.eqb_eq in H1. subst m.
  split; [reflexivity|]. destruct (Ascii.eqb _ _); [discriminate|reflexivity].
Qed.

(** The six-bit groups of three bytes [a b c], and the bytes back from
    the groups. The numbers [h], [u], [w], [v] stand for the bits the
    neighbouring byte contributes. *)
Lemma group_bounds c :
  N.shiftr (code c) 2 < 64 /\ N.land (code c) 3 < 4
  /\ N.land (code c) 15 < 16 /\ N.shiftr (code c) 4 < 16
  /\ N.shiftr (code c) 6 < 4 /\ N.land (code c) 63 < 64.
Proof. each_byte c; repeat split. Qed.

Lemma group2_bound u h :
  u < 4 -> h < 16 -> N.lor (N.shiftl u 4) h < 64.
Proof.
  intros Hu Hh. apply N.ltb_lt. revert h Hh.
  apply (below 16 (fun h => N.lor (N.shiftl u 4) h <? 64)).
  revert u Hu.
  apply (below 4 (fun u => forallb (fun h => N.lor (N.shiftl u 4) h <? 64)
                             (map N.of_nat (seq 0 16)))).
  reflexivity.
Qed.

Lemma group3_bound v w :
  v < 16 -> w < 4 -> N.lor (N.shiftl v 2) w < 64.
Proof.
  intros Hv Hw. apply N.ltb_lt. revert w Hw.
  apply (below 4 (fun w => N.lor (N.shiftl v 2) w <? 64)).
  revert v Hv.
  apply (below 16 (fun v => forallb (fun w => N.lor (N.shiftl v 2) w <? 64)
                              (map N.of_nat (seq 0 4)))).
  reflexivity.
Qed.

Lemma first_byte a h :
  h < 16 ->
  chr (N.lor (N.shiftl (N.shiftr (code a) 2) 2)
         (N.shiftr (N.lor (N.shiftl (N.land (code a) 3) 4) h) 4)) = a.
Proof.
  intros Hh. apply Ascii.eqb_eq. revert h Hh.
  apply (below 16
    (fun h => Ascii.eqb
                (chr (N.lor (N.shiftl (N.shiftr (code a) 2) 2)
                        (N.shiftr (N.lor (N.shiftl (N.land (code a) 3) 4) h)
                           4))) a)).
  each_byte a; vm_compute; reflexivity.
Qed.

Lemma second_byte u b w :
  u < 4 -> w < 4 ->
  chr (N.lor
         (N.shiftl (N.land (N.lor (N.shiftl u 4) (N.shiftr (code b) 4)) 15) 4)
         (N.shiftr (N.lor (N.shiftl (N.land (code b) 15) 2) w) 2)) = b.
Proof.
  intros Hu Hw. apply Ascii.eqb_eq. revert w Hw.
  apply (below 4
    (fun w => Ascii.eqb
      (chr (N.lor
         (N.shiftl (N.land (N.lor (N.shiftl u 4) (N.shiftr (code b) 4)) 15) 4)
         (N.shiftr (N.lor (N.shiftl (N.land (code b) 15) 2) w) 2))) b)).
  revert u Hu.
  apply (below 4
    (fun u => forallb (fun w => Ascii.eqb
      (chr (N.lor
         (N.shiftl (N.land (N.lor (N.shiftl u 4) (N.shiftr (code b) 4)) 15) 4)
         (N.shiftr (N.lor (N.shiftl (N.land (code b) 15) 2) w) 2))) b)
      (map N.of_nat (seq 0 4)))).
  each_byte b; vm_compute; reflexivity.
Qed.

Lemma third_byte v c :
  v < 16 ->
  chr (N.lor
         (N.shiftl (N.land (N.lor (N.shiftl v 2) (N.shiftr (code c) 6)) 3) 6)
         (N.land (code c) 63)) = c.
Proof.
  intros Hv. apply Ascii.eqb_eq. revert v Hv.
  apply (below 16
    (fun v => Ascii.eqb
      (chr (N.lor
         (N.shiftl (N.land (N.lor (N.shiftl v 2) (N.shiftr (code c) 6)) 3) 6)
         (N.land (code c) 63))) c)).
  each_byte c; vm_compute; reflexivity.
Qed.

Lemma pad_bits3 v : v < 16 -> N.land (N.lor (N.shiftl v 2) 0) 3 = 0.
Proof.
  intros Hv. apply N.eqb_eq. revert v Hv.
  apply (below 16 (fun v => N.land (N.lor (N.shiftl v 2) 0) 3 =? 0)).
  reflexivity.
Qed.

(** Decoding gives back the bytes that were encoded. *)
Lemma DecodeString_EncodeToString s :
  base64.DecodeString (base64.EncodeToString s) = Some s.
Proof.
  induction s as [|a|a b|a b c r IH] using string_ind3.
  - reflexivity.
  - each_byte a; reflexivity.
  - destruct (group_bounds a) as (Ha1 & Ha2 & _).
    destruct (group_bounds b) as (_ & _ & Hb3 & Hb4 & _).
    cbn [base64.EncodeToString base64.DecodeString]. cbv zeta.
    rewrite <- (N.lor_0_r (N.shiftl (N.land (code b) 15) 2)).
    destruct (decode_encode _ Ha1) as [-> _].
    destruct (decode_encode _ (group2_bound _ _ Ha2 Hb4)) as [-> _].
    destruct (decode_encode _ (group3_bound _ 0 Hb3 eq_refl)) as [-> ->].
    change (Ascii.eqb base64.pad base64.pad) with true. cbv iota.
    rewrite (pad_bits3 _ Hb3). cbn [N.eqb].
    rewrite (first_byte a _ Hb4), (second_byte _ b 0 Ha2 eq_refl).
    reflexivity.
  - destruct (group_bounds a) as (Ha1 & Ha2 & _).
    destruct (group_bounds b) as (_ & _ & Hb3 & Hb4 & _).
    destruct (group_bounds c) as (_ & _ & _ & _ & Hc5 & Hc6).
    cbn [base64.EncodeToString base64.DecodeString]. cbv zeta.
    destruct (decode_encode _ Ha1) as [-> _].
    destruct (decode_encode _ (group2_bound _ _ Ha2 Hb4)) as [-> _].
    destruct (decode_encode _ (group3_bound _ _ Hb3 Hc5)) as [-> ->].
    destruct (decode_encode _ Hc6) as [-> ->].
    rewrite IH.
    rewrite (first_byte a _ Hb4), (second_byte _ b _ Ha2 Hc5),
      (third_byte _ c Hb3).
    reflexivity.
Qed.

End base64.

(** ** What [Client.Do] does *)

Lemma RoundTrip_eq t req s :
  RoundTrip t req s
  = (network (env s) (wire s) (outbound (xApiKey t) req),
     mkState (receiver s) (env s) (wire s ++ [outbound (xApiKey t) req])
       (slog s) (stdout s)).
Proof. destruct t as [[] k]. reflexivity. Qed.

(** One turn of the loop: the request goes out; an error and a response
    that is no redirect come back; a redirect is followed unless its
    [Location] does not parse or ten requests have been made. *)
Lemma do_step left c ireq req s :
  http_Client_do left c ireq req s
  = let k := xApiKey (Transport c) in
    let s1 := mkState (receiver s) (env s) (wire s ++ [outbound k req])
                (slog s) (stdout s) in
    match network (env s) (wire s) (outbound k req) with
    | inr err => (inr (uerr ireq req err), s1)
    | inl resp =>
      if redirects resp then
        let loc := Header_Get "Location" (Response_Header resp) in
        match URL_Parse (env s) (Request_URL req) loc with
        | inr err => (inr (uerr ireq req (location_error loc err)), s1)
        | inl u =>
          match left with
          | O =>
            (inr (url_Error (urlErrorOp (Request_Method ireq)) loc
                    (errors_New "stopped after 10 redirects")), s1)
          | S left' =>
            http_Client_do left' c ireq
              (next_request (env s) ireq req
                 (fst (fst (redirectBehavior (Request_Method req) resp)))
                 (snd (redirectBehavior (Request_Method req) resp)) u) s1
          end
        end
      else (inl resp, s1)
    end.
Proof.
  destruct left; cbn [http_Client_do]; unfold http_Client_send;
    rewrite RoundTrip_eq; cbv zeta;
    (destruct (network (env s) (wire s) (outbound (xApiKey (Transport c)) req))
       as [resp|err]; [|reflexivity]);
    unfold redirects, redirectBehavior; cbn [existsb env];
    destruct (Response_StatusCode resp =? 301)%Z,
             (Response_StatusCode resp =? 302)%Z,
             (Response_StatusCode resp =? 303)%Z,
             (Response_StatusCode resp =? 307)%Z,
             (Response_StatusCode resp =? 308)%Z;
    cbn [orb andb negb fst snd];
    destruct (String.eqb (Header_Get "Location" (Response_Header resp)) "");
    cbn [negb]; reflexivity.
Qed.

Lemma redirects_200 resp :
  Response_StatusCode resp = StatusOK -> redirects resp = false.
Proof. intros H. unfold redirects. rewrite H. reflexivity. Qed.

(** The header of the next request is bare when the first one was. *)
Lemma next_request_bare e ireq req m b u :
  bare (Request_Header ireq) ->
  bare (Request_Header (next_request e ireq req m b u)).
Proof.
  intros [Hk Hc]. unfold next_request. cbn [Request_Header].
  match goal with
  | |- context [filter ?P (Request_Header ireq)] =>
    assert (Hf : bare (filter P (Request_Header ireq)))
      by (split; apply map_lookup_filter_None; left; assumption)
  end.
  destruct Hf as [Hfk Hfc].
  match goal with |- context [if ?b then _ else _] => destruct b end;
    [split; assumption|].
  unfold Header_Set.
  change (textproto.CanonicalMIMEHeaderKey "Referer") with "Referer".
  split; rewrite lookup_insert_ne by discriminate; assumption.
Qed.

Lemma carries_bare apiKey req :
  bare (Request_Header req) -> carries apiKey (outbound apiKey req).
Proof.
  intros [Hk Hc]. unfold carries, outbound, Request_add_header.
  cbn [Request_Header]. unfold Header_Get, Header_Add.
  change (textproto.CanonicalMIMEHeaderKey "X-Api-Key") with "X-Api-Key".
  change (textproto.CanonicalMIMEHeaderKey "Content-type") with "Content-Type".
  split.
  - rewrite lookup_insert_ne by discriminate.
    rewrite lookup_insert_eq, Hk. reflexivity.
  - rewrite lookup_insert_eq, lookup_insert_ne by discriminate.
    rewrite Hc. reflexivity.
Qed.

(** A request after the first one: its [Close] is unset, its method is
    [GET] or the method of the first request, and its body is empty or
    the body of the first request. *)
Lemma next_request_shape e ireq req resp u :
  let next :=
    next_request e ireq req
      (fst (fst (redirectBehavior (Request_Method req) resp)))
      (snd (redirectBehavior (Request_Method req) resp)) u in
  redirects resp = true ->
  (Request_Method req = "GET" \/ Request_Method req = Request_Method ireq) ->
  Request_Close next = false
  /\ Request_URL next = u
  /\ (Request_Method next = "GET"
      \/ Request_Method next = Request_Method ireq)
  /\ (Request_Body next = EmptyString
      \/ Request_Body next = Request_Body ireq).
Proof.
  intros next Hred Hm. subst next.
  unfold redirects in Hred. apply andb_true_iff in Hred as [Hred _].
  cbn [existsb] in Hred. rewrite orb_false_r in Hred.
  unfold next_request, redirectBehavior.
  destruct (Response_StatusCode resp =? 301)%Z,
           (Response_StatusCode resp =? 302)%Z,
           (Response_StatusCode resp =? 303)%Z,
           (Response_StatusCode resp =? 307)%Z,
           (Response_StatusCode resp =? 308)%Z;
    cbn [orb] in Hred; try discriminate Hred;
    cbn [orb fst snd Request_Close Request_URL Request_Method Request_Body];
    repeat split; auto;
    destruct (negb (String.eqb (Request_Method req) "GET")
              && negb (String.eqb (Request_Method req) "HEAD")); auto.
Qed.

(** What [Do] leaves behind, whatever the network does: the client, the
    log and the output as they were, and on the wire the first request
    followed by at most [left] more. *)
Lemma do_frame left : forall c ireq req s,
  let r := http_Client_do left c ireq req s in
  let k := xApiKey (Transport c) in
  receiver (snd r) = receiver s
  /\ env (snd r) = env s
  /\ slog (snd r) = slog s
  /\ stdout (snd r) = stdout s
  /\ exists hops,
       wire (snd r) = wire s ++ outbound k req :: hops
       /\ (length hops <= left)%nat
       /\ (bare (Request_Header ireq) -> Forall (carries k) hops)
       /\ (Request_Method req = "GET"
           \/ Request_Method req = Request_Method ireq ->
           Forall (follows_up ireq) hops).
Proof.
  induction left as [|left IH]; intros c ireq req s; cbv zeta;
    rewrite do_step; cbv zeta;
    destruct (network (env s) (wire s)
                (outbound (xApiKey (Transport c)) req)) as [resp|err];
    try destruct (redirects resp) eqn:Hred;
    try destruct (URL_Parse (env s) (Request_URL req)
                    (Header_Get "Location" (Response_Header resp)))
      as [u|err];
    cbn [fst snd receiver env slog stdout wire];
    try (repeat (split; [reflexivity|]); exists [];
         repeat split; [cbn [length]; lia|constructor..]).
  match goal with
  | |- context [http_Client_do left c ireq ?next ?s1] =>
    specialize (IH c ireq next s1); cbv zeta in IH;
    destruct IH as (Hr & He & Hl & Ho & hops & Hw & Hn & Hc & Hs);
    pose proof (next_request_shape (env s) ireq req resp u) as Hshape;
    cbv zeta in Hshape
  end.
  rewrite Hr, He, Hl, Ho, Hw. cbn [receiver env slog stdout wire].
  repeat (split; [reflexivity|]).
  eexists (_ :: hops). split; [rewrite <- app_assoc; reflexivity|].
  split; [cbn [length]; lia|]. split.
  - intros Hb. constructor; [|exact (Hc Hb)].
    apply carries_bare, next_request_bare, Hb.
  - intros Hm. destruct (Hshape Hred Hm) as (H1 & H2 & H3 & H4).
    constructor.
    + unfold follows_up, outbound, Request_add_header.
      cbn [Request_Close Request_Method Request_Body]. auto.
    + apply Hs. exact H3.
Qed.

Lemma lookup_first {A} (l rest : list A) (x y : A) :
  (l ++ x :: rest) !! length l = Some y -> x = y.
Proof.
  rewrite lookup_app_r by lia. rewrite Nat.sub_diag. cbn. congruence.
Qed.

Lemma lookup_end_none {A} (l : list A) (y : A) :
  l !! length l = Some y -> False.
Proof. rewrite lookup_ge_None_2 by lia. discriminate. Qed.

(** [Do], when the answer to the first request is a response that is no
    redirect: that response comes back and nothing else is sent. *)
Lemma Do_answered c r s res s1 req resp :
  http_Client_Do c r s = (res, s1) ->
  wire s1 !! length (wire s) = Some req ->
  network (env s) (wire s) req = inl resp ->
  redirects resp = false ->
  req = outbound (xApiKey (Transport c)) r
  /\ res = inl resp
  /\ s1 = mkState (receiver s) (env s) (wire s ++ [req]) (slog s) (stdout s).
Proof.
  intros HDo Hl Hn Hred.
  pose proof (do_frame 9 c r r s) as HF. cbv zeta in HF.
  unfold http_Client_Do in HDo. rewrite HDo in HF. cbn [fst snd] in HF.
  destruct HF as (_ & _ & _ & _ & hops & Hw & _).
  rewrite Hw in Hl. apply lookup_first in Hl. subst req.
  rewrite do_step in HDo. cbv zeta in HDo. rewrite Hn, Hred in HDo.
  injection HDo as <- <-. repeat split.
Qed.

(** [Do], when the first round trip fails: the error comes back in a
    [*url.Error], and nothing else is sent. *)
Lemma Do_refused c r s res s1 req e :
  http_Client_Do c r s = (res, s1) ->
  wire s1 !! length (wire s) = Some req ->
  network (env s) (wire s) req = inr e ->
  req = outbound (xApiKey (Transport c)) r
  /\ res = inr (url_Error (urlErrorOp (Request_Method r)) (Request_URL r) e)
  /\ s1 = mkState (receiver s) (env s) (wire s ++ [req]) (slog s) (stdout s).
Proof.
  intros HDo Hl Hn.
  pose proof (do_frame 9 c r r s) as HF. cbv zeta in HF.
  unfold http_Client_Do in HDo. rewrite HDo in HF. cbn [fst snd] in HF.
  destruct HF as (_ & _ & _ & _ & hops & Hw & _).
  rewrite Hw in Hl. apply lookup_first in Hl. subst req.
  rewrite do_step in HDo. cbv zeta in HDo. rewrite Hn in HDo.
  injection HDo as <- <-. repeat split.
Qed.

(** What [Do] returns is decided by the answer to the last request it
    sent: a response that is no redirect comes back; an error and a
    redirect that is not followed (its [Location] does not parse, or
    it is the tenth) make an error. *)
Lemma do_last left : forall c ireq req s,
  let r := http_Client_do left c ireq req s in
  exists before last,
    wire (snd r) = before ++ [last]
    /\ (length (wire s) <= length before)%nat
    /\ match network (env s) before last with
       | inr e => exists e', fst r = inr e'
       | inl resp =>
         if redirects resp then exists e', fst r = inr e'
         else fst r = inl resp
       end.
Proof.
  induction left as [|left IH]; intros c ireq req s; cbv zeta;
    rewrite do_step; cbv zeta;
    destruct (network (env s) (wire s)
                (outbound (xApiKey (Transport c)) req)) as [resp|err] eqn:Hn;
    try destruct (redirects resp) eqn:Hred;
    try destruct (URL_Parse (env s) (Request_URL req)
                    (Header_Get "Location" (Response_Header resp)))
      as [u|err];
    cbn [fst snd wire];
    try (exists (wire s), (outbound (xApiKey (Transport c)) req);
         split; [reflexivity|]; split; [lia|];
         rewrite Hn, ?Hred; eauto).
  match goal with
  | |- context [http_Client_do left c ireq ?next ?s1] =>
    specialize (IH c ireq next s1); cbv zeta in IH;
    destruct IH as (before & last & Hw & Hlen & Hans)
  end.
  exists before, last. split; [exact Hw|].
  cbn [wire env] in Hlen, Hans. rewrite length_app in Hlen. cbn in Hlen.
  split; [lia|exact Hans].
Qed.

Lemma app_last_inj {A} (l l' : list A) (x x' : A) :
  l ++ [x] = l' ++ [x'] -> l = l' /\ x = x'.
Proof. intros H. apply app_inj_tail in H. exact H. Qed.

(** [Do] and [ended]. *)
Lemma Do_ended c r s res s1 :
  http_Client_Do c r s = (res, s1) ->
  (forall resp, res = inl resp ->
                redirects resp = false
                /\ exists req, ended s s1 req resp)
  /\ (forall req resp, ended s s1 req resp ->
                       redirects resp = false -> res = inl resp)
  /\ (forall e, res = inr e ->
                forall req resp, ended s s1 req resp ->
                                 redirects resp = true).
Proof.
  intros HDo. pose proof (do_last 9 c r r s) as HL. cbv zeta in HL.
  pose proof (do_frame 9 c r r s) as HF. cbv zeta in HF.
  unfold http_Client_Do in HDo. rewrite HDo in HL, HF. cbn [fst snd] in HL, HF.
  destruct HF as (_ & He & _).
  destruct HL as (before & last & Hw & Hlen & Hans).
  assert (Hdet : forall req resp,
             ended s s1 req resp ->
             network (env s) before last = inl resp).
  { intros req resp (before' & Hw' & _ & Hn'). rewrite Hw in Hw'.
    apply app_last_inj in Hw' as [-> ->]. exact Hn'. }
  split; [|split].
  - intros resp ->.
    destruct (network (env s) before last) as [resp'|e'] eqn:Hn.
    + destruct (redirects resp') eqn:Hred.
      * destruct Hans as [e' He']. discriminate He'.
      * injection Hans as ->. split; [exact Hred|].
        exists last, before. repeat split; assumption.
    + destruct Hans as [e'' He']. discriminate He'.
  - intros req resp Hend Hred. rewrite (Hdet _ _ Hend), Hred in Hans.
    exact Hans.
  - intros e -> req resp Hend. rewrite (Hdet _ _ Hend) in Hans.
    destruct (redirects resp); [reflexivity|discriminate Hans].
Qed.

Lemma Do_frame c r s res s1 :
  http_Client_Do c r s = (res, s1) ->
  receiver s1 = receiver s
  /\ env s1 = env s
  /\ slog s1 = slog s
  /\ stdout s1 = stdout s
  /\ exists hops,
       wire s1 = wire s ++ outbound (xApiKey (Transport c)) r :: hops
       /\ (length hops <= 9)%nat
       /\ (bare (Request_Header r) ->
           Forall (carries (xApiKey (Transport c))) hops)
       /\ Forall (follows_up r) hops.
Proof.
  intros HDo. pose proof (do_frame 9 c r r s) as HF. cbv zeta in HF.
  unfold http_Client_Do in HDo. rewrite HDo in HF. cbn [fst snd] in HF.
  destruct HF as (Hr & He & Hl & Ho & hops & Hw & Hn & Hc & Hs).
  repeat (split; [assumption|]). exists hops.
  repeat (split; [assumption|]). apply Hs. right. reflexivity.
Qed.

(** [Do] sends nothing after a first request whose answer settles the
    exchange. *)
Lemma Do_settled c r s res s1 :
  http_Client_Do c r s = (res, s1) ->
  settled s (outbound (xApiKey (Transport c)) r) ->
  wire s1 = wire s ++ [outbound (xApiKey (Transport c)) r].
Proof.
  intros HDo Hs. unfold settled in Hs. unfold http_Client_Do in HDo.
  rewrite do_step in HDo. cbv zeta in HDo.
  destruct (network (env s) (wire s) (outbound (xApiKey (Transport c)) r))
    as [resp|e]; [rewrite Hs in HDo|]; injection HDo as <- <-; reflexivity.
Qed.

(** ** The operations *)

Ltac unfold_ops :=
  unfold SendMessage, SendPDF, Check, Variant.SendMessage,
    http_NewRequest, slog_Error, fmt_Println, json_Marshal, io_ReadAll,
    bind, ret, this;
  cbv beta iota zeta.

(** One branching point of an operation. *)
Ltac case_step :=
  match goal with
  | |- context [match url_Parse ?e ?u with _ => _ end] =>
    destruct (url_Parse e u) eqn:?
  | |- context [http_Client_Do ?c ?r ?s] =>
    let HDo := fresh "HDo" in
    destruct (http_Client_Do c r s) as [[?|?] ?] eqn:HDo
  | |- context [match Reader_fault ?r with _ => _ end] =>
    destruct (Reader_fault r) eqn:?
  | |- context [if negb (Z.eqb ?a ?b) then _ else _] =>
    destruct (Z.eqb_spec a b); cbn [negb]
  | |- context [let (_, _) := json_Unmarshal ?b ?v in _] =>
    destruct (json_Unmarshal b v) as [? [?|]] eqn:?
  | |- context [let (_, _) := Decoder_Decode ?b ?v in _] =>
    destruct (Decoder_Decode b v) as [? [?|]] eqn:?
  end; cbv beta iota zeta.

Ltac run_ops :=
  unfold_ops; repeat case_step; cbn [fst snd wire receiver slog stdout env].

(** What [Do] left behind, in the branches where it ran. *)
Ltac do_facts :=
  try match goal with
  | HDo : http_Client_Do _ _ _ = _ |- _ =>
    let Hr := fresh "Hrec" in
    let He := fresh "Henv" in
    let Hl := fresh "Hlog" in
    let Ho := fresh "Hout" in
    let hops := fresh "hops" in
    let Hw := fresh "Hwire" in
    let Hn := fresh "Hlen" in
    let Hc := fresh "Hcar" in
    let Hs := fresh "Hshape" in
    destruct (Do_frame _ _ _ _ _ HDo)
      as (Hr & He & Hl & Ho & hops & Hw & Hn & Hc & Hs)
  end.

(** From [answered] and a response that is no redirect: which request
    went out, and that its answer is what [Do] returned. *)
Ltac use_answer :=
  match goal with
  | H : answered _ _ _ _ |- _ =>
    let Hl := fresh "Hl" in
    let Hn := fresh "Hn" in
    destruct H as [Hl Hn]; cbn [wire env] in Hl, Hn;
    first [ apply lookup_end_none in Hl; contradiction
          | match goal with
            | HDo : http_Client_Do _ _ _ = _, Hred : redirects _ = false
              |- _ =>
              let H1 := fresh "Hreq" in
              let H2 := fresh "Hres" in
              let H3 := fresh "Hst" in
              destruct (Do_answered _ _ _ _ _ _ _ HDo Hl Hn Hred)
                as (H1 & H2 & H3);
              try discriminate H2; injection H2 as H2; subst;
              cbn [fst snd wire receiver slog stdout env] in *
            end ]
  end.

Lemma sent_app s s' l : wire s' = wire s ++ l -> sent s s' = l.
Proof. intros H. unfold sent. rewrite H. apply drop_app_length. Qed.

Lemma sent_same s : sent s s = [].
Proof. unfold sent. apply drop_all. Qed.

Lemma sent_none s w (l : list Err) (o : list string) c e :
  w = wire s ->
  sent s (mkState c e w l o) = [].
Proof. intros ->. unfold sent. cbn [wire]. apply drop_all. Qed.

Lemma sent_state s s1 c e (l : list Err) (o : list string) :
  sent s (mkState c e (wire s1) l o) = sent s s1.
Proof. reflexivity. Qed.




Lemma bare_empty : bare ∅.
Proof. split; apply lookup_empty. Qed.

(** C4. With a client made by [NewClient apiKey whatsappID], every
    request that [SendMessage], [SendPDF] or [Check] hands to the network
    has the header [X-Api-Key] equal to [apiKey] and the header
    [Content-type] equal to [application/json]. *)
Theorem requests_carry_headers s apiKey whatsappID
    recipientPhone text filename pdf phone :
  receiver s = NewClient apiKey whatsappID ->
  Forall (carries apiKey) (sent s (snd (SendMessage recipientPhone text s)))
  /\ Forall (carries apiKey)
       (sent s (snd (SendPDF recipientPhone text filename pdf s)))
  /\ Forall (carries apiKey) (sent s (snd (Check phone s))).
Proof.
  intros Hc.
  repeat split; run_ops; do_facts;
    first [ rewrite sent_same; constructor
          | rewrite sent_none by reflexivity; constructor
          | rewrite ?sent_state, (sent_app _ _ _ Hwire);
            rewrite Hc in *;
            cbn [NewClient httpClient Transport xApiKey] in *;
            (constructor;
             [ apply carries_bare, bare_empty | apply Hcar, bare_empty ]) ].
Qed.

(** C5. [SendPDF], given a document that reads as the bytes [doc] and a
    URL that [net/url] accepts, hands a request to the network: a POST
    to the [/send] endpoint whose body is the JSON form of a
    [MessagePDFRequest] with message type [doc], the text, and a media
    attachment of MIME type [application/pdf] whose data is the standard
    base64 encoding of [doc] and whose file name is the one given. Read
    as JSON, the body is the object with these members, and the data
    decodes to [doc] again. It is the only request, unless the answer
    to it is a redirect that the HTTP client follows. *)
Theorem SendPDF_request s recipientPhone text filename doc :
  url_Parse (env s) (url (receiver s) +:+ "/send") = None ->
  exists req rest,
    sent s (snd (SendPDF recipientPhone text filename (mkReader doc None) s))
    = req :: rest
    /\ (settled s req -> rest = [])
    /\ Request_Method req = "POST"
    /\ Request_URL req = url (receiver s) +:+ "/send"
    /\ Request_Body req
       = marshal
           (mkMessagePDFRequest (WhatsappID (receiver s)) false
              (mkRecipient recipientPhone)
              (mkMessagePDF "doc" text
                 (mkMedia "application/pdf" (base64.EncodeToString doc)
                    filename)))
    /\ parser.document (Request_Body req)
       = Some
           (JObject
              [("WhatsappID", JString (utf8.coerce (WhatsappID (receiver s))));
               ("async", JBool false);
               ("recipient",
                JObject [("number", JString (utf8.coerce recipientPhone))]);
               ("message",
                JObject
                  [("type", JString "doc");
                   ("body", JString (utf8.coerce text));
                   ("media",
                    JObject
                      [("mimetype", JString "application/pdf");
                       ("data", JString (base64.EncodeToString doc));
                       ("filename", JString (utf8.coerce filename))])])])
    /\ base64.DecodeString (base64.EncodeToString doc) = Some doc.
Proof.
  intros Hurl. unfold_ops. cbn [Reader_fault Reader_data].
  cbv beta iota zeta.
  repeat case_step; cbn [fst snd wire receiver slog stdout env];
    try congruence; do_facts;
    rewrite ?sent_state, (sent_app _ _ _ Hwire);
    eexists; exists hops; (split; [reflexivity|]);
    (split;
     [ intros Hs; pose proof (Do_settled _ _ _ _ _ HDo Hs) as Hw1;
       rewrite Hwire in Hw1; apply app_inv_head in Hw1; congruence |]);
    unfold outbound, Request_add_header, Request_set_Close;
    cbn [Request_Method Request_URL Request_Body];
    rewrite MessagePDFRequest_read_back, DecodeString_EncodeToString;
    unfold MessagePDFRequest_json, Media_json;
    cbn [MessagePDFRequest_WhatsappID MessagePDFRequest_Async
         MessagePDFRequest_Recipient MessagePDFRequest_Message
         Recipient_Number MessagePDF_Type MessagePDF_Body MessagePDF_Media
         Media_Mimetype Media_Data Media_Filename];
    rewrite (coerce_ascii _ (EncodeToString_ascii doc));
    repeat split.
Qed.

(** C6. [SendMessage], given a URL that [net/url] accepts, hands a
    request to the network: a POST to [{url}/send] whose body is the
    JSON form of a [MessageRequest] with the client's [WhatsappID],
    [async] false, the recipient's number, message type [text] and the
    text as message body. Read as JSON, the strings of the body are
    those given with every byte that is not valid UTF-8 replaced by
    U+FFFD ([utf8.coerce]); for a phone number and a text that are valid
    UTF-8 they are the phone number and the text. It is the only
    request, unless the answer to it is a redirect that the HTTP client
    follows. *)
Theorem SendMessage_request s recipientPhone text :
  url_Parse (env s) (url (receiver s) +:+ "/send") = None ->
  exists req rest,
    sent s (snd (SendMessage recipientPhone text s)) = req :: rest
    /\ (settled s req -> rest = [])
    /\ Request_Method req = "POST"
    /\ Request_URL req = url (receiver s) +:+ "/send"
    /\ Request_Body req
       = marshal
           (mkMessageRequest (WhatsappID (receiver s)) false
              (mkRecipient recipientPhone) (mkMessage "text" text))
    /\ parser.document (Request_Body req)
       = Some
           (JObject
              [("WhatsappID", JString (utf8.coerce (WhatsappID (receiver s))));
               ("async", JBool false);
               ("recipient",
                JObject [("number", JString (utf8.coerce recipientPhone))]);
               ("message",
                JObject [("type", JString "text");
                         ("body", JString (utf8.coerce text))])])
    /\ (utf8.Valid recipientPhone = true ->
        utf8.coerce recipientPhone = recipientPhone)
    /\ (utf8.Valid text = true -> utf8.coerce text = text).
Proof.
  intros Hurl.
  run_ops; try congruence; do_facts;
    rewrite ?sent_state, (sent_app _ _ _ Hwire);
    eexists; exists hops; (split; [reflexivity|]);
    (split;
     [ intros Hs; pose proof (Do_settled _ _ _ _ _ HDo Hs) as Hw1;
       rewrite Hwire in Hw1; apply app_inv_head in Hw1; congruence |]);
    unfold outbound, Request_add_header, Request_set_Close;
    cbn [Request_Method Request_URL Request_Body];
    rewrite MessageRequest_read_back;
    repeat split; apply coerce_Valid.
Qed.


Lemma ended_none s c e (l : list Err) (o : list string) req resp :
  ended s (mkState c e (wire s) l o) req resp -> False.
Proof.
  intros (before & Hw & Hlen & _). cbn [wire] in Hw.
  rewrite Hw, length_app in Hlen. cbn in Hlen. lia.
Qed.

(** C8. The two variants of [SendMessage], run from the same state with
    the same arguments: they hand the same requests to the network, they
    return the same [MessageResponse], one fails exactly when the other
    does, they log the same errors, and the newer one prints nothing.
    They differ in two things only, both decided by the response that
    the HTTP client hands back (the answer to the last request, when it
    is no redirect) once its body is read. When its status is not 200,
    the newer variant returns an error with a fixed text and the older
    one an error with the status line; neither prints. When its status
    is 200, the older variant prints the body and a newline, and the
    errors are the same. In every other case the errors are the same
    and nothing is printed. *)
Theorem variants_agree s recipientPhone text :
  let a := SendMessage recipientPhone text s in
  let b := Variant.SendMessage recipientPhone text s in
  wire (snd a) = wire (snd b)
  /\ fst (fst a) = fst (fst b)
  /\ (snd (fst a) = None <-> snd (fst b) = None)
  /\ receiver (snd a) = receiver (snd b)
  /\ slog (snd a) = slog (snd b)
  /\ stdout (snd a) = stdout s
  /\ (forall req resp,
        ended s (snd a) req resp ->
        redirects resp = false ->
        Reader_fault (Response_Body resp) = None ->
        (Response_StatusCode resp <> StatusOK ->
         snd (fst a) = Some (errors_New "некорректный номер WhatsApp")
         /\ snd (fst b) = Some (errors_New (Response_Status resp))
         /\ stdout (snd b) = stdout s)
        /\
        (Response_StatusCode resp = StatusOK ->
         snd (fst a) = snd (fst b)
         /\ stdout (snd b)
            = stdout s
              ++ [Reader_data (Response_Body resp) +:+ String "010" EmptyString]))
  /\ ((forall req resp,
         ended s (snd a) req resp ->
         redirects resp = true \/ Reader_fault (Response_Body resp) <> None) ->
      snd (fst a) = snd (fst b) /\ stdout (snd b) = stdout s).
Proof.
  cbv zeta. run_ops; do_facts;
    try (destruct (Do_ended _ _ _ _ _ HDo) as (Ha & Hb & Hc));
    rewrite ?Hlog, ?Hout, ?Hrec;
    do 6 (split;
          [first [reflexivity|congruence|tauto
                 |split; intros; discriminate]|]).
  all: split.
  all: try (intros req resp Hend; exfalso;
            exact (ended_none _ _ _ _ _ _ _ Hend)).
  all: try (intros _; split; reflexivity).
  all: try (intros req resp Hend Hred Hf;
            change (ended s s0 req resp) in Hend;
            pose proof (Hb _ _ Hend Hred) as Heq;
            first [discriminate Heq|injection Heq as <-];
            split; intros Hcode; try congruence;
            repeat split; congruence).
  all: intros H; destruct (Ha _ eq_refl) as (Hred0 & req0 & Hend0);
    destruct (H req0 _ Hend0) as [H1|H1]; congruence.
Qed.

(** C9. [SendMessage], [SendPDF] and [Check] leave the [Client] behind
    the receiver as it was: its URL, its HTTP client with the API key,
    and its [WhatsappID]. *)
Theorem client_unchanged s recipientPhone text filename pdf phone :
  receiver (snd (SendMessage recipientPhone text s)) = receiver s
  /\ receiver (snd (SendPDF recipientPhone text filename pdf s)) = receiver s
  /\ receiver (snd (Check phone s)) = receiver s.
Proof. repeat split; run_ops; do_facts; first [reflexivity|assumption]. Qed.

(** C10. Whenever [SendMessage], [SendPDF] or [Check] returns a non-nil
    error, the value returned with it is the zero value: the zero
    [MessageResponse], respectively [false]. *)
Theorem error_means_zero s recipientPhone text filename pdf phone :
  (forall e, snd (fst (SendMessage recipientPhone text s)) = Some e ->
             fst (fst (SendMessage recipientPhone text s))
             = MessageResponse_zero)
  /\ (forall e,
        snd (fst (SendPDF recipientPhone text filename pdf s)) = Some e ->
        fst (fst (SendPDF recipientPhone text filename pdf s))
        = MessageResponse_zero)
  /\ (forall e, snd (fst (Check phone s)) = Some e ->
                fst (fst (Check phone s)) = false).
Proof.
  repeat split; run_ops; intros; try reflexivity; discriminate.
Qed.

(** ** Beyond the ten statements: the other paths of the methods *)

(** X1. [Check], given a URL that [net/url] accepts, hands a request to
    the network: a POST to [{url}/check] that asks for the connection to
    be closed, whose body is the JSON form of a [CheckRequest] with the
    client's [WhatsappID] and the phone number. Read as JSON, the body
    is the object with these two members. It is the only request,
    unless the answer to it is a redirect that the HTTP client
    follows. *)
Theorem Check_request s phone :
  url_Parse (env s) (url (receiver s) +:+ "/check") = None ->
  exists req rest,
    sent s (snd (Check phone s)) = req :: rest
    /\ (settled s req -> rest = [])
    /\ posts_to (url (receiver s) +:+ "/check") req
    /\ Request_Body req
       = marshal (mkCheckRequest (WhatsappID (receiver s)) phone)
    /\ parser.document (Request_Body req)
       = Some
           (JObject
              [("WhatsappID", JString (utf8.coerce (WhatsappID (receiver s))));
               ("number", JString (utf8.coerce phone))]).
Proof.
  intros Hurl.
  run_ops; try congruence; do_facts;
    rewrite ?sent_state, (sent_app _ _ _ Hwire);
    eexists; exists hops; (split; [reflexivity|]);
    (split;
     [ intros Hs; pose proof (Do_settled _ _ _ _ _ HDo Hs) as Hw1;
       rewrite Hwire in Hw1; apply app_inv_head in Hw1; congruence |]);
    unfold posts_to, outbound, Request_add_header, Request_set_Close;
    cbn [Request_Method Request_URL Request_Body Request_Close];
    rewrite CheckRequest_read_back;
    repeat split.
Qed.

(** X2. When [net/url] refuses the URL, nothing is handed to the
    network. [SendMessage] and [SendPDF] (with a document that reads)
    log the error and return it with the zero [MessageResponse]; [Check]
    returns it with [false] and logs nothing. *)
Theorem refused_url_sends_nothing s recipientPhone text filename doc phone e :
  (url_Parse (env s) (url (receiver s) +:+ "/send") = Some e ->
   SendMessage recipientPhone text s
   = (MessageResponse_zero, Some e,
      mkState (receiver s) (env s) (wire s) (slog s ++ [e]) (stdout s))
   /\ SendPDF recipientPhone text filename (mkReader doc None) s
      = (MessageResponse_zero, Some e,
         mkState (receiver s) (env s) (wire s) (slog s ++ [e]) (stdout s)))
  /\
  (url_Parse (env s) (url (receiver s) +:+ "/check") = Some e ->
   Check phone s = (false, Some e, s)).
Proof.
  split; intros Hurl; [split|]; unfold_ops; cbn [Reader_fault Reader_data];
    cbv beta iota zeta; rewrite Hurl; reflexivity.
Qed.

Lemma urlErrorOp_POST : urlErrorOp "POST" = "Post".
Proof. reflexivity. Qed.

(** From [refused]: which request went out, and the error of [Do]. *)
Ltac use_refusal :=
  match goal with
  | H : refused _ _ _ _ |- _ =>
    let Hl := fresh "Hl" in
    let Hn := fresh "Hn" in
    destruct H as [Hl Hn]; cbn [wire env] in Hl, Hn;
    first [ apply lookup_end_none in Hl; contradiction
          | match goal with
            | HDo : http_Client_Do _ _ _ = _ |- _ =>
              let H1 := fresh "Hreq" in
              let H2 := fresh "Hres" in
              let H3 := fresh "Hst" in
              destruct (Do_refused _ _ _ _ _ _ _ HDo Hl Hn)
                as (H1 & H2 & H3);
              try discriminate H2; injection H2 as H2; subst;
              cbn [fst snd wire receiver slog stdout env] in *
            end ]
  end.

(** X3. When the first round trip fails (no response), each method
    returns the error of the round trip, wrapped by [Do] in a
    [*url.Error] with the operation [Post] and the URL of the request,
    with the zero value; it logs that error once, and this one request
    is all it has handed to the network. *)
Theorem round_trip_error_returned
    s recipientPhone text filename pdf phone req e :
  (refused s (snd (SendMessage recipientPhone text s)) req e ->
   fst (SendMessage recipientPhone text s)
   = (MessageResponse_zero, Some (url_Error "Post" (Request_URL req) e))
   /\ wire (snd (SendMessage recipientPhone text s)) = wire s ++ [req]
   /\ slog (snd (SendMessage recipientPhone text s))
      = slog s ++ [url_Error "Post" (Request_URL req) e])
  /\
  (refused s (snd (SendPDF recipientPhone text filename pdf s)) req e ->
   fst (SendPDF recipientPhone text filename pdf s)
   = (MessageResponse_zero, Some (url_Error "Post" (Request_URL req) e))
   /\ wire (snd (SendPDF recipientPhone text filename pdf s)) = wire s ++ [req]
   /\ slog (snd (SendPDF recipientPhone text filename pdf s))
      = slog s ++ [url_Error "Post" (Request_URL req) e])
  /\
  (refused s (snd (Check phone s)) req e ->
   fst (Check phone s)
   = (false, Some (url_Error "Post" (Request_URL req) e))
   /\ wire (snd (Check phone s)) = wire s ++ [req]
   /\ slog (snd (Check phone s))
      = slog s ++ [url_Error "Post" (Request_URL req) e]).
Proof.
  split; [|split]; intros Hr; revert Hr; run_ops; intros Hr; use_refusal;
    repeat split.
Qed.

(** X4. When the document cannot be read, [SendPDF] returns the reader's
    error with the zero [MessageResponse] and does nothing else: no
    request, no log entry. *)
Theorem SendPDF_unreadable_document s recipientPhone text filename pdf e :
  Reader_fault pdf = Some e ->
  SendPDF recipientPhone text filename pdf s
  = (MessageResponse_zero, Some e, s).
Proof.
  intros Hpdf. unfold_ops. rewrite Hpdf. reflexivity.
Qed.




Lemma MessageResponse_of_nothing j :
  wording.bound "result" (wording.members_of j) = [] ->
  wording.MessageResponse_of j = MessageResponse_zero.
Proof.
  destruct j as [|b|lit|s|es|ms]; try reflexivity.
  cbn [wording.members_of wording.MessageResponse_of].
  unfold wording.result_members. intros ->. reflexivity.
Qed.




(** ** All paths of the three methods *)

Ltac run_call c :=
  destruct c as [recipientPhone text|recipientPhone text filename pdf|phone];
  cbn [after failure endpoint payload reads].

Lemma after_frame c s :
  env (after c s) = env s /\ receiver (after c s) = receiver s.
Proof.
  run_call c; run_ops; do_facts; split;
    first [reflexivity|assumption].
Qed.

Lemma after_all_frame cs : forall s,
  env (after_all cs s) = env s /\ receiver (after_all cs s) = receiver s.
Proof.
  induction cs as [|c cs IH]; intros s; [split; reflexivity|].
  cbn [after_all]. destruct (IH (after c s)) as [-> ->]. apply after_frame.
Qed.

(** What a call sends: nothing, or the request it makes followed by at
    most nine more, each of them made by [Do] on a redirect. *)
Lemma sent_after c s :
  match first_request c s with
  | None => sent s (after c s) = []
  | Some req =>
    exists hops,
      sent s (after c s) = req :: hops
      /\ (length hops <= 9)%nat
      /\ Forall (carries (xApiKey (Transport (httpClient (receiver s))))) hops
      /\ Forall (follows_up req) hops
      /\ (settled s req -> hops = [])
  end.
Proof.
  unfold first_request.
  run_call c; run_ops; try discriminate; do_facts;
    rewrite ?sent_state;
    try (rewrite sent_same; reflexivity);
    try (rewrite sent_none by reflexivity; reflexivity);
    rewrite (sent_app _ _ _ Hwire);
    exists hops; (split; [reflexivity|]); (split; [assumption|]);
    (split; [apply Hcar, bare_empty|]); (split; [exact Hshape|]);
    intros Hs; pose proof (Do_settled _ _ _ _ _ HDo Hs) as Hw1;
    rewrite Hwire in Hw1; apply app_inv_head in Hw1; congruence.
Qed.

Lemma head_sent c s : head (sent s (after c s)) = first_request c s.
Proof.
  pose proof (sent_after c s) as H.
  destruct (first_request c s) as [req|].
  - destruct H as (hops & -> & _). reflexivity.
  - rewrite H. reflexivity.
Qed.

Lemma wire_after c s : wire (after c s) = wire s ++ sent s (after c s).
Proof.
  run_call c; run_ops; do_facts;
    rewrite ?sent_state;
    first [ rewrite sent_same, app_nil_r; reflexivity
          | rewrite sent_none, app_nil_r by reflexivity; reflexivity
          | rewrite (sent_app _ _ _ Hwire); exact Hwire ].
Qed.

Lemma at_most_ten_bound c s :
  wire (after c s) = wire s ++ sent s (after c s)
  /\ (length (sent s (after c s)) <= 10)%nat.
Proof.
  split; [apply wire_after|].
  pose proof (sent_after c s) as H.
  destruct (first_request c s).
  - destruct H as (hops & -> & Hlen & _). cbn [length]. lia.
  - rewrite H. cbn [length]. lia.
Qed.

(** X11. Whatever happens, a call hands at most ten requests to the
    network and takes none back. The first, if there is one, is a POST
    to the client's URL with the path of the call ([/send], for [Check]
    [/check]) that asks for the connection to be closed. Those after it
    are the ones the HTTP client makes on a redirect: their [Close] is
    unset, their method is POST or GET, and their body is the body of
    the first or empty. *)
Theorem at_most_ten_requests c s :
  wire (after c s) = wire s ++ sent s (after c s)
  /\ (length (sent s (after c s)) <= 10)%nat
  /\ match sent s (after c s) with
     | [] => True
     | req :: rest =>
       posts_to (url (receiver s) +:+ endpoint c) req
       /\ Forall (fun h =>
                    Request_Close h = false
                    /\ (Request_Method h = "GET" \/ Request_Method h = "POST")
                    /\ (Request_Body h = EmptyString
                        \/ Request_Body h = Request_Body req)) rest
     end.
Proof.
  split; [apply wire_after|].
  pose proof (sent_after c s) as H. unfold first_request in H.
  destruct (reads c); [|rewrite H; cbn [length]; split; [lia|exact I]].
  destruct (url_Parse (env s) (url (receiver s) +:+ endpoint c));
    [rewrite H; cbn [length]; split; [lia|exact I]|].
  destruct H as (hops & -> & Hlen & _ & Hshape & _).
  cbn [length]. split; [lia|]. split; [repeat split|].
  eapply Forall_impl; [exact Hshape|].
  intros h (H1 & H2 & H3). repeat split; assumption.
Qed.

(** X12. What a call writes besides the wire: nothing to standard
    output; to the log at most one entry, and then the error it
    returns; nothing when it returns a nil error. *)
Theorem logs_only_returned_error c s :
  stdout (after c s) = stdout s
  /\ (slog (after c s) = slog s
      \/ exists e, failure c s = Some e /\ slog (after c s) = slog s ++ [e])
  /\ (failure c s = None -> slog (after c s) = slog s).
Proof.
  run_call c; run_ops; do_facts; rewrite ?Hlog, ?Hout;
    (split; [reflexivity|split; [|intros; first [reflexivity|discriminate]]]);
    first [ left; reflexivity
          | right; eexists; split; first [reflexivity|eassumption] ].
Qed.

(** X13. [RoundTrip] of the package's transport, on any request: it
    hands one request to the network and returns the network's answer
    as it is. The request it hands on has the method, URL, body and
    close flag of the one it was given; under [X-Api-Key] and
    [Content-Type] it has the values that were there, followed by the
    API key, respectively [application/json] ([Add], not [Set]); every
    other header is as it was. Hence a request that already has an
    [X-Api-Key] header keeps it as its first value. *)
Theorem RoundTrip_adds_headers t req s :
  exists out,
    snd (RoundTrip t req s)
    = mkState (receiver s) (env s) (wire s ++ [out]) (slog s) (stdout s)
    /\ fst (RoundTrip t req s) = network (env s) (wire s) out
    /\ Request_Method out = Request_Method req
    /\ Request_URL out = Request_URL req
    /\ Request_Body out = Request_Body req
    /\ Request_Close out = Request_Close req
    /\ Request_Header out !! "X-Api-Key"
       = Some (default [] (Request_Header req !! "X-Api-Key") ++ [xApiKey t])
    /\ Request_Header out !! "Content-Type"
       = Some (default [] (Request_Header req !! "Content-Type")
               ++ ["application/json"])
    /\ (forall key, key <> "X-Api-Key" -> key <> "Content-Type" ->
                    Request_Header out !! key = Request_Header req !! key)
    /\ Header_Get "X-Api-Key" (Request_Header out)
       = match Request_Header req !! "X-Api-Key" with
         | Some (v :: _) => v
         | _ => xApiKey t
         end.
Proof.
  unfold RoundTrip, RoundTripper_RoundTrip. destruct (rt t).
  eexists. cbn [fst snd]. split; [reflexivity|]. split; [reflexivity|].
  unfold Request_add_header, Header_Add, Header_Get.
  cbn [Request_Method Request_URL Request_Body Request_Close Request_Header].
  change (textproto.CanonicalMIMEHeaderKey "X-Api-Key") with "X-Api-Key".
  change (textproto.CanonicalMIMEHeaderKey "Content-type") with "Content-Type".
  repeat (split; [reflexivity|]).
  assert (H1 : forall (h : gmap string (list string)) v w,
             <["Content-Type" := w]> (<["X-Api-Key" := v]> h) !! "X-Api-Key"
             = Some v).
  { intros h v w. rewrite lookup_insert_ne by discriminate.
    apply lookup_insert_eq. }
  split; [apply H1|].
  split.
  { rewrite lookup_insert_eq, lookup_insert_ne by discriminate. reflexivity. }
  split.
  { intros key Hk Hc. rewrite !lookup_insert_ne by congruence. reflexivity. }
  rewrite H1.
  destruct (Request_Header req !! "X-Api-Key") as [[|v vs]|]; reflexivity.
Qed.

(** X14. The request a call makes does not depend on the calls before
    it: after any sequence of calls, the first request that a call hands
    to the network is the one it would hand over from the start, and
    the wire holds what the calls of the sequence sent, in order. (What
    the HTTP client sends after it on a redirect depends on the answers
    of the network.) *)
Theorem first_request_independent_of_history cs c s :
  head (sent (after_all cs s) (after c (after_all cs s)))
  = head (sent s (after c s))
  /\ exists rest, wire (after_all (cs ++ [c]) s) = wire s ++ rest
                  /\ (length rest <= 10 * length (cs ++ [c]))%nat.
Proof.
  split.
  - rewrite !head_sent. unfold first_request.
    destruct (after_all_frame cs s) as [-> ->]. reflexivity.
  - generalize (cs ++ [c]). clear cs c. intros cs. revert s.
    induction cs as [|c cs IH]; intros s.
    + exists []. rewrite app_nil_r. split; [reflexivity|cbn; lia].
    + cbn [after_all]. destruct (IH (after c s)) as (rest & Hw & Hlen).
      destruct (at_most_ten_bound c s) as [Hc Hn].
      exists (sent s (after c s) ++ rest). split.
      * rewrite Hw, Hc, <- app_assoc. reflexivity.
      * rewrite length_app. cbn [length]. lia.
Qed.

Lemma EncodeToString_inj a b :
  base64.EncodeToString a = base64.EncodeToString b -> a = b.
Proof.
  intros H. apply (f_equal base64.DecodeString) in H.
  rewrite !DecodeString_EncodeToString in H. congruence.
Qed.

(** X15. The body of a request determines what was asked for. Two calls
    of [SendMessage] that send the same requests have the same recipient
    and text, and two calls of [SendPDF] that send the same requests
    have the same recipient, text, file name and document, byte for
    byte. Texts are compared as JSON has them (for valid UTF-8,
    [utf8.coerce] is the identity): no text can pass for another through
    quotes, braces or escapes in it. *)
Theorem body_determines_arguments
    s recipientPhone text filename doc recipientPhone' text' filename' doc' :
  url_Parse (env s) (url (receiver s) +:+ "/send") = None ->
  (sent s (snd (SendMessage recipientPhone text s))
   = sent s (snd (SendMessage recipientPhone' text' s)) ->
   utf8.coerce recipientPhone = utf8.coerce recipientPhone'
   /\ utf8.coerce text = utf8.coerce text')
  /\
  (sent s (snd (SendPDF recipientPhone text filename (mkReader doc None) s))
   = sent s (snd (SendPDF recipientPhone' text' filename'
                    (mkReader doc' None) s)) ->
   utf8.coerce recipientPhone = utf8.coerce recipientPhone'
   /\ utf8.coerce text = utf8.coerce text'
   /\ utf8.coerce filename = utf8.coerce filename'
   /\ doc = doc').
Proof.
  intros Hurl. split; intros H; apply (f_equal head) in H.
  - change (head (sent s (after (call_SendMessage recipientPhone text) s))
            = head (sent s (after (call_SendMessage recipientPhone' text') s)))
      in H.
    rewrite !head_sent in H. unfold first_request in H.
    cbn [reads endpoint payload] in H. rewrite Hurl in H.
    apply (f_equal body_read) in H.
    unfold body_read, outbound, Request_add_header in H.
    cbn [Request_Body] in H.
    rewrite !MessageRequest_read_back in H.
    unfold MessageRequest_json in H.
    cbn [MessageRequest_WhatsappID MessageRequest_Async
         MessageRequest_Recipient MessageRequest_Message
         Recipient_Number Message_Type Message_Body] in H.
    injection H as H1 H2. split; assumption.
  - change (head (sent s (after (call_SendPDF recipientPhone text filename
                                   (mkReader doc None)) s))
            = head (sent s (after (call_SendPDF recipientPhone' text' filename'
                                     (mkReader doc' None)) s)))
      in H.
    rewrite !head_sent in H. unfold first_request in H.
    cbn [reads endpoint payload Reader_fault Reader_data] in H.
    rewrite Hurl in H.
    apply (f_equal body_read) in H.
    unfold body_read, outbound, Request_add_header in H.
    cbn [Request_Body] in H.
    rewrite !MessagePDFRequest_read_back in H.
    unfold MessagePDFRequest_json, Media_json in H.
    cbn [MessagePDFRequest_WhatsappID MessagePDFRequest_Async
         MessagePDFRequest_Recipient MessagePDFRequest_Message
         Recipient_Number MessagePDF_Type MessagePDF_Body MessagePDF_Media
         Media_Mimetype Media_Data Media_Filename] in H.
    rewrite !(coerce_ascii _ (EncodeToString_ascii _)) in H.
    injection H as H1 H2 H3 H4.
    repeat split; try assumption. apply EncodeToString_inj; assumption.
Qed.

(** X16. In the request a call makes, the API key goes into the
    [X-Api-Key] header and nowhere else: two clients with the same URL
    and [WhatsappID], whatever their keys, make requests with the same
    method, URL, body and close flag and the same headers apart from
    [X-Api-Key], or both make none. *)
Theorem key_only_in_header c s s' :
  env s = env s' ->
  url (receiver s) = url (receiver s') ->
  WhatsappID (receiver s) = WhatsappID (receiver s') ->
  option_Forall2 same_but_key
    (head (sent s (after c s))) (head (sent s' (after c s'))).
Proof.
  intros He Hu Hw. rewrite !head_sent. unfold first_request.
  rewrite <- He, <- Hu.
  destruct (reads c); [|constructor].
  destruct (url_Parse (env s) (url (receiver s) +:+ endpoint c));
    constructor.
  assert (Hp : payload c (receiver s) = payload c (receiver s'))
    by (destruct c; cbn [payload]; rewrite Hw; reflexivity).
  unfold same_but_key, outbound, Request_add_header, Header_Add.
  cbn [Request_Method Request_URL Request_Body Request_Close Request_Header].
  change (textproto.CanonicalMIMEHeaderKey "X-Api-Key") with "X-Api-Key".
  change (textproto.CanonicalMIMEHeaderKey "Content-type") with "Content-Type".
  repeat (split; [first [reflexivity|exact Hp]|]).
  rewrite !(delete_insert_ne _ "X-Api-Key" "Content-Type") by discriminate.
  rewrite !delete_insert_eq. reflexivity.
Qed.

(** X17. A client made by [NewClient] talks to the fixed address of the
    gateway: the request a call makes, whatever was done with the
    client before, is a POST to [https://whatsgate.ru/api/v1/send] (for
    [Check], [.../check]) that asks for the connection to be closed,
    and its headers are exactly two, each with one value: [X-Api-Key]
    with the key given to [NewClient], and
    [Content-Type: application/json]. *)
Theorem NewClient_requests apiKey whatsappID c s req :
  receiver s = NewClient apiKey whatsappID ->
  head (sent s (after c s)) = Some req ->
  posts_to ("https://whatsgate.ru/api/v1" +:+ endpoint c) req
  /\ Request_Header req
     = <["Content-Type" := ["application/json"]]>
         (<["X-Api-Key" := [apiKey]]> ∅).
Proof.
  intros Hc. rewrite head_sent. unfold first_request. rewrite Hc.
  cbn [NewClient httpClient Transport xApiKey url].
  destruct (reads c); [|discriminate].
  destruct (url_Parse (env s) ("https://whatsgate.ru/api/v1" +:+ endpoint c));
    [discriminate|].
  intros [= <-]. split; [repeat split|].
  unfold outbound, Request_add_header, Header_Add. cbn [Request_Header].
  change (textproto.CanonicalMIMEHeaderKey "X-Api-Key") with "X-Api-Key".
  change (textproto.CanonicalMIMEHeaderKey "Content-type") with "Content-Type".
  rewrite lookup_insert_ne by discriminate. rewrite !lookup_empty.
  reflexivity.
Qed.

(** [Do], when the answer to the first request is a redirect whose
    [Location] parses: a second request goes to the URL it names. *)
Lemma Do_redirected c r s res s1 resp u :
  http_Client_Do c r s = (res, s1) ->
  network (env s) (wire s) (outbound (xApiKey (Transport c)) r) = inl resp ->
  redirects resp = true ->
  URL_Parse (env s) (Request_URL (outbound (xApiKey (Transport c)) r))
    (Header_Get "Location" (Response_Header resp)) = inl u ->
  bare (Request_Header r) ->
  exists next,
    wire s1 !! S (length (wire s)) = Some next
    /\ Request_URL next = u
    /\ Request_Close next = false
    /\ carries (xApiKey (Transport c)) next
    /\ (Response_StatusCode resp = 307%Z \/ Response_StatusCode resp = 308%Z ->
        Request_Method next = Request_Method r
        /\ Request_Body next = Request_Body r)
    /\ (Response_StatusCode resp = 301%Z \/ Response_StatusCode resp = 302%Z
        \/ Response_StatusCode resp = 303%Z ->
        Request_Method r = "POST" ->
        Request_Method next = "GET" /\ Request_Body next = EmptyString).
Proof.
  intros HDo Hn Hred Hu Hb. unfold http_Client_Do in HDo.
  change (Request_URL (outbound (xApiKey (Transport c)) r))
    with (Request_URL r) in Hu.
  rewrite do_step in HDo. cbv zeta in HDo. rewrite Hn, Hred, Hu in HDo.
  match type of HDo with
  | http_Client_do ?n ?c ?i ?next ?s' = _ =>
    pose proof (do_frame n c i next s') as HF; cbv zeta in HF;
    rewrite HDo in HF; cbn [fst snd wire] in HF;
    destruct HF as (_ & _ & _ & _ & hops & Hw & _);
    exists (outbound (xApiKey (Transport c)) next)
  end.
  split.
  { rewrite Hw, <- app_assoc. cbn [app].
    rewrite lookup_app_r by lia.
    replace (S (length (wire s)) - length (wire s))%nat with 1%nat by lia.
    reflexivity. }
  split; [reflexivity|]. split; [reflexivity|].
  split; [apply carries_bare, next_request_bare, Hb|].
  unfold outbound, Request_add_header, next_request, redirectBehavior.
  cbn [Request_Method Request_Body].
  split.
  - intros [Hc|Hc]; rewrite Hc; cbn; split; reflexivity.
  - intros [Hc|[Hc|Hc]] Hm; rewrite Hc, Hm; cbn; split; reflexivity.
Qed.

(** X18. A redirect is followed, and the API key goes with it. When the
    answer to the request a call makes is a redirect whose [Location]
    names the URL [u], the HTTP client hands a second request to the
    network: it goes to [u], carries the [X-Api-Key] and [Content-type]
    headers, and does not ask for the connection to be closed. After
    307 or 308 it is a POST with the same body again; after 301, 302 or
    303 it is a GET without a body. *)
Theorem redirect_followed c s req resp u :
  answered s (after c s) req resp ->
  redirects resp = true ->
  URL_Parse (env s) (Request_URL req)
    (Header_Get "Location" (Response_Header resp)) = inl u ->
  exists next,
    wire (after c s) !! S (length (wire s)) = Some next
    /\ Request_URL next = u
    /\ Request_Close next = false
    /\ carries (xApiKey (Transport (httpClient (receiver s)))) next
    /\ (Response_StatusCode resp = 307%Z \/ Response_StatusCode resp = 308%Z ->
        Request_Method next = "POST"
        /\ Request_Body next = Request_Body req)
    /\ (Response_StatusCode resp = 301%Z \/ Response_StatusCode resp = 302%Z
        \/ Response_StatusCode resp = 303%Z ->
        Request_Method next = "GET" /\ Request_Body next = EmptyString).
Proof.
  intros Hans Hred Hu. revert Hans.
  run_call c; run_ops; intros [Hl Hn]; cbn [wire env] in Hl, Hn;
    try (apply lookup_end_none in Hl; contradiction);
    do_facts; rewrite Hwire in Hl; apply lookup_first in Hl; subst req;
    destruct (Do_redirected _ _ _ _ _ _ _ HDo Hn Hred Hu bare_empty)
      as (next & H1 & H2 & H3 & H4 & H5 & H6);
    exists next;
    (split; [exact H1|]); (split; [exact H2|]); (split; [exact H3|]);
    (split; [exact H4|]); (split; [exact H5|]);
    intros Hc; (apply H6; [exact Hc|reflexivity]).
Qed.

Lemma ended_det s s' req resp req' resp' :
  ended s s' req resp -> ended s s' req' resp' -> resp = resp'.
Proof.
  intros (b & Hw & _ & Hn) (b' & Hw' & _ & Hn'). rewrite Hw in Hw'.
  apply app_last_inj in Hw' as [-> ->]. congruence.
Qed.

(** X19. What the last answer of the gateway decides, however many
    redirects were followed before it. A call that returns a nil error
    has sent a request, and the answer to the last request it sent had
    status 200; a call whose last request was answered with another
    status returns a non-nil error. *)
Theorem success_means_200 c s :
  (failure c s = None ->
   exists req resp,
     ended s (after c s) req resp /\ Response_StatusCode resp = StatusOK)
  /\
  (forall req resp,
     ended s (after c s) req resp ->
     Response_StatusCode resp <> StatusOK ->
     failure c s <> None).
Proof.
  split.
  - run_call c; run_ops; intros Hf; try discriminate Hf;
      destruct (Do_ended _ _ _ _ _ HDo) as (Ha & _);
      destruct (Ha _ eq_refl) as (_ & req & Hend);
      exists req; eexists; (split; [exact Hend|assumption]).
  - intros req resp. run_call c; run_ops; intros Hend Hcode;
      try discriminate;
      destruct (Do_ended _ _ _ _ _ HDo) as (Ha & _);
      destruct (Ha _ eq_refl) as (_ & req' & Hend');
      pose proof (ended_det _ _ _ _ _ _ Hend Hend'); congruence.
Qed.

(** ** Where the statements of the specification fail *)



(** C6 as the specification words it fails twice. A text that is not
    valid UTF-8 does not arrive: for the one byte 255 the message body
    is U+FFFD, and the byte 254 gives the same request. And at a
    gateway that has moved there are two POSTs, not one. *)
Lemma SendMessage_request_counterexample :
  (body_read
     (head (sent scenario_200
              (snd (SendMessage "79990001122" (String "255" EmptyString)
                      scenario_200))))
   = Some
       (JObject
          [("WhatsappID", JString "wa1");
           ("async", JBool false);
           ("recipient", JObject [("number", JString "79990001122")]);
           ("message",
            JObject
              [("type", JString "text");
               ("body",
                JString (String "239" (String "191" (String "189" ""))))])])
   /\ sent scenario_200
        (snd (SendMessage "79990001122" (String "255" EmptyString)
                scenario_200))
      = sent scenario_200
          (snd (SendMessage "79990001122" (String "254" EmptyString)
                  scenario_200)))
  /\
  map (fun r => (Request_Method r, Request_URL r))
    (sent scenario_307 (snd (SendMessage "79990001122" "hello" scenario_307)))
  = [("POST", "https://whatsgate.ru/api/v1/send");
     ("POST", "https://example.org/v2/send")].
Proof. repeat split; vm_compute; reflexivity. Qed.

(** ** The theorems at the scenario of the specification *)




(** C4 at the scenario: one request each, with both headers; and at a
    gateway that has moved, where the second request has them too. *)
Lemma requests_carry_headers_witness :
  receiver scenario_200 = NewClient "k1" "wa1"
  /\ length (sent scenario_200
               (snd (SendMessage "79990001122" "hello" scenario_200))) = 1%nat
  /\ Forall (carries "k1")
       (sent scenario_200
          (snd (SendMessage "79990001122" "hello" scenario_200)))
  /\ Forall (carries "k1")
       (sent scenario_200
          (snd (SendPDF "79990001122" "hello" "a.pdf" a_pdf scenario_200)))
  /\ Forall (carries "k1")
       (sent scenario_200 (snd (Check "79990001122" scenario_200)))
  /\ length (sent scenario_307
               (snd (SendMessage "79990001122" "hello" scenario_307))) = 2%nat
  /\ Forall (carries "k1")
       (sent scenario_307
          (snd (SendMessage "79990001122" "hello" scenario_307))).
Proof.
  split; [reflexivity|]. split; [reflexivity|].
  destruct (requests_carry_headers scenario_200 "k1" "wa1" "79990001122"
              "hello" "a.pdf" a_pdf "79990001122" eq_refl) as (H1 & H2 & H3).
  destruct (requests_carry_headers scenario_307 "k1" "wa1" "79990001122"
              "hello" "a.pdf" a_pdf "79990001122" eq_refl) as (H4 & _).
  repeat (split; [assumption|]). split; [reflexivity|assumption].
Defined.

(** C5 at the scenario, with a small document. *)
Lemma SendPDF_request_witness :
  url_Parse (env scenario_200) (url (receiver scenario_200) +:+ "/send") = None
  /\ exists req,
       sent scenario_200
         (snd (SendPDF "79990001122" "hello" "a.pdf" (mkReader "%PDF-1.4" None)
                 scenario_200)) = [req]
       /\ Request_Method req = "POST"
       /\ Request_URL req = "https://whatsgate.ru/api/v1/send"
       /\ parser.document (Request_Body req)
          = Some
              (JObject
                 [("WhatsappID", JString "wa1");
                  ("async", JBool false);
                  ("recipient", JObject [("number", JString "79990001122")]);
                  ("message",
                   JObject
                     [("type", JString "doc");
                      ("body", JString "hello");
                      ("media",
                       JObject
                         [("mimetype", JString "application/pdf");
                          ("data", JString "JVBERi0xLjQ=");
                          ("filename", JString "a.pdf")])])]).
Proof.
  split; [reflexivity|].
  destruct (SendPDF_request scenario_200 "79990001122" "hello" "a.pdf"
              "%PDF-1.4" eq_refl)
    as (req & rest & H1 & Hs & H2 & H3 & _ & H5 & _).
  exists req.
  assert (Hrest : rest = []).
  { apply Hs. apply (f_equal head) in H1. vm_compute in H1.
    injection H1 as <-. reflexivity. }
  rewrite Hrest in H1. repeat split; assumption.
Defined.

(** C6 at the scenario. *)
Lemma SendMessage_request_witness :
  url_Parse (env scenario_200) (url (receiver scenario_200) +:+ "/send") = None
  /\ exists req,
       sent scenario_200 (snd (SendMessage "79990001122" "hello" scenario_200))
       = [req]
       /\ Request_Method req = "POST"
       /\ Request_URL req = "https://whatsgate.ru/api/v1/send"
       /\ parser.document (Request_Body req)
          = Some
              (JObject
                 [("WhatsappID", JString "wa1");
                  ("async", JBool false);
                  ("recipient", JObject [("number", JString "79990001122")]);
                  ("message",
                   JObject [("type", JString "text");
                            ("body", JString "hello")])]).
Proof.
  split; [reflexivity|].
  destruct (SendMessage_request scenario_200 "79990001122" "hello" eq_refl)
    as (req & rest & H1 & Hs & H2 & H3 & _ & H5 & Hp & Ht).
  exists req.
  assert (Hrest : rest = []).
  { apply Hs. apply (f_equal head) in H1. vm_compute in H1.
    injection H1 as <-. reflexivity. }
  rewrite Hrest in H1.
  rewrite (Hp eq_refl), (Ht eq_refl) in H5.
  repeat split; assumption.
Defined.


(** C8 at a gateway that answers 404, where the error texts differ, and
    at the scenario of the specification, where the older variant
    prints the body. *)
Lemma variants_agree_witness :
  snd (fst (SendMessage "79990001122" "hello" scenario_404))
  = Some (errors_New "некорректный номер WhatsApp")
  /\ snd (fst (Variant.SendMessage "79990001122" "hello" scenario_404))
     = Some (errors_New "404 Not Found")
  /\ stdout (snd (Variant.SendMessage "79990001122" "hello" scenario_404))
     = []
  /\ stdout (snd (Variant.SendMessage "79990001122" "hello" scenario_200))
     = [body_abc +:+ String "010" EmptyString].
Proof.
  destruct (variants_agree scenario_404 "79990001122" "hello")
    as (_ & _ & _ & _ & _ & _ & H404 & _).
  destruct (variants_agree scenario_200 "79990001122" "hello")
    as (_ & _ & _ & _ & _ & _ & H200 & _).
  cbv zeta in H404, H200.
  evar (rq1 : Request). evar (rq2 : Request).
  destruct (H404 rq1 (mkResponse "404 Not Found" 404 ∅
                        (mkReader "not found" None))) as [H1 _];
    [exists []; subst rq1; repeat split; cbn; lia|reflexivity|reflexivity|].
  destruct (H200 rq2 (mkResponse "200 OK" 200 ∅ (mkReader body_abc None)))
    as [_ H2];
    [exists []; subst rq2; repeat split; cbn; lia|reflexivity|reflexivity|].
  destruct (H1 ltac:(discriminate)) as (Ha & Hb & Hc).
  destruct (H2 eq_refl) as (_ & Hd).
  repeat split; assumption.
Defined.

(** C10 at a gateway that answers 404: three calls that fail. *)
Lemma error_means_zero_witness :
  snd (fst (SendMessage "79990001122" "hello" scenario_404))
  = Some (errors_New "некорректный номер WhatsApp")
  /\ fst (fst (SendMessage "79990001122" "hello" scenario_404))
     = MessageResponse_zero
  /\ fst (fst (SendPDF "79990001122" "hello" "a.pdf" a_pdf scenario_404))
     = MessageResponse_zero
  /\ fst (fst (Check "79990001122" scenario_404)) = false.
Proof.
  split; [reflexivity|].
  destruct (error_means_zero scenario_404 "79990001122" "hello" "a.pdf" a_pdf
              "79990001122") as (H1 & H2 & H3).
  split; [exact (H1 _ eq_refl)|].
  split; [exact (H2 _ eq_refl)|exact (H3 _ eq_refl)].
Defined.

(** ** The further statements on concrete settings *)

Lemma Check_request_witness :
  exists req,
    sent scenario_check (snd (Check "79990001122" scenario_check)) = [req]
    /\ parser.document (Request_Body req)
       = Some (JObject [("WhatsappID", JString "wa1");
                        ("number", JString "79990001122")]).
Proof.
  destruct (Check_request scenario_check "79990001122" eq_refl)
    as (req & rest & H1 & Hs & _ & _ & H4).
  exists req.
  assert (Hrest : rest = []).
  { apply Hs. apply (f_equal head) in H1. vm_compute in H1.
    injection H1 as <-. reflexivity. }
  rewrite Hrest in H1. split; [exact H1|]. rewrite H4. vm_compute.
  reflexivity.
Defined.

Lemma refused_url_sends_nothing_witness :
  SendMessage "79990001122" "hello" scenario_no_url
  = (MessageResponse_zero, Some (foreign_error "invalid URL"),
     mkState (receiver scenario_no_url) (env scenario_no_url) []
       [foreign_error "invalid URL"] [])
  /\ Check "79990001122" scenario_no_url
     = (false, Some (foreign_error "invalid URL"), scenario_no_url).
Proof.
  destruct (refused_url_sends_nothing scenario_no_url "79990001122" "hello"
              "a.pdf" "%PDF-1.4" "79990001122" (foreign_error "invalid URL"))
    as [H1 H2].
  destruct (H1 eq_refl) as [Hm _]. split; [exact Hm|exact (H2 eq_refl)].
Defined.

Lemma round_trip_error_returned_witness :
  fst (SendMessage "79990001122" "hello" scenario_offline)
  = (MessageResponse_zero,
     Some (url_Error "Post" "https://whatsgate.ru/api/v1/send"
             (foreign_error "connection refused")))
  /\ fst (SendPDF "79990001122" "hello" "a.pdf" a_pdf scenario_offline)
     = (MessageResponse_zero,
        Some (url_Error "Post" "https://whatsgate.ru/api/v1/send"
                (foreign_error "connection refused")))
  /\ fst (Check "79990001122" scenario_offline)
     = (false,
        Some (url_Error "Post" "https://whatsgate.ru/api/v1/check"
                (foreign_error "connection refused"))).
Proof.
  evar (rq1 : Request). evar (rq2 : Request). evar (rq3 : Request).
  destruct (round_trip_error_returned scenario_offline "79990001122" "hello"
              "a.pdf" a_pdf "79990001122" rq1
              (foreign_error "connection refused")) as [H1 _].
  destruct (round_trip_error_returned scenario_offline "79990001122" "hello"
              "a.pdf" a_pdf "79990001122" rq2
              (foreign_error "connection refused")) as [_ [H2 _]].
  destruct (round_trip_error_returned scenario_offline "79990001122" "hello"
              "a.pdf" a_pdf "79990001122" rq3
              (foreign_error "connection refused")) as [_ [_ H3]].
  destruct H1 as [H1 _]; [split; subst rq1; reflexivity|].
  destruct H2 as [H2 _]; [split; subst rq2; reflexivity|].
  destruct H3 as [H3 _]; [split; subst rq3; reflexivity|].
  repeat split; assumption.
Defined.

Lemma SendPDF_unreadable_document_witness :
  SendPDF "79990001122" "hello" "a.pdf" unreadable_pdf scenario_200
  = (MessageResponse_zero, Some (foreign_error "read error"), scenario_200).
Proof.
  exact (SendPDF_unreadable_document scenario_200 "79990001122" "hello"
           "a.pdf" unreadable_pdf (foreign_error "read error") eq_refl).
Defined.







Lemma logs_only_returned_error_witness :
  failure (call_SendMessage "79990001122" "hello") scenario_200 = None
  /\ slog (after (call_SendMessage "79990001122" "hello") scenario_200) = [].
Proof.
  assert (H : failure (call_SendMessage "79990001122" "hello") scenario_200
              = None) by (vm_compute; reflexivity).
  split; [exact H|].
  exact (proj2 (proj2 (logs_only_returned_error
                         (call_SendMessage "79990001122" "hello")
                         scenario_200)) H).
Defined.

Lemma RoundTrip_adds_headers_witness :
  exists out,
    fst (RoundTrip (mktransport http_DefaultTransport "k1")
           (mkRequest "POST" "https://example.org/send"
              {["X-Api-Key" := ["old"]; "Accept" := ["*/*"]]} "{}" true)
           scenario_200)
    = network (env scenario_200) [] out
    /\ Request_Header out !! "Accept" = Some ["*/*"]
    /\ Request_Header out !! "X-Api-Key" = Some ["old"; "k1"]
    /\ Header_Get "X-Api-Key" (Request_Header out) = "old".
Proof.
  destruct (RoundTrip_adds_headers (mktransport http_DefaultTransport "k1")
              (mkRequest "POST" "https://example.org/send"
                 (<["X-Api-Key" := ["old"]]> (<["Accept" := ["*/*"]]> ∅))
                 "{}" true)
              scenario_200)
    as (out & _ & Hn & _ & _ & _ & _ & Hk & _ & Hother & Hget).
  exists out. split; [exact Hn|]. split; [|split].
  - rewrite Hother by discriminate. vm_compute. reflexivity.
  - rewrite Hk. vm_compute. reflexivity.
  - rewrite Hget. vm_compute. reflexivity.
Defined.

Lemma body_determines_arguments_witness :
  sent scenario_200 (snd (SendMessage "79990001122" "hello" scenario_200))
  <> sent scenario_200 (snd (SendMessage "79990001122" "hallo" scenario_200)).
Proof.
  intros H.
  destruct (body_determines_arguments scenario_200 "79990001122" "hello"
              "a.pdf" "%PDF-1.4" "79990001122" "hallo" "a.pdf" "%PDF-1.4"
              eq_refl) as [H1 _].
  destruct (H1 H) as [_ Ht]. vm_compute in Ht. discriminate Ht.
Defined.

Lemma key_only_in_header_witness :
  option_Forall2 same_but_key
    (head (sent scenario_200 (after (call_Check "79990001122") scenario_200)))
    (head (sent (start (NewClient "k2" "wa1") (gateway "200 OK" 200 body_abc))
             (after (call_Check "79990001122")
                (start (NewClient "k2" "wa1")
                   (gateway "200 OK" 200 body_abc))))).
Proof.
  exact (key_only_in_header (call_Check "79990001122") scenario_200
           (start (NewClient "k2" "wa1") (gateway "200 OK" 200 body_abc))
           eq_refl eq_refl eq_refl).
Defined.

Lemma NewClient_requests_witness :
  exists req,
    head (sent scenario_offline
            (after (call_Check "79990001122") scenario_offline)) = Some req
    /\ posts_to "https://whatsgate.ru/api/v1/check" req
    /\ Request_Header req
       = <["Content-Type" := ["application/json"]]>
           (<["X-Api-Key" := ["k1"]]> ∅).
Proof.
  eexists. split; [reflexivity|].
  exact (NewClient_requests "k1" "wa1" (call_Check "79990001122")
           scenario_offline _ eq_refl eq_refl).
Defined.

(** X18 at gateways that have moved: after 307 the POST is repeated at
    the new address, after 303 a GET goes there; both carry the key. *)
Lemma redirect_followed_witness :
  (exists next,
     wire (after (call_SendMessage "79990001122" "hello") scenario_307)
       !! 1%nat = Some next
     /\ Request_URL next = "https://example.org/v2/send"
     /\ Request_Method next = "POST"
     /\ carries "k1" next)
  /\
  (exists next,
     wire (after (call_SendMessage "79990001122" "hello") scenario_303)
       !! 1%nat = Some next
     /\ Request_URL next = "https://example.org/v2/send"
     /\ Request_Method next = "GET"
     /\ Request_Body next = EmptyString).
Proof.
  evar (rq1 : Request). evar (rq2 : Request).
  split.
  - destruct (redirect_followed (call_SendMessage "79990001122" "hello")
                scenario_307 rq1
                (mkResponse "307 Temporary Redirect" 307
                   {["Location" := ["https://example.org/v2/send"]]}
                   (mkReader EmptyString None))
                "https://example.org/v2/send")
      as (next & H1 & H2 & _ & H4 & H5 & _);
      [split; subst rq1; reflexivity|reflexivity|reflexivity|].
    exists next. split; [exact H1|]. split; [exact H2|].
    split; [exact (proj1 (H5 (or_introl eq_refl)))|exact H4].
  - destruct (redirect_followed (call_SendMessage "79990001122" "hello")
                scenario_303 rq2
                (mkResponse "303 See Other" 303
                   {["Location" := ["https://example.org/v2/send"]]}
                   (mkReader EmptyString None))
                "https://example.org/v2/send")
      as (next & H1 & H2 & _ & _ & _ & H6);
      [split; subst rq2; reflexivity|reflexivity|reflexivity|].
    exists next. split; [exact H1|]. split; [exact H2|].
    exact (H6 (or_intror (or_intror eq_refl))).
Defined.

(** X19 at a gateway that has moved and at one that answers 404. *)
Lemma success_means_200_witness :
  (exists req resp,
     ended scenario_307
       (after (call_SendMessage "79990001122" "hello") scenario_307) req resp
     /\ Request_URL req = "https://example.org/v2/send"
     /\ Response_StatusCode resp = StatusOK)
  /\ failure (call_SendMessage "79990001122" "hello") scenario_404 <> None.
Proof.
  split.
  - destruct (proj1 (success_means_200
                       (call_SendMessage "79990001122" "hello") scenario_307)
                ltac:(vm_compute; reflexivity)) as (req & resp & He & Hc).
    exists req, resp. split; [exact He|]. split; [|exact Hc].
    destruct He as (before & Hw & _). vm_compute in Hw.
    destruct before as [|a [|b before]]; try discriminate Hw.
    + injection Hw as _ <-. reflexivity.
    + destruct before; discriminate Hw.
  - evar (rq : Request).
    apply (proj2 (success_means_200
                    (call_SendMessage "79990001122" "hello") scenario_404)
             rq (mkResponse "404 Not Found" 404 ∅
                   (mkReader "not found" None))).
    + exists []. subst rq. repeat split. cbn. lia.
    + discriminate.
Defined.

(** A gateway that answers every request with a redirect: the call gives
    up after ten requests, with the error of [net/http]. *)
Example redirect_limit :
  fst (SendMessage "79990001122" "hello" scenario_loop)
  = (MessageResponse_zero,
     Some (url_Error "Post" "https://example.org/again"
             (errors_New "stopped after 10 redirects")))
  /\ length (wire (snd (SendMessage "79990001122" "hello" scenario_loop)))
     = 10%nat
  /\ slog (snd (SendMessage "79990001122" "hello" scenario_loop))
     = [url_Error "Post" "https://example.org/again"
          (errors_New "stopped after 10 redirects")].
Proof. repeat split; vm_compute; reflexivity. Qed.
